(** * Query orchestration and confidence-gated retrieval

    A shallow embedding of [orchestrator.py], [agents/api_agent.py],
    [agents/scraping_agent.py], [agents/retriever_agent.py] and
    [agents/language_agent.py], and the properties of the dispatcher, the
    ticker extractor, the market brief and the retrieval confidence that the
    specification states.

    Conventions of the embedding.
    - A Python [str] is a list of Unicode code points ([N]); literals are
      written as UTF-8 text and decoded by [py].
    - A Python [float] is a binary64 number and is modelled by the rational
      it denotes; every arithmetic operation rounds its exact result to
      binary64 ([Float.round64]: to the nearest number, ties to even, with
      the subnormal numbers). Where an operation can leave the finite
      numbers its result is a [Float.float], which has the infinities, the
      negative zero and NaN.
    - A JSON document (and every Python object built from one) is a [value];
      a [dict] keeps its insertion order, as in Python, and is an
      association list.
    - A call that may raise returns a [res]; a coroutine that awaits
      collaborators runs in the monad [M], which also records the calls it
      made, in order.
    - What the interpreter and its libraries provide and the repository does
      not contain (Unicode tables, [repr], [float] parsing, the text of an
      exception) is a field of [PyRuntime]. *)

From Stdlib Require Import Strings.String Strings.Ascii DecimalString.
From Stdlib Require Import List ZArith NArith QArith Qminmax Qround Qabs Qpower.
From Stdlib Require Import Bool Lia Lqa.
Import ListNotations.
Close Scope Q_scope.

Set Implicit Arguments.
Set Warnings "-register-all".

(* ===================================================================== *)
(** ** Strings *)
(* ===================================================================== *)

Module Str.

Definition char := N.
Definition str := list char.

Fixpoint bytes_of (s : string) : list N :=
  match s with
  | EmptyString => []
  | String a s' => N_of_ascii a :: bytes_of s'
  end.

(** UTF-8 decoding of a literal; [pending] continuation bytes are still
    expected for the code point accumulated in [acc]. *)
Fixpoint utf8_go (pending : nat) (acc : N) (bs : list N) : str :=
  match bs with
  | [] => []
  | b :: bs' =>
      match pending with
      | O =>
          if (b <? 128)%N then b :: utf8_go 0 0 bs'
          else if (b <? 224)%N then utf8_go 1 (b - 192) bs'
          else if (b <? 240)%N then utf8_go 2 (b - 224) bs'
          else utf8_go 3 (b - 240) bs'
      | S p =>
          let acc' := (acc * 64 + (b - 128))%N in
          match p with
          | O => acc' :: utf8_go 0 0 bs'
          | S _ => utf8_go p acc' bs'
          end
      end
  end.

Definition py (s : string) : str := utf8_go 0 0 (bytes_of s).

Definition newline : char := 10%N.

Fixpoint eqb (a b : str) : bool :=
  match a, b with
  | [], [] => true
  | x :: a', y :: b' => (x =? y)%N && eqb a' b'
  | _, _ => false
  end.

(** [s.startswith(p)] *)
Fixpoint startswith (p s : str) : bool :=
  match p, s with
  | [], _ => true
  | c :: p', d :: s' => (c =? d)%N && startswith p' s'
  | _ :: _, [] => false
  end.

(** [sub in s] *)
Fixpoint contains (sub s : str) : bool :=
  startswith sub s ||
  match s with
  | [] => false
  | _ :: s' => contains sub s'
  end.

(** [sep.join(parts)] *)
Fixpoint join (sep : str) (parts : list str) : str :=
  match parts with
  | [] => []
  | [p] => p
  | p :: rest => p ++ sep ++ join sep rest
  end.

(** [s.replace(old, new)] for a non-empty [old]: the occurrences are taken
    from the left and do not overlap; [skip] characters of the occurrence
    just replaced are still to be dropped. *)
Fixpoint replace_go (old new : str) (skip : nat) (s : str) : str :=
  match s with
  | [] => []
  | c :: s' =>
      match skip with
      | S n => replace_go old new n s'
      | O =>
          if startswith old s
          then new ++ replace_go old new (length old - 1) s'
          else c :: replace_go old new 0 s'
      end
  end.

Definition replace (old new s : str) : str := replace_go old new 0 s.

(** [str.isspace] for one character (the Unicode White_Space code points
    and the four ASCII separators that Python adds). *)
Definition is_space (c : char) : bool :=
  ((9 <=? c) && (c <=? 13) || (28 <=? c) && (c <=? 32) ||
   (c =? 133) || (c =? 160) || (c =? 5760) ||
   (8192 <=? c) && (c <=? 8202) ||
   (c =? 8232) || (c =? 8233) || (c =? 8239) || (c =? 8287) ||
   (c =? 12288))%N.

Fixpoint lstrip (s : str) : str :=
  match s with
  | c :: s' => if is_space c then lstrip s' else s
  | [] => []
  end.

(** [s.strip()] *)
Definition strip (s : str) : str := rev (lstrip (rev (lstrip s))).

Definition is_ascii (c : char) : bool := (c <? 128)%N.
Definition is_upper_AZ (c : char) : bool := ((65 <=? c) && (c <=? 90))%N.
Definition is_lower_az (c : char) : bool := ((97 <=? c) && (c <=? 122))%N.
Definition is_digit (c : char) : bool := ((48 <=? c) && (c <=? 57))%N.

Definition ascii_lower_char (c : char) : char :=
  if is_upper_AZ c then (c + 32)%N else c.
Definition ascii_upper_char (c : char) : char :=
  if is_lower_az c then (c - 32)%N else c.

(** [s.split("\n")] *)
Fixpoint lines (s : str) : list str :=
  match s with
  | [] => [[]]
  | c :: s' =>
      if (c =? newline)%N then [] :: lines s'
      else
        match lines s' with
        | l :: ls => (c :: l) :: ls
        | [] => [[c]]
        end
  end.

(** Decimal rendering of a natural number, [str(n)] for [n >= 0]. *)
Definition of_nat (n : nat) : str :=
  bytes_of (NilZero.string_of_uint (Nat.to_uint n)).

End Str.

Import Str.

(* ===================================================================== *)
(** ** Floats and their formatting *)
(* ===================================================================== *)

Module Float.
Local Open Scope Q_scope.

(** The value of the literal [0.7]: the binary64 number nearest to 7/10. *)
Definition lit_0_7 : Q := 3152519739159347 # 4503599627370496.

(** [x < y] on floats. *)
Definition ltb (x y : Q) : bool :=
  match x ?= y with
  | Lt => true
  | _ => false
  end.

(** Rounding of a rational to the nearest integer, ties to even, as
    binary64 arithmetic and correctly rounded formatting do. *)
Definition round_half_even (q : Q) : Z :=
  let f := Qfloor q in
  match ((q - inject_Z f) ?= (1 # 2))%Q with
  | Lt => f
  | Gt => (f + 1)%Z
  | Eq => if Z.even f then f else (f + 1)%Z
  end.

(** [2^k] *)
Definition pow2 (k : Z) : Q := 2 ^ k.

(** [floor(log2 q)] for a positive [q]: the sizes of the numerator and of
    the denominator leave two candidates. *)
Definition ilog2 (q : Q) : Z :=
  let k := (Z.log2 (Qnum q) - Z.log2 (Zpos (Qden q)))%Z in
  if Qle_bool (pow2 k) q then k else (k - 1)%Z.

(** The exponent of the unit in the last place of the binary64 numbers
    around a positive [q]: 53 bits of precision, and below [2^-1022] the
    spacing of the subnormal numbers. *)
Definition ulp_exp (q : Q) : Z := (Z.max (ilog2 q) (-1022) - 52)%Z.

(** A positive rational rounded to a multiple of its unit in the last
    place. *)
Definition round_pos (q : Q) : Q :=
  inject_Z (round_half_even (q / pow2 (ulp_exp q))) * pow2 (ulp_exp q).

(** Rounding to binary64: to the nearest number, ties to the one with an
    even significand. The exponent is not bounded above here: a result of
    magnitude [2^1024] or more is an overflow, which [rounded] turns into
    an infinity. *)
Definition round64 (q : Q) : Q :=
  match q ?= 0 with
  | Eq => 0
  | Gt => round_pos q
  | Lt => - round_pos (- q)
  end.

(** A rational that is a binary64 number. *)
Definition is_binary64 (q : Q) : Prop := round64 q == q.

(** The integers up to [2^53] are binary64 numbers, one by one. *)
Definition cap : Z := (2 ^ 53)%Z.

(** [x + y], [x - y] and [x / y] on floats, where the result is finite. *)
Definition add (x y : Q) : Q := round64 (x + y).
Definition sub (x y : Q) : Q := round64 (x - y).
Definition div (x y : Q) : Q := round64 (x / y).

(** [float(n)] of an [int], as the division of a float by an [int] takes
    it. *)
Definition of_int (n : nat) : Q := round64 (inject_Z (Z.of_nat n)).

(** A float in full: a finite number other than the negative zero, the
    negative zero, an infinity or NaN. *)
Inductive float : Type :=
| Finite (q : Q)
| NegZero
| Infinity (negative : bool)
| NaN.

(** The binary64 result of an operation whose exact result is [exact];
    [negative] is the sign of that result, which a zero and an infinity
    keep. *)
Definition rounded (negative : bool) (exact : Q) : float :=
  let r := round64 exact in
  if Qle_bool (pow2 1024) (Qabs r) then Infinity negative
  else if Qeq_bool r 0 then (if negative then NegZero else Finite 0)
  else Finite r.

Definition is_negative (q : Q) : bool := ltb q 0.

(** [x - y] on finite floats. *)
Definition minus (x y : Q) : float := rounded (is_negative (x - y)) (x - y).

(** The quotient of a float by a finite float. (Python raises
    [ZeroDivisionError] where the divisor is zero; see [returns_of].) *)
Definition quotient (x : float) (y : Q) : float :=
  match x with
  | NaN => NaN
  | Infinity s => Infinity (xorb s (is_negative y))
  | NegZero =>
      if Qeq_bool y 0 then NaN
      else if is_negative y then Finite 0 else NegZero
  | Finite q =>
      if Qeq_bool y 0
      then (if Qeq_bool q 0 then NaN else Infinity (is_negative q))
      else rounded (xorb (is_negative q) (is_negative y)) (q / y)
  end.

(** The product of a float and a finite float. *)
Definition times (x : float) (y : Q) : float :=
  match x with
  | NaN => NaN
  | Infinity s =>
      if Qeq_bool y 0 then NaN else Infinity (xorb s (is_negative y))
  | NegZero => if is_negative y then Finite 0 else NegZero
  | Finite q => rounded (xorb (is_negative q) (is_negative y)) (q * y)
  end.

(** [f"{q:.2f}"] of a finite float: the exact value of the float, rounded
    to two decimals. *)
Definition fixed_2 (q : Q) : str :=
  let n := round_half_even (Qabs q * 100) in
  let frac := (n mod 100)%Z in
  (if ltb q 0 then py "-" else []) ++
  of_nat (Z.to_nat (n / 100)) ++ py "." ++
  (if (frac <? 10)%Z then py "0" else []) ++ of_nat (Z.to_nat frac).

(** [f"{x:.2f}"] *)
Definition format_2f (x : float) : str :=
  match x with
  | Finite q => fixed_2 q
  | NegZero => py "-0.00"
  | Infinity false => py "inf"
  | Infinity true => py "-inf"
  | NaN => py "nan"
  end.

End Float.


(* ===================================================================== *)
(** ** Python values, exceptions and the interpreter's own functions *)
(* ===================================================================== *)

(** What [json.loads] builds, and so every object the agents hand to the
  orchestrator. A [VDict] lists its items in insertion order. *)
Inductive value : Type :=
| VNone
| VBool (b : bool)
| VInt (z : Z)
| VFloat (q : Q)
| VStr (s : str)
| VList (l : list value)
| VDict (items : list (str * value)).

Inductive error_kind : Type :=
| AttributeError | IndexError | KeyError | TypeError | ValueError
| ZeroDivisionError.

Inductive exn : Type :=
| HTTPException (status_code : Z) (detail : value)
| RequestException (message : str)
| PyError (kind : error_kind)
| OtherException (message : str).

(** The outcome of a call: a result or a raised exception. *)
Inductive res (A : Type) : Type :=
| Ok (a : A)
| Raise (e : exn).
Arguments Ok {A} a.
Arguments Raise {A} e.

Definition res_bind {A B} (r : res A) (f : A -> res B) : res B :=
match r with
| Ok a => f a
| Raise e => Raise e
end.

Declare Scope res_scope.
Delimit Scope res_scope with res.
Notation "'let?' x ':=' r 'in' k" := (res_bind r (fun x => k))
  (at level 10, x pattern, r at level 100, k at level 200) : res_scope.

(** [[f(x) for x in xs]] where [f] may raise: the first exception wins. *)
Fixpoint res_map {A B} (f : A -> res B) (xs : list A) : res (list B) :=
match xs with
| [] => Ok []
| x :: xs' =>
    match f x with
    | Raise e => Raise e
    | Ok y =>
        match res_map f xs' with
        | Raise e => Raise e
        | Ok ys => Ok (y :: ys)
        end
    end
end.

(** Behaviour of CPython and of the libraries that the repository relies on
  and does not contain. *)
Class PyRuntime : Type := {
(** [str.isalnum] of one code point outside ASCII (used by [\b]). *)
unicode_isalnum : char -> bool;
(** [str.lower] on a string that has a code point outside ASCII. *)
unicode_lower : str -> str;
(** [str.upper], likewise. *)
unicode_upper : str -> str;
(** [repr] of a value (used by [str] on everything that is not a [str]). *)
py_repr : value -> str;
(** [float(s)] of a string: the binary64 number it reads, [None] when it
    raises [ValueError]. (The strings that [float] reads as an infinity or
    as NaN are taken as not met.) *)
float_of_str : str -> option Q;
(** [str(e)] of an exception. *)
exn_str : exn -> str
}.

Module Py.
Section WithRuntime.
Context {RT : PyRuntime}.

(** [s.lower()] *)
Definition lower (s : str) : str :=
  if forallb is_ascii s then map ascii_lower_char s else unicode_lower s.

(** [s.upper()] *)
Definition upper (s : str) : str :=
  if forallb is_ascii s then map ascii_upper_char s else unicode_upper s.

(** The class [\w] of a [str] pattern: alphanumeric or underscore. *)
Definition is_word (c : char) : bool :=
  if is_ascii c
  then is_upper_AZ c || is_lower_az c || is_digit c || (c =? 95)%N
  else unicode_isalnum c.

(** [bool(v)] *)
Definition truthy (v : value) : bool :=
  match v with
  | VNone => false
  | VBool b => b
  | VInt z => negb (z =? 0)%Z
  | VFloat q => negb (Qeq_bool q 0%Q)
  | VStr s => negb (Nat.eqb (length s) 0)
  | VList l => negb (Nat.eqb (length l) 0)
  | VDict d => negb (Nat.eqb (length d) 0)
  end.

(** [str(v)], what an f-string substitutes for [{v}]. *)
Definition py_str (v : value) : str :=
  match v with
  | VStr s => s
  | VNone => py "None"
  | VBool true => py "True"
  | VBool false => py "False"
  | _ => py_repr v
  end.

Fixpoint lookup (k : str) (d : list (str * value)) : option value :=
  match d with
  | [] => None
  | (k', v) :: d' => if Str.eqb k k' then Some v else lookup k d'
  end.

Definition keys (d : list (str * value)) : list str := map fst d.

(** [k in v] for a string [k]. *)
Definition py_in (k : str) (v : value) : res bool :=
  match v with
  | VDict d => Ok (match lookup k d with Some _ => true | None => false end)
  | VList l =>
      Ok (existsb (fun x => match x with VStr s => Str.eqb k s | _ => false end) l)
  | VStr s => Ok (contains k s)
  | _ => Raise (PyError TypeError)
  end.

(** [v.get(k)] *)
Definition py_get (v : value) (k : str) : res value :=
  match v with
  | VDict d => Ok (match lookup k d with Some x => x | None => VNone end)
  | _ => Raise (PyError AttributeError)
  end.

(** [v.get(k, default)] *)
Definition py_get_default (v : value) (k : str) (default : value) : res value :=
  match v with
  | VDict d => Ok (match lookup k d with Some x => x | None => default end)
  | _ => Raise (PyError AttributeError)
  end.

(** [v[k]] for a string [k]. *)
Definition py_item (v : value) (k : str) : res value :=
  match v with
  | VDict d =>
      match lookup k d with
      | Some x => Ok x
      | None => Raise (PyError KeyError)
      end
  | _ => Raise (PyError TypeError)
  end.

(** [list(v.keys())] *)
Definition py_keys (v : value) : res (list str) :=
  match v with
  | VDict d => Ok (keys d)
  | _ => Raise (PyError AttributeError)
  end.

(** [float(v)]: an [int] is rounded to the nearest float. (An [int]
    beyond the range of the floats, on which [float] raises, is taken as
    not met.) *)
Definition py_float (v : value) : res Q :=
  match v with
  | VFloat q => Ok q
  | VInt z => Ok (Float.round64 (inject_Z z))
  | VBool b => Ok (if b then 1%Q else 0%Q)
  | VStr s =>
      match float_of_str s with
      | Some q => Ok q
      | None => Raise (PyError ValueError)
      end
  | _ => Raise (PyError TypeError)
  end.

End WithRuntime.
End Py.

Import Py.

(* ===================================================================== *)
(** ** Regular expressions: the fragment of [re] that the orchestrator uses *)
(* ===================================================================== *)

(** A backtracking matcher with the semantics of [re] on [str] patterns:
    alternatives are tried from the left, a lazy star tries the shortest
    repetition first, a bounded greedy repetition the longest, and
    [re.search] tries the start positions from the left. *)
Module Re.
Section WithRuntime.
Context {RT : PyRuntime}.

Inductive regex : Type :=
| Lit (s : str)
| Alt (r1 r2 : regex)
| Seq (r1 r2 : regex)
| LazyStar (cls : char -> bool)
| Repeat (cls : char -> bool) (lo hi : nat)
| WordBoundary
| Group (n : nat) (r : regex).

(** A position in the subject: the character before it, its index, the text
    from it on, and the groups closed so far (most recent first). *)
Record cursor : Type := Cursor {
  prev : option char;
  pos : nat;
  rest : str;
  spans : list (nat * (nat * nat))
}.

Definition cont := cursor -> option cursor.

Definition is_word_opt (c : option char) : bool :=
  match c with
  | Some x => is_word x
  | None => false
  end.

Definition at_boundary (c : cursor) : bool :=
  xorb (is_word_opt (prev c)) (is_word_opt (hd_error (rest c))).

(** The character before the position reached by reading [a] from a
    position that had [p] before it. *)
Definition last_of (p : option char) (a : str) : option char :=
  match rev a with
  | x :: _ => Some x
  | [] => p
  end.

Definition advance (c : cursor) (s : str) : cursor :=
  {| prev := last_of (prev c) s;
     pos := pos c + length s;
     rest := skipn (length s) (rest c);
     spans := spans c |}.

Fixpoint lazy_star (cls : char -> bool) (k : cont)
    (p : option char) (i : nat) (sp : list (nat * (nat * nat))) (s : str)
    {struct s} : option cursor :=
  match k (Cursor p i s sp) with
  | Some c => Some c
  | None =>
      match s with
      | x :: s' => if cls x then lazy_star cls k (Some x) (S i) sp s' else None
      | [] => None
      end
  end.

Fixpoint repeat_greedy (cls : char -> bool) (lo hi : nat) (k : cont)
    (p : option char) (i : nat) (sp : list (nat * (nat * nat))) (s : str)
    {struct hi} : option cursor :=
  let stop := if Nat.eqb lo 0 then k (Cursor p i s sp) else None in
  match hi with
  | O => stop
  | S hi' =>
      match s with
      | x :: s' =>
          if cls x then
            match repeat_greedy cls (lo - 1) hi' k (Some x) (S i) sp s' with
            | Some c => Some c
            | None => stop
            end
          else stop
      | [] => stop
      end
  end.

Fixpoint run (r : regex) (k : cont) (c : cursor) {struct r} : option cursor :=
  match r with
  | Lit s => if startswith s (rest c) then k (advance c s) else None
  | Alt r1 r2 =>
      match run r1 k c with
      | Some c' => Some c'
      | None => run r2 k c
      end
  | Seq r1 r2 => run r1 (run r2 k) c
  | LazyStar cls => lazy_star cls k (prev c) (pos c) (spans c) (rest c)
  | Repeat cls lo hi =>
      repeat_greedy cls lo hi k (prev c) (pos c) (spans c) (rest c)
  | WordBoundary => if at_boundary c then k c else None
  | Group n r' =>
      run r'
        (fun c' => k (Cursor (prev c') (pos c') (rest c')
                        ((n, (pos c, pos c')) :: spans c')))
        c
  end.

(** A match object: the subject, the span of the whole match and the spans
    of the groups. *)
Record match_object : Type := Match {
  subject : str;
  m_start : nat;
  m_end : nat;
  m_spans : list (nat * (nat * nat))
}.

Fixpoint span_of (n : nat) (sp : list (nat * (nat * nat))) : option (nat * nat) :=
  match sp with
  | [] => None
  | (n', se) :: sp' => if Nat.eqb n n' then Some se else span_of n sp'
  end.

(** [m.span(n)] *)
Definition span (m : match_object) (n : nat) : option (nat * nat) :=
  span_of n (m_spans m).

(** [m.group(n)], [None] when the group took no part in the match. *)
Definition group (m : match_object) (n : nat) : option str :=
  match span m n with
  | Some (s, e) => Some (firstn (e - s) (skipn s (subject m)))
  | None => None
  end.

Fixpoint search_from (r : regex) (whole : str)
    (p : option char) (i : nat) (s : str) {struct s} : option match_object :=
  match run r Some (Cursor p i s []) with
  | Some c => Some (Match whole i (pos c) (spans c))
  | None =>
      match s with
      | [] => None
      | x :: s' => search_from r whole (Some x) (S i) s'
      end
  end.

(** [re.search(r, s)] *)
Definition search (r : regex) (s : str) : option match_object :=
  search_from r s None 0 s.

End WithRuntime.
End Re.

(* ===================================================================== *)
(** ** Coroutines: results together with the collaborator calls made *)
(* ===================================================================== *)

(** One awaited call of the orchestrator to an agent. *)
Inductive call : Type :=
| CallQuote (ticker : str)
| CallHistorical (ticker : str)
| CallNews (query_term : str)
| CallAnalysis (tickers : list str)
| CallRetrieve (query : str)
| CallGenerate (prompt : str).

Definition M (A : Type) : Type := (list call * res A)%type.

Definition ret {A} (a : A) : M A := ([], Ok a).

Definition lift {A} (r : res A) : M A := ([], r).

Definition await {A} (c : call) (r : res A) : M A := ([c], r).

Definition bind {A B} (m : M A) (f : A -> M B) : M B :=
  match m with
  | (t, Raise e) => (t, Raise e)
  | (t, Ok a) => let (t', r) := f a in (t ++ t', r)
  end.

Definition trace {A} (m : M A) : list call := fst m.
Definition result {A} (m : M A) : res A := snd m.

Declare Scope coro_scope.
Delimit Scope coro_scope with coro.
Notation "x <- m ;; k" := (bind m (fun x => k))
  (at level 61, m at next level, right associativity) : coro_scope.
Notation "' pat <- m ;; k" :=
  (bind m (fun x => match x with pat => k end))
  (at level 61, pat pattern, m at next level, right associativity) : coro_scope.

(* ===================================================================== *)
(** ** orchestrator.py *)
(* ===================================================================== *)

Module Orchestrator.

(** The functions that [orchestrator.py] imports from the agents. Within one
    request an agent is a function of its arguments: no handler calls the
    same agent twice with the same arguments. *)
Record Agents : Type := {
  get_stock_quote : str -> res value;
  get_historical_data : str -> res value;
  get_financial_news_mock : str -> res (list str);
  retrieve_info_from_rag : str -> res (str * Q);
  analyze_risk_volatility_returns : list str -> res value;
  generate_text_with_gemini : str -> res str
}.

Section WithAgents.
Context {RT : PyRuntime}.
Variable agents : Agents.

Local Open Scope coro_scope.

Definition dot (c : char) : bool := negb (c =? newline)%N.

(** [r'(price|quote|stock|performance|historical).*?\b([A-Z]{1,5})\b'] *)
Definition stock_regex : Re.regex :=
  Re.Seq
    (Re.Group 1
       (Re.Alt (Re.Lit (py "price"))
       (Re.Alt (Re.Lit (py "quote"))
       (Re.Alt (Re.Lit (py "stock"))
       (Re.Alt (Re.Lit (py "performance"))
               (Re.Lit (py "historical")))))))
    (Re.Seq (Re.LazyStar dot)
    (Re.Seq Re.WordBoundary
    (Re.Seq (Re.Group 2 (Re.Repeat is_upper_AZ 1 5))
            Re.WordBoundary))).

(** [stock_match.group(2).upper()] *)
Definition ticker_of (stock_match : Re.match_object) : res str :=
  match Re.group stock_match 2 with
  | Some g => Ok (upper g)
  | None => Raise (PyError AttributeError)
  end.

(** The two guards shared by the quote and the historical handler:
    [if data.get("Note"): return data["Note"]] and the same for
    ["Information"]; [otherwise] is the rest of the handler. *)
Definition pass_through (data : value) (otherwise : M value) : M value :=
  note <- lift (py_get data (py "Note")) ;;
  if truthy note then lift (py_item data (py "Note"))
  else
    info <- lift (py_get data (py "Information")) ;;
    if truthy info then lift (py_item data (py "Information"))
    else otherwise.

(** [prices[-1]] *)
Definition last_price (prices : list Q) : Q := last prices 0%Q.

(** [(prices[0] - prices[-1]) / prices[-1] * 100]: the division raises on
    a zero divisor, and each operation rounds. *)
Definition returns_of (prices : list Q) : res Float.float :=
  let first := hd 0%Q prices in
  let last := last_price prices in
  if Qeq_bool last 0 then Raise (PyError ZeroDivisionError)
  else Ok (Float.times (Float.quotient (Float.minus first last) last) 100).

(** The body of [if data and data.get("Time Series (Daily)"):]. *)
Definition historical_report (ticker : str) (data : value) : res value :=
  (let? series := py_item data (py "Time Series (Daily)") in
   let? all_dates := py_keys series in
   match all_dates with
   | [] => Raise (PyError IndexError)
   | latest_date :: _ =>
       let? entry := py_item series latest_date in
       let? latest_close := py_item entry (py "4. close") in
       let dates := firstn 7 all_dates in
       let? prices :=
         res_map (fun d =>
                    let? e := py_item series d in
                    let? c := py_item e (py "4. close") in
                    py_float c) dates in
       if Nat.ltb 1 (length prices) then
         let? returns := returns_of prices in
         Ok (VStr (py "Historical performance for " ++ ticker ++
                   py ": Latest close on " ++ latest_date ++ py " was " ++
                   py_str latest_close ++ py ". Over the last " ++
                   of_nat (length prices) ++ py " days, it changed by " ++
                   Float.format_2f returns ++ py "%."))
       else
         Ok (VStr (py "Latest close for " ++ ticker ++ py " on " ++
                   latest_date ++ py " was " ++ py_str latest_close ++ py "."))
   end)%res.

(** [data and data.get("Time Series (Daily)")] *)
Definition has_time_series (data : value) : res bool :=
  if truthy data then
    (let? series := py_get data (py "Time Series (Daily)") in
     Ok (truthy series))%res
  else Ok false.

Definition historical_handler (ticker : str) : M value :=
  data <- await (CallHistorical ticker) (get_historical_data agents ticker) ;;
  pass_through data
    (present <- lift (has_time_series data) ;;
     if present then lift (historical_report ticker data)
     else ret (VStr (py "⚠️ Could not retrieve historical data for " ++
                     ticker ++ py "."))).

(** The f-string of the quote summary. *)
Definition quote_report (ticker : str) (quote_info : value) : res value :=
  (let? open := py_get quote_info (py "02. open") in
   let? high := py_get quote_info (py "03. high") in
   let? low := py_get quote_info (py "04. low") in
   let? price := py_get quote_info (py "05. price") in
   let? volume := py_get quote_info (py "06. volume") in
   let? day := py_get quote_info (py "07. latest trading day") in
   Ok (VStr (py "📈 " ++ ticker ++ py " Stock Quote:" ++ [newline] ++
             py "Open: " ++ py_str open ++ [newline] ++
             py "High: " ++ py_str high ++ [newline] ++
             py "Low: " ++ py_str low ++ [newline] ++
             py "Price: " ++ py_str price ++ [newline] ++
             py "Volume: " ++ py_str volume ++ [newline] ++
             py "Last Trading Day: " ++ py_str day)))%res.

(** [data and "Global Quote" in data and data["Global Quote"]] *)
Definition has_global_quote (data : value) : res bool :=
  if truthy data then
    (let? present := py_in (py "Global Quote") data in
     if present
     then let? q := py_item data (py "Global Quote") in Ok (truthy q)
     else Ok false)%res
  else Ok false.

Definition quote_handler (ticker : str) : M value :=
  data <- await (CallQuote ticker) (get_stock_quote agents ticker) ;;
  pass_through data
    (present <- lift (has_global_quote data) ;;
     if present then
       quote_info <- lift (py_item data (py "Global Quote")) ;;
       lift (quote_report ticker quote_info)
     else ret (VStr (py "⚠️ Could not retrieve live quote for " ++
                     ticker ++ py "."))).

Definition news_keywords : list str :=
  [py "news"; py "headlines"; py "filings"].

Definition analysis_keywords : list str :=
  [py "analyze"; py "risk"; py "volatility"; py "returns"; py "portfolio"].

Definition explain_keywords : list str :=
  [py "explain"; py "what is"; py "tell me about"; py "define"].

(** [any(term in text for term in terms)] *)
Definition any_in (terms : list str) (text : str) : bool :=
  existsb (fun term => contains term text) terms.

(** [query_lower] without the phrases [news about] and [latest news on],
    stripped. *)
Definition news_query_term_of (query_lower : str) : str :=
  strip (replace (py "latest news on") []
           (replace (py "news about") [] query_lower)).

Definition news_handler (query_lower : str) : M value :=
  let news_query_term := news_query_term_of query_lower in
  news <- await (CallNews news_query_term)
            (get_financial_news_mock agents news_query_term) ;;
  match news with
  | _ :: _ =>
      ret (VStr (py "📰 Latest News:" ++ [newline] ++
                 join [newline] (map (fun n => py "- " ++ n) news)))
  | [] => ret (VStr (py "⚠️ Could not retrieve financial news at this time."))
  end.

Definition tickers_for_analysis : list str := [py "AAPL"; py "GOOGL"].

Definition analysis_handler : M value :=
  analysis_result <- await (CallAnalysis tickers_for_analysis)
     (analyze_risk_volatility_returns agents tickers_for_analysis) ;;
  ret (VStr (py "📊 Financial Analysis for " ++
             join (py ", ") tickers_for_analysis ++ py ":" ++ [newline] ++
             py_str analysis_result)).

Definition low_confidence_header : str :=
  py "I couldn't find very specific info, but here's what I know:".

Definition found_header : str := py "📘 Here's what I found:".

Definition explain_handler (query : str) : M value :=
  '(retrieved_content, confidence_score) <-
     await (CallRetrieve query) (retrieve_info_from_rag agents query) ;;
  if Float.ltb confidence_score Float.lit_0_7 then
    let prompt := py "Explain this concept: " ++ query in
    response <- await (CallGenerate prompt)
                  (generate_text_with_gemini agents prompt) ;;
    ret (VStr (low_confidence_header ++ [newline; newline] ++ response))
  else
    let prompt := py "Explain this based on context:" ++ [newline; newline] ++
                  retrieved_content ++ [newline; newline] ++
                  py "User asked: " ++ query in
    response <- await (CallGenerate prompt)
                  (generate_text_with_gemini agents prompt) ;;
    ret (VStr (found_header ++ [newline; newline] ++ response)).

Definition default_handler (query : str) : M value :=
  let prompt := py "User asked: " ++ query ++
                py ". Please respond as a financial assistant." in
  response <- await (CallGenerate prompt)
                (generate_text_with_gemini agents prompt) ;;
  ret (VStr response).

Definition orchestrate_query (query : str) : M value :=
  let query_lower := lower query in
  match Re.search stock_regex query with
  | Some stock_match =>
      ticker <- lift (ticker_of stock_match) ;;
      if contains (py "historical") query_lower ||
         contains (py "performance") query_lower
      then historical_handler ticker
      else quote_handler ticker
  | None =>
      if any_in news_keywords query_lower then news_handler query_lower
      else if any_in analysis_keywords query_lower then analysis_handler
      else if any_in explain_keywords query_lower then explain_handler query
      else default_handler query
  end.

(** One pass of the loop body of [get_market_brief] after the ["Note"]
    guard: the line appended to [brief_parts]. *)
Definition ticker_line (ticker : str) (data : value) : res str :=
  let unavailable := ticker ++ py ": Quote unavailable." in
  if truthy data then
    (let? present := py_in (py "Global Quote") data in
     if present then
       let? global_quote := py_item data (py "Global Quote") in
       let? price := py_get_default global_quote (py "05. price") (VStr (py "N/A")) in
       let? change := py_get_default global_quote (py "09. change") (VStr (py "N/A")) in
       Ok (ticker ++ py ": $" ++ py_str price ++ py " (Change: " ++
           py_str change ++ py ")")
     else Ok unavailable)%res
  else Ok unavailable.

(** The [for ticker in tickers] loop: [inl v] when the loop returned [v]
    from the function, [inr brief_parts] when it ran to its end. *)
Fixpoint brief_loop (tickers : list str) (brief_parts : list str)
    : M (value + list str) :=
  match tickers with
  | [] => ret (inr brief_parts)
  | ticker :: more =>
      data <- await (CallQuote ticker) (get_stock_quote agents ticker) ;;
      note <- lift (py_get data (py "Note")) ;;
      if truthy note then
        v <- lift (py_item data (py "Note")) ;; ret (inl v)
      else
        line <- lift (ticker_line ticker data) ;;
        brief_loop more (brief_parts ++ [line])
  end.

Definition index_tickers : list str := [py "SPY"; py "QQQ"; py "DIA"].

Definition news_heading : str := newline :: py "🗞️ News:".

Definition get_market_brief : M value :=
  looped <- brief_loop index_tickers [] ;;
  match looped with
  | inl signal => ret signal
  | inr brief_parts =>
      news <- await (CallNews (py "market"))
                (get_financial_news_mock agents (py "market")) ;;
      let brief_parts :=
        match news with
        | [] => brief_parts
        | _ :: _ =>
            (brief_parts ++ [news_heading]) ++
            map (fun h => py "- " ++ h) (firstn 3 news)
        end in
      let prompt := py "Summarize this market brief:" ++ [newline] ++
                    join [newline] brief_parts in
      summary <- await (CallGenerate prompt)
                   (generate_text_with_gemini agents prompt) ;;
      ret (VStr summary)
  end.

End WithAgents.
End Orchestrator.

(* ===================================================================== *)
(** ** agents/api_agent.py *)
(* ===================================================================== *)

Module ApiAgent.

(** What [requests.get(...)], [raise_for_status()] and [response.json()]
    together come to. *)
Inductive http_outcome : Type :=
| Responded (data : value)
| RequestFailed (message : str)
| Failed (e : exn).

(** The process environment and the network. *)
Record Environment : Type := {
  ALPHA_VANTAGE_API_KEY : option str;
  requests_get : str -> list (str * str) -> http_outcome
}.

Section WithEnvironment.
Context {RT : PyRuntime}.
Variable env : Environment.

Definition BASE_URL : str := py "https://www.alphavantage.co/query".

(** The statements of the [try] block that follow [data = response.json()]. *)
Definition inspect (data : value) : res value :=
  (let? is_error := py_in (py "Error Message") data in
   if is_error then
     let? message := py_item data (py "Error Message") in
     Raise (HTTPException 400 message)
   else
     let? is_note := py_in (py "Note") data in
     if is_note then
       let? _ := py_item data (py "Note") in
       Ok (VDict [])
     else Ok data)%res.

Definition unexpected (e : exn) : exn :=
  HTTPException 500 (VStr (py "An unexpected error occurred: " ++ exn_str e)).

Definition fetch_alpha_vantage_data
    (function symbol : str) (kwargs : list (str * str)) : res value :=
  match ALPHA_VANTAGE_API_KEY env with
  | None | Some [] =>
      Raise (HTTPException 500
               (VStr (py "Alpha Vantage API key not set in environment.")))
  | Some key =>
      let params := [(py "function", function); (py "symbol", symbol);
                     (py "apikey", key)] ++ kwargs in
      match requests_get env BASE_URL params with
      | RequestFailed message =>
          Raise (HTTPException 500
                   (VStr (py "Failed to connect to Alpha Vantage: " ++
                          exn_str (RequestException message))))
      | Failed e => Raise (unexpected e)
      | Responded data =>
          match inspect data with
          | Ok d => Ok d
          | Raise e => Raise (unexpected e)
          end
      end
  end.

Definition get_stock_quote (ticker : str) : res value :=
  fetch_alpha_vantage_data (py "GLOBAL_QUOTE") ticker [].

Definition get_historical_data (ticker : str) : res value :=
  fetch_alpha_vantage_data (py "TIME_SERIES_DAILY") ticker
    [(py "outputsize", py "compact")].

End WithEnvironment.
End ApiAgent.

(* ===================================================================== *)
(** ** agents/scraping_agent.py *)
(* ===================================================================== *)

Module ScrapingAgent.
Section WithRuntime.
Context {RT : PyRuntime}.

Definition MOCK_market : list str :=
  [py "Global markets show mixed signals as inflation concerns persist.";
   py "Tech stocks lead rally; S&P 500 hits new high.";
   py "Oil prices surge amidst geopolitical tensions.";
   py "Central banks hint at potential interest rate changes."].

Definition MOCK_company : list (str * list str) :=
  [(py "AAPL",
    [py "Apple announces record quarterly earnings, driven by iPhone sales.";
     py "Analysts raise price targets for AAPL after new product unveiling.";
     py "Apple faces antitrust scrutiny in Europe."]);
   (py "GOOGL",
    [py "Google invests heavily in AI research and development.";
     py "Alphabet beats revenue estimates, cloud growth impresses.";
     py "Google's ad business shows resilience despite market slowdown."]);
   (py "MSFT",
    [py "Microsoft expands cloud services, invests in AI partnerships.";
     py "Windows 12 rumors surface ahead of major Microsoft event.";
     py "Microsoft acquires leading gaming studio for undisclosed sum."])].

Definition MOCK_default : list str :=
  [py "Top financial analysts share their 2024 predictions.";
   py "Understanding the basics of personal finance and investment.";
   py "Cryptocurrency market experiences high volatility.";
   py "Real estate market trends: What to expect next quarter."].

Definition get_financial_news_mock (query_term : str) : list str :=
  let query_lower := lower query_term in
  if existsb (fun ticker => contains ticker query_lower)
       [py "aapl"; py "googl"; py "msft"]
  then
    match find (fun item => contains (lower (fst item)) query_lower)
               MOCK_company with
    | Some (_, news_list) => news_list
    | None => MOCK_default
    end
  else if contains (py "market") query_lower then MOCK_market
  else MOCK_default.

End WithRuntime.
End ScrapingAgent.

(* ===================================================================== *)
(** ** agents/language_agent.py *)
(* ===================================================================== *)

Module LanguageAgent.
Section WithModel.
Context {RT : PyRuntime}.

(** [llm.ainvoke([HumanMessage(content=prompt)])], reduced to the content
    of the response. *)
Variable llm_ainvoke : str -> res str.

Definition generate_text_with_gemini (prompt : str) : res str :=
  match llm_ainvoke prompt with
  | Ok content => Ok content
  | Raise e =>
      Raise (HTTPException 500
               (VStr (py "Failed to generate text with Gemini: " ++ exn_str e)))
  end.

End WithModel.
End LanguageAgent.

(* ===================================================================== *)
(** ** agents/retriever_agent.py *)
(* ===================================================================== *)

Module RetrieverAgent.

(** The vector store and the text splitter, by their interface. A search
    for [k] matches returns at most [k] of them. *)
Record Faiss (store : Type) : Type := {
  split_text : str -> list str;
  from_texts : list str -> res store;
  add_texts : store -> list str -> res store;
  similarity_search_with_score : store -> str -> nat -> res (list (str * Q));
  at_most_k :
    forall index query k docs,
      similarity_search_with_score index query k = Ok docs ->
      length docs <= k
}.

Section WithFaiss.
Context {RT : PyRuntime}.
Variable store : Type.
Variable faiss : Faiss store.

Definition DUMMY_FINANCIAL_DOCS : list str :=
  [py "Federated learning is a machine learning approach that trains an algorithm across multiple decentralized edge devices or servers...";
   py "Blockchain technology, fundamentally a decentralized, distributed ledger...";
   py "Quantum computing in finance is an emerging field...";
   py "The concept of 'Efficient Market Hypothesis' suggests that financial markets are 'informationally efficient'...";
   py "Algorithmic trading uses computer programs to execute trades...";
   py "Risk management in finance involves identifying, analyzing, and mitigating financial risks...";
   py "ESG investing refers to a set of standards for a company’s operations...";
   py "Diversification is a strategy employed to minimize risk by investing in a variety of assets..."].

(** The global [faiss_vectorstore] is threaded through: [None] before the
    index exists. *)
Definition create_faiss_index (faiss_vectorstore : option store)
    (documents : list str) : res store :=
  let texts := split_text faiss (join [newline] documents) in
  match faiss_vectorstore with
  | None => from_texts faiss texts
  | Some index => add_texts faiss index texts
  end.

(** [max(0, 1 - (score / 1.0))] *)
Definition confidence_of (score : Q) : Q :=
  Qmax 0 (Float.sub 1 (Float.div score 1)).

(** [sum(scores)]: the scores are added one by one, from the left, and
    each addition is rounded. (Python 3.12 compensates the sum of its own
    floats instead, which comes to the same on two scores or fewer; the
    callers of the repository ask for two matches.) *)
Definition sum (scores : list Q) : Q := fold_left Float.add scores 0%Q.

(** The part of [retrieve_info_from_rag] after the search returned. *)
Definition assemble (docs_with_scores : list (str * Q)) : str * Q :=
  match docs_with_scores with
  | [] => (py "No relevant documents found.", 0%Q)
  | _ :: _ =>
      let contents := map fst docs_with_scores in
      let scores := map (fun d => confidence_of (snd d)) docs_with_scores in
      let avg_conf := Float.div (sum scores) (Float.of_int (length scores)) in
      (join [newline; newline] contents, avg_conf)
  end.

Definition search_failed (e : exn) : exn :=
  HTTPException 500 (VStr (py "FAISS similarity search failed: " ++ exn_str e)).

(** [if faiss_vectorstore is None: await create_faiss_index(DUMMY_FINANCIAL_DOCS)] *)
Definition ensure_index (faiss_vectorstore : option store) : res store :=
  match faiss_vectorstore with
  | Some index => Ok index
  | None => create_faiss_index None DUMMY_FINANCIAL_DOCS
  end.

(** Returns the global store as the call leaves it, and the outcome. *)
Definition retrieve_info_from_rag (faiss_vectorstore : option store)
    (query : str) (k : nat) : option store * res (str * Q) :=
  match ensure_index faiss_vectorstore with
  | Raise e => (faiss_vectorstore, Raise e)
  | Ok index =>
      match similarity_search_with_score faiss index query k with
      | Raise e => (Some index, Raise (search_failed e))
      | Ok docs_with_scores => (Some index, Ok (assemble docs_with_scores))
      end
  end.

End WithFaiss.
End RetrieverAgent.

(* ===================================================================== *)
(** ** The assembled backend *)
(* ===================================================================== *)

Module Backend.
Section Assembly.
Context {RT : PyRuntime}.
Variable env : ApiAgent.Environment.
Variable llm_ainvoke : str -> res str.
Variable store : Type.
Variable faiss : RetrieverAgent.Faiss store.
Variable faiss_vectorstore : option store.
(** [agents/analysis_agent.py] computes with pandas and numpy; it is taken
    by its interface. *)
Variable analyze_risk_volatility_returns : list str -> res value.

(** The agents as [orchestrator.py] imports them. *)
Definition agents : Orchestrator.Agents :=
  {| Orchestrator.get_stock_quote := ApiAgent.get_stock_quote env;
     Orchestrator.get_historical_data := ApiAgent.get_historical_data env;
     Orchestrator.get_financial_news_mock :=
       fun query_term => Ok (ScrapingAgent.get_financial_news_mock query_term);
     Orchestrator.retrieve_info_from_rag :=
       fun query =>
         snd (RetrieverAgent.retrieve_info_from_rag faiss faiss_vectorstore query 2);
     Orchestrator.analyze_risk_volatility_returns :=
       analyze_risk_volatility_returns;
     Orchestrator.generate_text_with_gemini :=
       LanguageAgent.generate_text_with_gemini llm_ainvoke |}.

Definition orchestrate_query (query : str) : M value :=
  Orchestrator.orchestrate_query agents query.

Definition get_market_brief : M value :=
  Orchestrator.get_market_brief agents.

End Assembly.
End Backend.

(* ===================================================================== *)
(** ** Vocabulary of the specification *)
(* ===================================================================== *)

Module Ticker.
Section WithRuntime.
Context {RT : PyRuntime}.
Import Re Orchestrator.

(** The trigger words of rule 1. *)
Definition triggers : list str :=
  [py "price"; py "quote"; py "stock"; py "performance"; py "historical"].

(** [(price|quote|stock|performance|historical)], the first group of
    [stock_regex]. *)
Definition trigger_regex : regex :=
  Group 1
    (Alt (Lit (py "price"))
    (Alt (Lit (py "quote"))
    (Alt (Lit (py "stock"))
    (Alt (Lit (py "performance"))
         (Lit (py "historical")))))).

(** [\b([A-Z]{1,5})\b], the end of [stock_regex]. *)
Definition token_regex : regex :=
  Seq WordBoundary (Seq (Group 2 (Repeat is_upper_AZ 1 5)) WordBoundary).

(** The cursor after the trigger word [trig], read at [c]. *)
Definition trigger_end (c : cursor) (trig t : str) : cursor :=
  Cursor (last_of (prev c) trig) (pos c + length trig) t
    ((1, (pos c, pos c + length trig)) :: spans c).

(** The cursor after the token [tok], read at [c]. *)
Definition token_end (c : cursor) (tok post : str) : cursor :=
  Cursor (last_of (prev c) tok) (pos c + length tok) post
    ((2, (pos c, pos c + length tok)) :: spans c).

(** A standalone token of one to five capital letters: neither the
    character [before] it nor the text [post] after it continues a word. *)
Definition standalone_token (before : option char) (tok post : str) : Prop :=
  tok <> [] /\ forallb is_upper_AZ tok = true /\ length tok <= 5 /\
  is_word_opt before = false /\ is_word_opt (hd_error post) = false.

(** [query] reads [pre trig mid tok post]: a trigger word followed,
    anywhere later in the string, by a standalone token. *)
Definition occurrence_anywhere (query pre trig mid tok post : str) : Prop :=
  query = pre ++ trig ++ mid ++ tok ++ post /\ In trig triggers /\
  standalone_token (last_of None (pre ++ trig ++ mid)) tok post.

(** The same with no line break between the trigger word and the token. *)
Definition occurrence (query pre trig mid tok post : str) : Prop :=
  occurrence_anywhere query pre trig mid tok post /\ forallb dot mid = true.

(** No occurrence starts at an earlier trigger word, and none at the same
    trigger word has an earlier token. *)
Definition first_occurrence (query pre mid : str) : Prop :=
  forall pre' trig' mid' tok' post',
    occurrence query pre' trig' mid' tok' post' ->
    length pre < length pre' \/
    (length pre = length pre' /\ length mid <= length mid').

(** The match object of the occurrence [pre trig mid tok]. *)
Definition stock_match_of (query pre trig mid tok : str) : match_object :=
  let a := length pre in
  let b := a + length trig in
  let c := b + length mid in
  let d := c + length tok in
  Match query a d [(2, (c, d)); (1, (a, b))].

End WithRuntime.
End Ticker.

(* ===================================================================== *)
(** ** Vocabulary for payloads *)
(* ===================================================================== *)

Module Payload.
Section WithRuntime.
Context {RT : PyRuntime}.

(** [d.get(k)] on the items of a dict. *)
Definition field (d : list (str * value)) (k : str) : value :=
  match lookup k d with
  | Some x => x
  | None => VNone
  end.

(** The response carries neither a rate-limit note nor an informational
    message. *)
Definition no_signal (d : list (str * value)) : Prop :=
  truthy (field d (py "Note")) = false /\
  truthy (field d (py "Information")) = false.

(** The retrieval is trusted: [confidence >= 0.7]. *)
Definition trusted (confidence : Q) : bool := Qle_bool Float.lit_0_7 confidence.

(** The prompt of the Explain path: the retrieved context and the query
    when the retrieval is trusted, the query alone when it is not. *)
Definition explain_prompt (query retrieved_content : str) (confidence : Q) : str :=
  if trusted confidence
  then py "Explain this based on context:" ++ [newline; newline] ++
       retrieved_content ++ [newline; newline] ++ py "User asked: " ++ query
  else py "Explain this concept: " ++ query.

(** The header of the Explain path. *)
Definition explain_header (confidence : Q) : str :=
  if trusted confidence
  then py "📘 Here's what I found:"
  else py "I couldn't find very specific info, but here's what I know:".

(** The upstream answers every request about [symbol] with a document that
    has a ["Note"] and no ["Error Message"]. *)
Definition rate_limited (env : ApiAgent.Environment) (key symbol : str) : Prop :=
  forall function kwargs,
  exists d,
    ApiAgent.requests_get env ApiAgent.BASE_URL
      ([(py "function", function); (py "symbol", symbol); (py "apikey", key)]
       ++ kwargs) = ApiAgent.Responded (VDict d) /\
    lookup (py "Note") d <> None /\
    lookup (py "Error Message") d = None.

(** One day of a daily series: the date, the entry of that date, its
    ["4. close"] and the number that [float] reads in it. *)
Record day_row : Type := DayRow {
  row_date : str;
  row_close : value;
  row_price : Q
}.

Definition row_of (item : str * value) (row : day_row) : Prop :=
  fst item = row_date row /\
  exists fields,
    snd item = VDict fields /\
    lookup (py "4. close") fields = Some (row_close row) /\
    py_float (row_close row) = Ok (row_price row).

(** [series], the value under ["Time Series (Daily)"], lists the days
    [rows], most recent first, each date once. *)
Definition daily_series (series : list (str * value)) (rows : list day_row) : Prop :=
  Forall2 row_of series rows /\ NoDup (map row_date rows).

(** The most recent [min 7 n] closes. *)
Definition recent (rows : list day_row) : list Q :=
  map row_price (firstn 7 rows).

(** [(first - last) / last * 100] over them, as binary64 arithmetic
    evaluates it: the difference, the quotient and the product are rounded
    one after the other. *)
Definition percentage_change (rows : list day_row) : Float.float :=
  let first := hd 0%Q (recent rows) in
  let last := last (recent rows) 0%Q in
  Float.times (Float.quotient (Float.minus first last) last) 100.

(** What the response [d] holds under ["Time Series (Daily)"]: the days
    [rows], or nothing ([rows] is empty). *)
Definition series_of (d : list (str * value)) (rows : list day_row) : Prop :=
  match lookup (py "Time Series (Daily)") d with
  | Some (VDict series) => daily_series series rows
  | Some other => truthy other = false /\ rows = []
  | None => rows = []
  end.

(** The answer on the historical path, by the number of days. *)
Definition historical_text (ticker : str) (rows : list day_row) : str :=
  match rows with
  | [] => py "⚠️ Could not retrieve historical data for " ++ ticker ++ py "."
  | latest :: older =>
      match older with
      | [] =>
          py "Latest close for " ++ ticker ++ py " on " ++ row_date latest ++
          py " was " ++ py_str (row_close latest) ++ py "."
      | _ :: _ =>
          py "Historical performance for " ++ ticker ++
          py ": Latest close on " ++ row_date latest ++ py " was " ++
          py_str (row_close latest) ++ py ". Over the last " ++
          of_nat (Nat.min 7 (length rows)) ++ py " days, it changed by " ++
          Float.format_2f (percentage_change rows) ++ py "%."
      end
  end.

End WithRuntime.
End Payload.

(** The arithmetic mean of the specification, taken without rounding. *)
Definition mean (xs : list Q) : Q :=
  (fold_right Qplus 0 xs / inject_Z (Z.of_nat (length xs)))%Q.

(** The arithmetic mean as binary64 arithmetic evaluates it: the sum taken
    from the left, each addition rounded, and the quotient rounded. *)
Definition float_mean (xs : list Q) : Q :=
  Float.div (fold_left Float.add xs 0%Q) (Float.of_int (length xs)).

(* ===================================================================== *)
(** ** A reference runtime and canned collaborators for the scenarios *)
(* ===================================================================== *)

(** The scenarios below use ASCII subjects only, on which every runtime
    agrees; the reference runtime answers the questions about other code
    points in the simplest way. *)
Module Reference.

Fixpoint span_digits (s : str) : str * str :=
  match s with
  | c :: s' =>
      if is_digit c
      then let (d, r) := span_digits s' in (c :: d, r)
      else ([], s)
  | [] => ([], [])
  end.

Definition digits_value (ds : str) : Z :=
  fold_left (fun acc c => (acc * 10 + Z.of_N (c - 48))%Z) ds 0%Z.

(** The binary64 number nearest to [q], in lowest terms. (A literal of
    magnitude [2^1024] or more, which Python reads as an infinity, is not
    among those the scenarios use.) *)
Definition nearest_float (q : Q) : Q := Qred (Float.round64 q).

(** [float] of a plain decimal literal such as [187.25] or [-3]: the
    binary64 number nearest to the decimal. *)
Definition parse_decimal (s : str) : option Q :=
  let (sign, body) :=
    match s with
    | 45%N :: r => ((-1)%Z, r)
    | _ => (1%Z, s)
    end in
  let (ip, r) := span_digits body in
  match ip, r with
  | _ :: _, [] => Some (nearest_float (inject_Z (sign * digits_value ip)))
  | _ :: _, 46%N :: fr =>
      let (fp, r') := span_digits fr in
      match fp, r' with
      | _ :: _, [] =>
          Some (nearest_float
                  (Qmake (sign * digits_value (ip ++ fp))
                         (Pos.pow 10 (Pos.of_nat (length fp)))))
      | _, _ => None
      end
  | _, _ => None
  end.

(** [str(e)]: an [HTTPException] reads [status: detail]; the text of a
    [KeyError], [TypeError], [AttributeError] or [ValueError] depends on
    the operands, which [PyError] does not keep, and the name of the
    exception stands for it. *)
Definition describe (e : exn) : str :=
  match e with
  | HTTPException status_code (VStr detail) =>
      of_nat (Z.to_nat status_code) ++ py ": " ++ detail
  | HTTPException status_code _ =>
      of_nat (Z.to_nat status_code) ++ py ": <object>"
  | RequestException message => message
  | OtherException message => message
  | PyError AttributeError => py "AttributeError"
  | PyError IndexError => py "list index out of range"
  | PyError KeyError => py "KeyError"
  | PyError TypeError => py "TypeError"
  | PyError ValueError => py "ValueError"
  | PyError ZeroDivisionError => py "float division by zero"
  end.

(** The letters of Latin-1 and of the Cyrillic block, beside those of
    ASCII; the code points beyond are taken as they are. *)
Definition is_latin1_upper (c : char) : bool :=
  ((192 <=? c) && (c <=? 222) && negb (c =? 215))%N.

Definition is_latin1_lower (c : char) : bool :=
  ((224 <=? c) && (c <=? 254) && negb (c =? 247))%N.

Definition lower_char (c : char) : char :=
  if is_ascii c then ascii_lower_char c
  else if is_latin1_upper c then (c + 32)%N
  else if ((1040 <=? c) && (c <=? 1071))%N then (c + 32)%N
  else if ((1024 <=? c) && (c <=? 1039))%N then (c + 80)%N
  else c.

Definition upper_char (c : char) : str :=
  if is_ascii c then [ascii_upper_char c]
  else if is_latin1_lower c then [(c - 32)%N]
  else if (c =? 223)%N then py "SS"
  else if (c =? 255)%N then [376%N]
  else if (c =? 181)%N then [924%N]
  else if ((1072 <=? c) && (c <=? 1103))%N then [(c - 32)%N]
  else if ((1104 <=? c) && (c <=? 1119))%N then [(c - 80)%N]
  else [c].

Definition isalnum_char (c : char) : bool :=
  (is_latin1_upper c || is_latin1_lower c ||
   (c =? 170) || (c =? 181) || (c =? 186) || (c =? 223) || (c =? 255) ||
   (c =? 178) || (c =? 179) || (c =? 185) ||
   (188 <=? c) && (c <=? 190) ||
   (1024 <=? c) && (c <=? 1153) || (1162 <=? c) && (c <=? 1327))%N.

Definition runtime : PyRuntime := {|
  unicode_isalnum := isalnum_char;
  unicode_lower := map lower_char;
  unicode_upper := fun s => concat (map upper_char s);
  py_repr := fun _ => py "<object>";
  float_of_str := parse_decimal;
  exn_str := describe
|}.

#[local] Existing Instance runtime.

(** An upstream that answers each symbol with a canned JSON document. *)
Definition upstream (responses : list (str * value)) : ApiAgent.Environment :=
  {| ApiAgent.ALPHA_VANTAGE_API_KEY := Some (py "demo");
     ApiAgent.requests_get := fun _ params =>
       match find (fun kv => Str.eqb (fst kv) (py "symbol")) params with
       | Some (_, symbol) =>
           match lookup symbol responses with
           | Some data => ApiAgent.Responded data
           | None => ApiAgent.RequestFailed (py "404 Client Error")
           end
       | None => ApiAgent.RequestFailed (py "400 Client Error")
       end |}.

(** A language model that answers every prompt with the same sentence. *)
Definition llm_ainvoke (prompt : str) : res str := Ok (py "Markets were mixed.").

(** A vector store that holds the chunks it is given and answers every
    search with the first [k] of the given matches. A text is taken as one
    chunk: the texts of the scenarios are shorter than the chunk size of
    1000 characters, and the splitter leaves such a text whole. *)
Definition faiss (matches : list (str * Q)) : RetrieverAgent.Faiss (list str) :=
  {| RetrieverAgent.split_text := fun text => [text];
     RetrieverAgent.from_texts := fun texts => Ok texts;
     RetrieverAgent.add_texts := fun index texts => Ok (index ++ texts);
     RetrieverAgent.similarity_search_with_score := fun _ _ k =>
       Ok (firstn k matches);
     RetrieverAgent.at_most_k := fun _ _ k docs found =>
       match found in (_ = outcome)
             return (match outcome with
                     | Ok d => length d <= k
                     | Raise _ => True
                     end) with
       | eq_refl => firstn_le_length k matches
       end |}.

Definition analyze (tickers : list str) : res value := Ok (VDict []).

(** A match unrelated to the query. *)
Definition unrelated : list (str * Q) :=
  [(py "Quantum computing in finance is an emerging field...", 1%Q)].

(** A close match followed by a far one. *)
Definition near_and_far : list (str * Q) :=
  [(py "Diversification is a strategy employed to minimize risk by investing in a variety of assets...",
    (1 # 4)%Q);
   (py "Risk management in finance involves identifying, analyzing, and mitigating financial risks...",
    (3 # 2)%Q)].

(** A single match whose complement is not a float: [1 - d] lies half a
    unit in the last place below [0.7], and is rounded to it. *)
Definition on_the_threshold : list (str * Q) :=
  [(py "Diversification is a strategy employed to minimize risk by investing in a variety of assets...",
    (5404319552844597 # 18014398509481984)%Q)].

(** The backend over a canned upstream and a store with given matches. *)
Definition backend (responses : list (str * value)) (matches : list (str * Q))
    : Orchestrator.Agents :=
  Backend.agents (upstream responses) llm_ainvoke (faiss matches) None analyze.

(** The backend with an upstream that knows no symbol. *)
Definition quiet : Orchestrator.Agents := backend [] unrelated.

(** Agents that answer with fixed values, whatever they are asked. *)
Definition fixed_agents (quote historical : value) (news : list str)
    (retrieved : str * Q) : Orchestrator.Agents :=
  {| Orchestrator.get_stock_quote := fun _ => Ok quote;
     Orchestrator.get_historical_data := fun _ => Ok historical;
     Orchestrator.get_financial_news_mock := fun _ => Ok news;
     Orchestrator.retrieve_info_from_rag := fun _ => Ok retrieved;
     Orchestrator.analyze_risk_volatility_returns := analyze;
     Orchestrator.generate_text_with_gemini :=
       LanguageAgent.generate_text_with_gemini llm_ainvoke |}.

Definition rate_limit_note : value :=
  VDict [(py "Note",
          VStr (py "Thank you for using Alpha Vantage! Our standard API rate limit is 25 requests per day."))].

Definition rate_limit_information : value :=
  VDict [(py "Information",
          VStr (py "Our standard API rate limit is 25 requests per day. Please subscribe to a premium plan."))].

Definition error_and_note : value :=
  VDict [(py "Error Message", VStr (py "Invalid API call."));
         (py "Note", VStr (py "Please retry later."))].

Definition quote_info (symbol price change : str) : list (str * value) :=
  [(py "01. symbol", VStr symbol);
   (py "02. open", VStr (py "250.10"));
   (py "03. high", VStr (py "255.00"));
   (py "04. low", VStr (py "248.75"));
   (py "05. price", VStr price);
   (py "06. volume", VStr (py "1200300"));
   (py "07. latest trading day", VStr (py "2024-05-17"));
   (py "09. change", VStr change)].

Definition quote_items (symbol price change : str) : list (str * value) :=
  [(py "Global Quote", VDict (quote_info symbol price change))].

Definition quote_payload (symbol price change : str) : value :=
  VDict (quote_items symbol price change).

Definition day (date close : str) : str * value :=
  (date, VDict [(py "1. open", VStr close); (py "4. close", VStr close)]).

Definition daily_items (days : list (str * value)) : list (str * value) :=
  [(py "Meta Data", VDict [(py "2. Symbol", VStr (py "IBM"))]);
   (py "Time Series (Daily)", VDict days)].

Definition daily_payload (days : list (str * value)) : value :=
  VDict (daily_items days).

Definition nine_rows : list Payload.day_row :=
  [Payload.DayRow (py "2024-05-17") (VStr (py "110.00")) (110 # 1);
   Payload.DayRow (py "2024-05-16") (VStr (py "108.00")) (108 # 1);
   Payload.DayRow (py "2024-05-15") (VStr (py "107.00")) (107 # 1);
   Payload.DayRow (py "2024-05-14") (VStr (py "106.00")) (106 # 1);
   Payload.DayRow (py "2024-05-13") (VStr (py "105.00")) (105 # 1);
   Payload.DayRow (py "2024-05-10") (VStr (py "104.00")) (104 # 1);
   Payload.DayRow (py "2024-05-09") (VStr (py "100.00")) (100 # 1);
   Payload.DayRow (py "2024-05-08") (VStr (py "50.00")) (50 # 1);
   Payload.DayRow (py "2024-05-07") (VStr (py "40.00")) (40 # 1)].

(** Two days a quarter apart at a thousand: the change is 0.025 percent
    before rounding. *)
Definition quarter_rows : list Payload.day_row :=
  [Payload.DayRow (py "2024-05-17") (VStr (py "1000.25")) (4001 # 4);
   Payload.DayRow (py "2024-05-16") (VStr (py "1000.00")) (1000 # 1)].

Definition quarter_days : list (str * value) :=
  [day (py "2024-05-17") (py "1000.25"); day (py "2024-05-16") (py "1000.00")].

Definition nine_days : list (str * value) :=
  [day (py "2024-05-17") (py "110.00"); day (py "2024-05-16") (py "108.00");
   day (py "2024-05-15") (py "107.00"); day (py "2024-05-14") (py "106.00");
   day (py "2024-05-13") (py "105.00"); day (py "2024-05-10") (py "104.00");
   day (py "2024-05-09") (py "100.00"); day (py "2024-05-08") (py "50.00");
   day (py "2024-05-07") (py "40.00")].

(** The backends of the scenarios. *)
Definition tsla_quoted : Orchestrator.Agents :=
  backend [(py "TSLA", quote_payload (py "TSLA") (py "251.30") (py "1.20"))]
    unrelated.

Definition ibm_history : Orchestrator.Agents :=
  backend [(py "IBM", daily_payload nine_days)] unrelated.

Definition ibm_quarter : Orchestrator.Agents :=
  backend [(py "IBM", daily_payload quarter_days)] unrelated.

Definition tsla_rate_limited : list (str * value) :=
  [(py "TSLA", rate_limit_note)].

Definition spy_rate_limited : list (str * value) :=
  [(py "SPY", rate_limit_information);
   (py "QQQ", quote_payload (py "QQQ") (py "451.30") (py "1.20"));
   (py "DIA", quote_payload (py "DIA") (py "390.00") (py "-0.50"))].

Definition spy_noted : list (str * value) :=
  [(py "SPY", rate_limit_note);
   (py "QQQ", quote_payload (py "QQQ") (py "451.30") (py "1.20"));
   (py "DIA", quote_payload (py "DIA") (py "390.00") (py "-0.50"))].

Definition tsla_information : list (str * value) :=
  [(py "TSLA", rate_limit_information)].

Definition tsla_error_and_note : list (str * value) :=
  [(py "TSLA", error_and_note)].

(** Agents whose quote agent hands the orchestrator a rate-limit note. *)
Definition noting_agents : Orchestrator.Agents :=
  fixed_agents rate_limit_note rate_limit_note [] ([], 0%Q).

(** The float [0.42]. *)
Definition lit_0_42 : Q := (7566047373982433 # 18014398509481984)%Q.

(** Agents whose retrieval has the confidence 0.42. *)
Definition unsure_agents : Orchestrator.Agents :=
  fixed_agents (VDict []) (VDict [])
    [] (py "Diversification is a strategy employed to minimize risk.", lit_0_42).

(** The queries of the scenarios. *)
Definition price_of_TSLA : str := py "What's the price of TSLA?".

Definition historical_IBM : str := py "historical performance of IBM".

Definition news_about_AAPL : str := py "news about AAPL".

Definition historical_TSLA : str := py "historical performance of TSLA".

Definition tell_me_about_diversification : str :=
  py "Tell me about diversification".

Definition price_of_TSLA_news : str := py "price of TSLA news".

Definition price_of_AAPL_and_TSLA : str := py "price of AAPL and TSLA".

(** [price], a line break, [TSLA]. *)
Definition two_line_query : str := py "price" ++ [newline] ++ py "TSLA".

(** [price], a line break, [TSLA news]. *)
Definition two_line_news_query : str :=
  py "price" ++ [newline] ++ py "TSLA news".

End Reference.

(* ===================================================================== *)
(** ** orchestrator.py: the file of API keys *)
(* ===================================================================== *)

Module Keys.
Section WithRuntime.
Context {RT : PyRuntime}.

(** The line boundaries of [str.splitlines]. *)
Definition is_linebreak (c : char) : bool :=
  ((10 <=? c) && (c <=? 13) || (28 <=? c) && (c <=? 30) ||
   (c =? 133) || (c =? 8232) || (c =? 8233))%N.

(** The lines of [s]; [after_cr] says that a carriage return has just ended
    a line, so that a line feed that follows belongs to it. *)
Fixpoint splitlines_go (after_cr : bool) (s : str) : list str :=
  match s with
  | [] => []
  | c :: s' =>
      if after_cr && (c =? 10)%N then splitlines_go false s'
      else if is_linebreak c then [] :: splitlines_go (c =? 13)%N s'
      else
        match splitlines_go false s' with
        | l :: ls => (c :: l) :: ls
        | [] => [[c]]
        end
  end.

(** [s.splitlines()] *)
Definition splitlines (s : str) : list str := splitlines_go false s.

(** [line.split(sep, 1)] for a one-character [sep]: the text before the
    first [sep] and the text after it, [None] when [sep] is not in [line]. *)
Fixpoint split_first (sep : char) (line : str) : option (str * str) :=
  match line with
  | [] => None
  | c :: rest =>
      if (c =? sep)%N then Some ([], rest)
      else
        match split_first sep rest with
        | Some (before, after) => Some (c :: before, after)
        | None => None
        end
  end.

Definition equals_sign : char := 61%N.

(** [keys[key] = value] on a dict of strings: a known key keeps its place. *)
Fixpoint dict_set (key value : str) (keys : list (str * str)) : list (str * str) :=
  match keys with
  | [] => [(key, value)]
  | (k, v) :: rest =>
      if Str.eqb key k then (k, value) :: rest
      else (k, v) :: dict_set key value rest
  end.

(** [keys.get(key)] *)
Fixpoint dict_get (key : str) (keys : list (str * str)) : option str :=
  match keys with
  | [] => None
  | (k, v) :: rest => if Str.eqb key k then Some v else dict_get key rest
  end.

(** The body of [for line in lines]. *)
Definition read_line (keys : list (str * str)) (line : str) : list (str * str) :=
  match split_first equals_sign line with
  | Some (key, value) => dict_set (strip key) (strip value) keys
  | None => keys
  end.

Definition parse_lines (lines : list str) : list (str * str) :=
  fold_left read_line lines [].

Definition RuntimeError (message : str) : exn := OtherException message.

(** [opened] is what [open(filepath).read()] comes to. *)
Definition load_api_keys_from_file (filepath : str) (opened : res str)
    : res (list (str * str)) :=
  match opened with
  | Ok content => Ok (parse_lines (splitlines content))
  | Raise e =>
      Raise (RuntimeError (py "Error loading API keys from " ++ filepath ++
                           py ": " ++ exn_str e))
  end.

(** A file of keys written one [key=value] per line. *)
Definition render_line (kv : str * str) : str :=
  fst kv ++ equals_sign :: snd kv.

Definition render (pairs : list (str * str)) : str :=
  join [newline] (map render_line pairs).

(** A text that [strip] leaves as it is and that holds no line boundary. *)
Definition one_line_stripped (text : str) : Prop :=
  strip text = text /\ forallb (fun c => negb (is_linebreak c)) text = true.

(** A key as [render] can write it and [load_api_keys_from_file] read it
    back: stripped, on one line, without ["="]. *)
Definition plain_key (key : str) : Prop :=
  one_line_stripped key /\
  forallb (fun c => negb (c =? equals_sign)%N) key = true.

End WithRuntime.
End Keys.

(* ===================================================================== *)
(** ** agents/api_agent.py: the endpoints *)
(* ===================================================================== *)

Module ApiEndpoints.
Section WithEnvironment.
Context {RT : PyRuntime}.
Variable env : ApiAgent.Environment.

(** What the endpoint does with a [symbol] that is truthy and not a
    string: [requests] sends such a parameter in a form of its own; that
    path is taken by its interface. *)
Variable non_string_symbol : value -> res value.

Definition missing_symbol : exn :=
  HTTPException 400 (VStr (py "Missing 'symbol' in request body.")).

Definition price_failure : exn :=
  HTTPException 500 (VStr (py "Failed to extract price from API response.")).

(** [data["Global Quote"]["05. price"]] *)
Definition price_of (data : value) : res value :=
  (let? global_quote := py_item data (py "Global Quote") in
   py_item global_quote (py "05. price"))%res.

(** [payload] holds the items of the JSON object of the request body. *)
Definition get_stock_price_post (payload : list (str * value)) : res value :=
  let symbol := Payload.field payload (py "symbol") in
  if truthy symbol then
    match symbol with
    | VStr s =>
        (let? data := ApiAgent.get_stock_quote env s in
         match price_of data with
         | Ok price =>
             Ok (VDict [(py "symbol", VStr (upper s)); (py "price", price)])
         | Raise (PyError KeyError) => Raise price_failure
         | Raise e => Raise e
         end)%res
    | other => non_string_symbol other
    end
  else Raise missing_symbol.

End WithEnvironment.
End ApiEndpoints.

(* ===================================================================== *)
(** ** agents/scraping_agent.py: the endpoint *)
(* ===================================================================== *)

Module ScrapingEndpoint.

(** What [requests.get], [raise_for_status] and [soup.find_all] come to:
    the texts of the anchors found, in page order, or an exception. *)
Inductive scrape : Type :=
| Scraped (anchor_texts : list str)
| ScrapeRequestFailed (message : str)
| ScrapeFailed (e : exn).

Section WithRuntime.
Context {RT : PyRuntime}.

(** The [for h in soup.find_all(...)] loop, from the headlines collected so
    far. *)
Fixpoint collect (headlines : list str) (anchor_texts : list str) : list str :=
  match anchor_texts with
  | [] => headlines
  | text :: more =>
      let headlines' :=
        match strip text with
        | [] => headlines
        | _ :: _ => headlines ++ [strip text]
        end in
      if Nat.leb 5 (length headlines') then headlines'
      else collect headlines' more
  end.

Definition read_financial_news (page : scrape) (query_term : str) : list str :=
  match page with
  | Scraped anchor_texts =>
      match collect [] anchor_texts with
      | [] => ScrapingAgent.get_financial_news_mock query_term
      | headlines => headlines
      end
  | ScrapeRequestFailed _ => ScrapingAgent.get_financial_news_mock query_term
  | ScrapeFailed _ => ScrapingAgent.get_financial_news_mock query_term
  end.

End WithRuntime.
End ScrapingEndpoint.

(* ===================================================================== *)
(** ** agents/retriever_agent.py: the endpoints *)
(* ===================================================================== *)

Module RetrieverEndpoints.
Section WithFaiss.
Context {RT : PyRuntime}.
Variable store : Type.
Variable faiss : RetrieverAgent.Faiss store.

(** [add_document_to_index] *)
Definition add_document_to_index (faiss_vectorstore : option store)
    (document : str) : option store * res value :=
  match RetrieverAgent.create_faiss_index faiss faiss_vectorstore [document] with
  | Ok index =>
      (Some index,
       Ok (VDict [(py "message", VStr (py "Document added to index."))]))
  | Raise e => (faiss_vectorstore, Raise e)
  end.

End WithFaiss.
End RetrieverEndpoints.

(* ===================================================================== *)
(** ** agents/analysis_agent.py: the risk classes *)
(* ===================================================================== *)

Module AnalysisAgent.

(** [assess_risk] *)
Definition assess_risk (volatility : Q) : str :=
  if Float.ltb 30 volatility then py "High Risk"
  else if Float.ltb 15 volatility then py "Medium Risk"
  else py "Low Risk".

End AnalysisAgent.

(* ===================================================================== *)
(** ** backend.py *)
(* ===================================================================== *)

Module BackendApp.
Section WithRuntime.
Context {RT : PyRuntime}.

(** [app.state.last_market_brief], [None] while the attribute is not set. *)
Definition app_state : Type := option value.

(** [scheduled_market_brief]; [brief] is the run of [get_market_brief]. *)
Definition scheduled_market_brief (brief : M value) (state : app_state)
    : app_state * res unit :=
  match result brief with
  | Ok text => (Some text, Ok tt)
  | Raise e => (state, Raise e)
  end.

Definition no_brief_yet : str :=
  py "No market brief available yet. It runs on a schedule.".

(** [get_current_market_brief] *)
Definition get_current_market_brief (state : app_state) : value :=
  VDict [(py "market_brief",
          match state with
          | Some brief => brief
          | None => VStr no_brief_yet
          end)].

(** The scheduler's ticks, one run of [get_market_brief] each, in order. *)
Definition run_schedule (ticks : list (M value)) (state : app_state) : app_state :=
  fold_left (fun st brief => fst (scheduled_market_brief brief st)) ticks state.

(** [ask_finance_bot]; [orchestrated] is the run of [orchestrate_query] on
    the query of the request. *)
Definition ask_finance_bot (orchestrated : M value) : M value :=
  match orchestrated with
  | (calls, Ok response_text) =>
      (calls, Ok (VDict [(py "response", response_text)]))
  | (calls, Raise e) => (calls, Raise (HTTPException 500 (VStr (exn_str e))))
  end.

Definition could_not_transcribe : exn :=
  HTTPException 400 (VStr (py "Could not transcribe audio.")).

Definition voice_failure (e : exn) : exn :=
  HTTPException 500 (VStr (py "Voice processing failed: " ++ exn_str e)).

(** [ask_finance_bot_voice]: [transcribed] is what [transcribe_audio]
    comes to on the upload, [orchestrate] the dispatcher and
    [text_to_speech] the voice agent's synthesis. *)
Definition ask_finance_bot_voice {audio : Type} (transcribed : res str)
    (orchestrate : str -> M value) (text_to_speech : value -> res audio)
    : M audio :=
  match transcribed with
  | Raise e => lift (Raise (voice_failure e))
  | Ok [] => lift (Raise (voice_failure could_not_transcribe))
  | Ok text_query =>
      match orchestrate text_query with
      | (calls, Raise e) => (calls, Raise (voice_failure e))
      | (calls, Ok response_text) =>
          match text_to_speech response_text with
          | Ok audio_response_bytes => (calls, Ok audio_response_bytes)
          | Raise e => (calls, Raise (voice_failure e))
          end
      end
  end.

End WithRuntime.
End BackendApp.

(* ===================================================================== *)
(** ** Further reference data *)
(* ===================================================================== *)

Module Fixtures.

(** The pairs of a key file; the second value holds an equals sign. *)
Definition key_pairs : list (str * str) :=
  [(py "ALPHA_VANTAGE_API_KEY", py "demo");
   (py "GEMINI_API_KEY", py "abc=def")].

(** An upstream that knows the symbol [tsla] as it is typed. *)
Definition tsla_typed_in_lowercase : ApiAgent.Environment :=
  Reference.upstream
    [(py "tsla", Reference.quote_payload (py "TSLA") (py "251.30") (py "1.20"))].

(** The body [{"symbol": symbol}] of a request to [/stock_price]. *)
Definition price_request (symbol : str) : list (str * value) :=
  [(py "symbol", VStr symbol)].

(** A symbol that is not a string is refused. *)
Definition refuse (symbol : value) : res value := Raise (PyError TypeError).

(** The anchors of a page: blank ones among seven headlines. *)
Definition anchors : list str :=
  [py "  Stocks rally  "; py "   "; py "Bond yields fall"; [];
   py "Oil slips"; py "Gold steadies"; py "Dollar firms";
   py "Copper jumps"; py "Wheat eases"].

(** Two close matches. *)
Definition two_near : list (str * Q) :=
  [(py "Diversification is a strategy employed to minimize risk by investing in a variety of assets...",
    (1 # 8)%Q);
   (py "Risk management in finance involves identifying, analyzing, and mitigating financial risks...",
    (1 # 4)%Q)].

(** Queries on the analysis path that name other tickers. *)
Definition analyze_NVDA : str := py "Analyze the risk of NVDA".

Definition portfolio_of_MSFT_and_TSLA : str :=
  py "portfolio volatility for my MSFT and TSLA shares".

(** A ticker typed in lower case. *)
Definition price_of_tsla : str := py "price of tsla".

(** The upstream knows no quote for the symbol: an empty ["Global Quote"]. *)
Definition unknown_symbol : list (str * value) :=
  [(py "Global Quote", VDict [])].

Definition zzzz_unknown : Orchestrator.Agents :=
  Reference.backend [(py "ZZZZ", VDict unknown_symbol)] Reference.unrelated.

Definition price_of_ZZZZ : str := py "price of ZZZZ".

(** Two days of a series, the older one closed at zero. *)
Definition two_days : list (str * value) :=
  [Reference.day (py "2024-05-17") (py "5.00");
   Reference.day (py "2024-05-16") (py "0.00")].

Definition two_rows : list Payload.day_row :=
  [Payload.DayRow (py "2024-05-17") (VStr (py "5.00")) (5 # 1);
   Payload.DayRow (py "2024-05-16") (VStr (py "0.00")) (0 # 1)].

Definition ibm_delisted : Orchestrator.Agents :=
  Reference.backend [(py "IBM", Reference.daily_payload two_days)]
    Reference.unrelated.

(** The seven most recent of the nine days, followed by an entry that is
    no day at all. *)
Definition seven_days_and_junk : list (str * value) :=
  firstn 7 Reference.nine_days ++ [(py "n/a", VNone)].

Definition ibm_history_with_junk : Orchestrator.Agents :=
  Reference.backend [(py "IBM", Reference.daily_payload seven_days_and_junk)]
    Reference.unrelated.

(** An environment without the API key. *)
Definition no_key : ApiAgent.Environment :=
  {| ApiAgent.ALPHA_VANTAGE_API_KEY := None;
     ApiAgent.requests_get := ApiAgent.requests_get (Reference.upstream []) |}.

(** A voice agent that answers every text with the same bytes. *)
Definition text_to_speech (text : value) : res str := Ok (py "mp3").

(** Runs of the scheduler: one that fails and one that yields a brief. *)
Definition failed_run : M value :=
  ([CallQuote (py "SPY")], Raise (RequestException (py "timed out"))).

Definition good_run : M value :=
  Orchestrator.get_market_brief (RT := Reference.runtime)
    (Reference.backend Reference.spy_noted Reference.unrelated).

(** Two annualised volatilities, in percent. *)
Definition nervous : Q := (31 # 1)%Q.

Definition frantic : Q := (45 # 1)%Q.

(** A document added by hand. *)
Definition memo : str := py "A covered call pairs a long position with a short call.".

End Fixtures.

(* ===================================================================== *)
(** * Properties *)
(* ===================================================================== *)

Unset Implicit Arguments.

(** Closes a goal on the outcome of a coroutine without unfolding the
    literals in it. *)
Ltac settle :=
  cbv beta iota delta [result trace ret lift snd fst]; reflexivity.

(** ** Rounding to binary64 *)

Module FloatFacts.
Import Float.
Local Open Scope Q_scope.

Lemma pow2_pos (k : Z) : 0 < pow2 k.
Proof. apply Qpower_0_lt. reflexivity. Qed.

Lemma pow2_plus (a b : Z) : pow2 (a + b) == pow2 a * pow2 b.
Proof. apply Qpower_plus. discriminate. Qed.

Lemma pow2_le (a b : Z) : (a <= b)%Z -> pow2 a <= pow2 b.
Proof. intros H. apply Qpower_le_compat_l; [exact H | discriminate]. Qed.

Lemma pow2_lt (a b : Z) : (a < b)%Z -> pow2 a < pow2 b.
Proof. intros H. apply Qpower_lt_compat_l; [exact H | reflexivity]. Qed.

Lemma pow2_lt_inv (a b : Z) : pow2 a < pow2 b -> (a < b)%Z.
Proof. intros H. apply (Qpower_lt_compat_l_inv 2); [exact H | reflexivity]. Qed.

Lemma pow2_Z (k : Z) : (0 <= k)%Z -> pow2 k == inject_Z (2 ^ k).
Proof. intros H. unfold pow2. now rewrite Zpower_Qpower. Qed.

Lemma pow2_succ (k : Z) : pow2 (k + 1) == 2 * pow2 k.
Proof. rewrite pow2_plus. change (pow2 1) with 2. ring. Qed.

(** The binade of a positive rational. *)
Lemma ilog2_spec (q : Q) : 0 < q -> pow2 (ilog2 q) <= q < pow2 (ilog2 q + 1).
Proof.
  intros Hq. destruct q as [n d]. unfold ilog2. cbn [Qnum Qden].
  assert (Hn : (0 < n)%Z).
  { unfold Qlt in Hq. cbn in Hq. lia. }
  destruct (Z.log2_spec n Hn) as [Na Nb].
  destruct (Z.log2_spec (Zpos d) ltac:(lia)) as [Da Db].
  pose proof (Z.log2_nonneg n) as An. pose proof (Z.log2_nonneg (Zpos d)) as Ad.
  set (a := Z.log2 n) in *. set (b := Z.log2 (Zpos d)) in *.
  assert (Hd : 0 < inject_Z (Zpos d)) by reflexivity.
  assert (E : n # d == inject_Z n / inject_Z (Zpos d)) by apply Qmake_Qdiv.
  assert (Lo : pow2 (a - b - 1) <= n # d).
  { rewrite E. apply Qle_shift_div_l; [exact Hd|].
    apply Qle_trans with (pow2 (a - b - 1) * pow2 (b + 1)).
    - apply Qmult_le_l; [apply pow2_pos|].
      rewrite (pow2_Z (b + 1)) by lia. rewrite <- Zle_Qle. lia.
    - rewrite <- pow2_plus. replace (a - b - 1 + (b + 1))%Z with a by lia.
      rewrite (pow2_Z a) by lia. now rewrite <- Zle_Qle. }
  assert (Hi : n # d < pow2 (a - b + 1)).
  { rewrite E. apply Qlt_shift_div_r; [exact Hd|].
    apply Qlt_le_trans with (pow2 (a - b + 1) * pow2 b).
    - rewrite <- pow2_plus. replace (a - b + 1 + b)%Z with (a + 1)%Z by lia.
      rewrite (pow2_Z (a + 1)) by lia. rewrite <- Zlt_Qlt. lia.
    - apply Qmult_le_l; [apply pow2_pos|].
      rewrite (pow2_Z b) by lia. now rewrite <- Zle_Qle. }
  destruct (Qle_bool (pow2 (a - b)) (n # d)) eqn:C.
  - apply Qle_bool_iff in C. split; assumption.
  - split; [exact Lo|]. replace (a - b - 1 + 1)%Z with (a - b)%Z by lia.
    apply Qnot_le_lt. intros H. apply Qle_bool_iff in H. congruence.
Qed.

Lemma binade_unique (q : Q) (e e' : Z) :
  pow2 e <= q < pow2 (e + 1) -> pow2 e' <= q < pow2 (e' + 1) -> e = e'.
Proof.
  intros [L H] [L' H'].
  assert (e < e' + 1)%Z by (apply pow2_lt_inv; eapply Qle_lt_trans; eauto).
  assert (e' < e + 1)%Z by (apply pow2_lt_inv; eapply Qle_lt_trans; eauto).
  lia.
Qed.

Lemma ilog2_unique (q : Q) (e : Z) :
  pow2 e <= q < pow2 (e + 1) -> ilog2 q = e.
Proof.
  intros H. assert (Hq : 0 < q).
  { eapply Qlt_le_trans; [apply (pow2_pos e) | apply H]. }
  exact (binade_unique q _ _ (ilog2_spec q Hq) H).
Qed.

Lemma ilog2_comp (p q : Q) : 0 < p -> p == q -> ilog2 p = ilog2 q.
Proof.
  intros Hp E. apply ilog2_unique. rewrite E.
  apply ilog2_spec. now rewrite <- E.
Qed.

Lemma ilog2_mono (p q : Q) : 0 < p -> p <= q -> (ilog2 p <= ilog2 q)%Z.
Proof.
  intros Hp L. assert (Hq : 0 < q) by (eapply Qlt_le_trans; eauto).
  destruct (ilog2_spec p Hp) as [A _], (ilog2_spec q Hq) as [_ B].
  assert (ilog2 p < ilog2 q + 1)%Z; [|lia].
  apply pow2_lt_inv. eapply Qle_lt_trans; [|exact B].
  eapply Qle_trans; eauto.
Qed.

(** Rounding to the nearest integer. *)
Lemma rhe_comp (p q : Q) : p == q -> round_half_even p = round_half_even q.
Proof.
  intros E. unfold round_half_even. rewrite (Qfloor_comp p q E).
  assert (X : p - inject_Z (Qfloor q) == q - inject_Z (Qfloor q))
    by (rewrite E; reflexivity).
  now rewrite (Qcompare_comp _ _ X (1 # 2) (1 # 2) (Qeq_refl _)).
Qed.

Lemma rhe_Z (z : Z) : round_half_even (inject_Z z) = z.
Proof.
  unfold round_half_even. rewrite Qfloor_Z.
  assert (E : inject_Z z - inject_Z z == 0) by ring.
  now rewrite E.
Qed.

Lemma rhe_bounds (q : Q) :
  (Qfloor q <= round_half_even q <= Qfloor q + 1)%Z.
Proof.
  unfold round_half_even. destruct (_ ?= _); [destruct (Z.even _)| |]; lia.
Qed.

Lemma rhe_mono (p q : Q) : p <= q -> (round_half_even p <= round_half_even q)%Z.
Proof.
  intros L. pose proof (Qfloor_resp_le p q L) as F.
  pose proof (rhe_bounds p) as Bp. pose proof (rhe_bounds q) as Bq.
  destruct (Z.eq_dec (Qfloor p) (Qfloor q)) as [E|N]; [|lia].
  unfold round_half_even in *. rewrite <- E in *.
  set (f := Qfloor p) in *.
  destruct (Qcompare_spec (p - inject_Z f) (1 # 2)) as [Ep|Lp|Gp];
  destruct (Qcompare_spec (q - inject_Z f) (1 # 2)) as [Eq|Lq|Gq];
    try destruct (Z.even f); try lia; exfalso; lra.
Qed.

Lemma rhe_error (q : Q) : Qabs (inject_Z (round_half_even q) - q) <= 1 # 2.
Proof.
  pose proof (Qfloor_le q) as A. pose proof (Qlt_floor q) as B.
  rewrite inject_Z_plus in B. change (inject_Z 1) with 1 in B.
  unfold round_half_even. set (f := Qfloor q) in *.
  apply Qabs_case; intros _;
  destruct (Qcompare_spec (q - inject_Z f) (1 # 2)) as [E|L|G];
    try destruct (Z.even f);
    rewrite ?inject_Z_plus; change (inject_Z 1) with 1; lra.
Qed.

(** Rounding of a positive rational. *)
Lemma ulp_exp_mono (p q : Q) : 0 < p -> p <= q -> (ulp_exp p <= ulp_exp q)%Z.
Proof. intros Hp L. unfold ulp_exp. pose proof (ilog2_mono p q Hp L). lia. Qed.

Lemma ulp_exp_comp (p q : Q) : 0 < p -> p == q -> ulp_exp p = ulp_exp q.
Proof. intros Hp E. unfold ulp_exp. now rewrite (ilog2_comp p q Hp E). Qed.

Lemma round_pos_comp (p q : Q) : 0 < p -> p == q -> round_pos p == round_pos q.
Proof.
  intros Hp E. unfold round_pos. rewrite (ulp_exp_comp p q Hp E).
  rewrite (rhe_comp (p / pow2 (ulp_exp q)) (q / pow2 (ulp_exp q))); [reflexivity|].
  now rewrite E.
Qed.

Lemma scaled_lt (q : Q) (u k : Z) :
  q < pow2 k -> q / pow2 u < pow2 (k - u).
Proof.
  intros H. apply Qlt_shift_div_r; [apply pow2_pos|].
  rewrite <- pow2_plus. now replace (k - u + u)%Z with k by lia.
Qed.

Lemma scaled_le (q : Q) (u k : Z) :
  pow2 k <= q -> pow2 (k - u) <= q / pow2 u.
Proof.
  intros H. apply Qle_shift_div_l; [apply pow2_pos|].
  rewrite <- pow2_plus. now replace (k - u + u)%Z with k by lia.
Qed.

(** The rounded value stays in the closed binade. *)
Lemma round_pos_binade (q : Q) : 0 < q ->
  pow2 (Z.max (ilog2 q) (-1022)) <= q ->
  pow2 (Z.max (ilog2 q) (-1022)) <= round_pos q.
Proof.
  intros Hq L. unfold round_pos, ulp_exp. set (e := Z.max (ilog2 q) (-1022)) in *.
  apply Qle_trans with (inject_Z (2 ^ 52) * pow2 (e - 52)).
  - rewrite <- pow2_Z by lia. rewrite <- pow2_plus.
    replace (52 + (e - 52))%Z with e by lia. apply Qle_refl.
  - apply Qmult_le_r; [apply pow2_pos|]. rewrite <- Zle_Qle.
    rewrite <- (rhe_Z (2 ^ 52)). apply rhe_mono.
    rewrite <- pow2_Z by lia.
    replace 52%Z with (e - (e - 52))%Z at 1 by lia. now apply scaled_le.
Qed.

Lemma round_pos_upper (q : Q) (k : Z) : 0 < q ->
  q <= pow2 k -> (ulp_exp q <= k)%Z -> round_pos q <= pow2 k.
Proof.
  intros Hq L U. unfold round_pos. set (u := ulp_exp q) in *.
  apply Qle_trans with (inject_Z (2 ^ (k - u)) * pow2 u).
  - apply Qmult_le_r; [apply pow2_pos|]. rewrite <- Zle_Qle.
    rewrite <- (rhe_Z (2 ^ (k - u))). apply rhe_mono.
    rewrite <- pow2_Z by lia.
    apply Qle_shift_div_r; [apply pow2_pos|].
    rewrite <- pow2_plus. now replace (k - u + u)%Z with k by lia.
  - rewrite <- pow2_Z by lia. rewrite <- pow2_plus.
    replace (k - u + u)%Z with k by lia. apply Qle_refl.
Qed.

Lemma round_pos_nonneg (q : Q) : 0 < q -> 0 <= round_pos q.
Proof.
  intros Hq. unfold round_pos. apply Qmult_le_0_compat.
  - change 0 with (inject_Z 0). rewrite <- Zle_Qle.
    rewrite <- (rhe_Z 0). apply rhe_mono. change (inject_Z 0) with 0.
    apply Qle_shift_div_l; [apply pow2_pos|]. lra.
  - apply Qlt_le_weak, pow2_pos.
Qed.

Lemma round_pos_mono (p q : Q) : 0 < p -> p <= q -> round_pos p <= round_pos q.
Proof.
  intros Hp L. assert (Hq : 0 < q) by (eapply Qlt_le_trans; eauto).
  pose proof (ulp_exp_mono p q Hp L) as U.
  destruct (Z.eq_dec (ulp_exp p) (ulp_exp q)) as [E|N].
  - unfold round_pos. rewrite E. apply Qmult_le_r; [apply pow2_pos|].
    rewrite <- Zle_Qle. apply rhe_mono.
    apply Qmult_le_r; [apply Qinv_lt_0_compat, pow2_pos | exact L].
  - pose proof (ilog2_mono p q Hp L) as I.
    destruct (ilog2_spec p Hp) as [_ Pb], (ilog2_spec q Hq) as [Qa _].
    unfold ulp_exp in U, N.
    assert (Eq : Z.max (ilog2 q) (-1022) = ilog2 q) by lia.
    assert (Lt : (Z.max (ilog2 p) (-1022) < ilog2 q)%Z) by lia.
    apply Qle_trans with (pow2 (ilog2 q)).
    + apply round_pos_upper; [exact Hp | | unfold ulp_exp; lia].
      apply Qlt_le_weak. eapply Qlt_le_trans; [exact Pb|]. apply pow2_le. lia.
    + rewrite <- Eq at 1. apply round_pos_binade; [exact Hq|]. now rewrite Eq.
Qed.

(** A rational that is a multiple of its unit in the last place is a
    binary64 number. *)
Lemma round_pos_exact (q : Q) (z : Z) :
  q / pow2 (ulp_exp q) == inject_Z z -> round_pos q == q.
Proof.
  intros E. unfold round_pos. rewrite (rhe_comp _ _ E), rhe_Z, <- E.
  field. apply Qnot_eq_sym, Qlt_not_eq, pow2_pos.
Qed.

Lemma round_pos_error (q : Q) : 0 < q ->
  Qabs (round_pos q - q) <= pow2 (ulp_exp q - 1).
Proof.
  intros Hq. unfold round_pos. set (u := ulp_exp q).
  pose proof (rhe_error (q / pow2 u)) as E.
  assert (P : 0 < pow2 u) by apply pow2_pos.
  assert (X : inject_Z (round_half_even (q / pow2 u)) * pow2 u - q ==
              (inject_Z (round_half_even (q / pow2 u)) - q / pow2 u) * pow2 u).
  { field. apply Qnot_eq_sym, Qlt_not_eq, P. }
  rewrite X, Qabs_Qmult, (Qabs_pos (pow2 u)) by now apply Qlt_le_weak.
  apply Qle_trans with ((1 # 2) * pow2 u).
  - apply Qmult_le_r; assumption.
  - replace u with (u - 1 + 1)%Z at 1 by lia. rewrite pow2_succ. lra.
Qed.

(** Rounding to binary64. *)
Lemma round64_pos (q : Q) : 0 < q -> round64 q = round_pos q.
Proof.
  intros H. unfold round64.
  assert (C : (q ?= 0) = Gt) by now apply Qgt_alt. now rewrite C.
Qed.

Lemma round64_neg (q : Q) : q < 0 -> round64 q = - round_pos (- q).
Proof.
  intros H. unfold round64.
  assert (C : (q ?= 0) = Lt) by now apply Qlt_alt. now rewrite C.
Qed.

Lemma round64_zero (q : Q) : q == 0 -> round64 q = 0.
Proof.
  intros H. unfold round64.
  assert (C : (q ?= 0) = Eq) by now apply Qeq_alt. now rewrite C.
Qed.

#[export] Instance round64_comp : Proper (Qeq ==> Qeq) round64.
Proof.
  intros p q E. destruct (Qcompare_spec p 0) as [Z|N|P].
  - rewrite (round64_zero p Z), (round64_zero q); [reflexivity | now rewrite <- E].
  - rewrite (round64_neg p N), (round64_neg q) by now rewrite <- E.
    apply Qopp_comp. apply round_pos_comp; [lra | now rewrite E].
  - rewrite (round64_pos p P), (round64_pos q) by now rewrite <- E.
    now apply round_pos_comp.
Qed.

Lemma round64_nonneg (q : Q) : 0 <= q -> 0 <= round64 q.
Proof.
  intros H. destruct (Qcompare_spec q 0) as [Z|N|P]; [|lra|].
  - rewrite (round64_zero q Z). apply Qle_refl.
  - rewrite (round64_pos q P). now apply round_pos_nonneg.
Qed.

Lemma round64_nonpos (q : Q) : q <= 0 -> round64 q <= 0.
Proof.
  intros H. destruct (Qcompare_spec q 0) as [Z|N|P]; [| |lra].
  - rewrite (round64_zero q Z). apply Qle_refl.
  - rewrite (round64_neg q N).
    pose proof (round_pos_nonneg (- q) ltac:(lra)). lra.
Qed.

Lemma round64_mono (p q : Q) : p <= q -> round64 p <= round64 q.
Proof.
  intros L. destruct (Qcompare_spec q 0) as [Zq|Nq|Pq].
  - rewrite (round64_zero q Zq). apply round64_nonpos. lra.
  - rewrite (round64_neg q Nq), (round64_neg p) by lra.
    apply Qopp_le_compat. apply round_pos_mono; lra.
  - destruct (Qcompare_spec p 0) as [Zp|Np|Pp].
    + rewrite (round64_zero p Zp). apply round64_nonneg. lra.
    + apply Qle_trans with 0; [apply round64_nonpos | apply round64_nonneg]; lra.
    + rewrite (round64_pos p Pp), (round64_pos q Pq). now apply round_pos_mono.
Qed.

Lemma round64_opp (q : Q) : round64 (- q) == - round64 q.
Proof.
  destruct (Qcompare_spec q 0) as [Z|N|P].
  - rewrite (round64_zero q Z), (round64_zero (- q)); [reflexivity | lra].
  - rewrite (round64_neg q N), (round64_pos (- q)) by lra. ring.
  - rewrite (round64_pos q P), (round64_neg (- q)) by lra.
    apply Qopp_comp. apply round_pos_comp; [lra | ring].
Qed.

(** The integers up to [2^53] are binary64 numbers. *)
Lemma round64_Z (m : Z) : (0 <= m <= 2 ^ 53)%Z -> round64 (inject_Z m) == inject_Z m.
Proof.
  intros [L H]. destruct (Z.eq_dec m 0) as [->|N]; [reflexivity|].
  assert (P : 0 < inject_Z m) by (change 0 with (inject_Z 0); rewrite <- Zlt_Qlt; lia).
  rewrite (round64_pos _ P).
  destruct (Z.log2_spec m ltac:(lia)) as [A B].
  pose proof (Z.log2_nonneg m) as Nn.
  assert (I : ilog2 (inject_Z m) = Z.log2 m).
  { apply ilog2_unique. rewrite !pow2_Z by lia. rewrite <- Zle_Qle, <- Zlt_Qlt. lia. }
  assert (Lg : (Z.log2 m <= 53)%Z).
  { pose proof (Z.log2_le_mono m (2 ^ 53) H) as M.
    rewrite (Z.log2_pow2 53) in M by lia. exact M. }
  assert (U : ulp_exp (inject_Z m) = (Z.log2 m - 52)%Z) by (unfold ulp_exp; rewrite I; lia).
  destruct (Z.eq_dec (Z.log2 m) 53) as [E53|N53].
  - assert (m = 2 ^ 53)%Z.
    { rewrite E53 in A. lia. }
    subst m. apply (round_pos_exact _ (2 ^ 52)). rewrite U, E53. reflexivity.
  - apply (round_pos_exact _ (m * 2 ^ (52 - Z.log2 m))). rewrite U.
    rewrite inject_Z_mult, <- pow2_Z by lia.
    apply Qeq_sym. unfold Qdiv. apply Qmult_comp; [reflexivity|].
    replace (52 - Z.log2 m)%Z with (- (Z.log2 m - 52))%Z by lia.
    unfold pow2. apply Qpower_opp.
Qed.

(** The error of one rounding, for a result of magnitude at most [b]. *)
Lemma round64_error (q b : Q) :
  0 <= q <= b -> pow2 (-1022) <= b -> Qabs (round64 q - q) <= b * pow2 (-53).
Proof.
  intros [L H] Hb. destruct (Qcompare_spec q 0) as [Z|N|P]; [|lra|].
  - rewrite (round64_zero q Z). rewrite Z. 
    assert (E : 0 - 0 == 0) by ring. rewrite E. cbn [Qabs Z.abs Qnum Qden].
    apply Qmult_le_0_compat; [|apply Qlt_le_weak, pow2_pos].
    eapply Qle_trans; [apply Qlt_le_weak, (pow2_pos (-1022)) | exact Hb].
  - rewrite (round64_pos q P).
    eapply Qle_trans; [apply (round_pos_error q P)|].
    unfold ulp_exp. destruct (ilog2_spec q P) as [A _].
    destruct (Z.max_spec (ilog2 q) (-1022)) as [[_ ->]|[_ ->]].
    + replace (-1022 - 52 - 1)%Z with (-1022 + -53)%Z by lia.
      rewrite pow2_plus. apply Qmult_le_r; [apply pow2_pos | exact Hb].
    + replace (ilog2 q - 52 - 1)%Z with (ilog2 q + -53)%Z by lia.
      rewrite pow2_plus. apply Qmult_le_r; [apply pow2_pos | lra].
Qed.

Lemma round_pos_scaled (q : Q) :
  round_pos q / pow2 (ulp_exp q) ==
  inject_Z (round_half_even (q / pow2 (ulp_exp q))).
Proof.
  unfold round_pos. field. apply Qnot_eq_sym, Qlt_not_eq, pow2_pos.
Qed.

Lemma pow2_exact (k : Z) : (-1022 <= k)%Z -> round_pos (pow2 k) == pow2 k.
Proof.
  intros H. assert (I : ilog2 (pow2 k) = k).
  { apply ilog2_unique. split; [apply Qle_refl|]. apply pow2_lt. lia. }
  apply (round_pos_exact (pow2 k) (2 ^ 52)). unfold ulp_exp. rewrite I.
  rewrite Z.max_l by lia. rewrite <- pow2_Z by lia.
  apply Qeq_sym. 
  replace 52%Z with (k - (k - 52))%Z at 1 by lia.
  unfold Zminus at 1. rewrite pow2_plus.
  assert (E : pow2 (- (k - 52)) == / pow2 (k - 52)).
  { unfold pow2. apply Qpower_opp. }
  rewrite E. reflexivity.
Qed.

(** What rounding returns is a binary64 number. *)
Lemma round_pos_idem (q : Q) :
  0 < q -> 0 < round_pos q -> round_pos (round_pos q) == round_pos q.
Proof.
  intros Hq Hr. destruct (ilog2_spec q Hq) as [Lo Hi].
  set (r := round_pos q) in *.
  destruct (Z_le_gt_dec (-1022) (ilog2 q)) as [Normal|Tiny].
  - assert (M : Z.max (ilog2 q) (-1022) = ilog2 q) by lia.
    assert (A : pow2 (ilog2 q) <= r).
    { rewrite <- M. apply round_pos_binade; [exact Hq | now rewrite M]. }
    assert (B : r <= pow2 (ilog2 q + 1)).
    { apply round_pos_upper; [exact Hq | lra | unfold ulp_exp; lia]. }
    destruct (Qlt_le_dec r (pow2 (ilog2 q + 1))) as [In|Top].
    + assert (I : ilog2 r = ilog2 q) by (apply ilog2_unique; split; assumption).
      apply (round_pos_exact r (round_half_even (q / pow2 (ulp_exp q)))).
      assert (U : ulp_exp r = ulp_exp q) by (unfold ulp_exp; now rewrite I).
      rewrite U. apply round_pos_scaled.
    + assert (E : r == pow2 (ilog2 q + 1)) by lra.
      rewrite (round_pos_comp r _ Hr E), E. apply pow2_exact. lia.
  - assert (B : r <= pow2 (-1022)).
    { apply round_pos_upper; [exact Hq | | unfold ulp_exp; lia].
      apply Qlt_le_weak. eapply Qlt_le_trans; [exact Hi|]. apply pow2_le. lia. }
    assert (I : (ilog2 r <= -1022)%Z).
    { destruct (ilog2_spec r Hr) as [Lr _].
      destruct (Z_le_gt_dec (ilog2 r) (-1022)) as [|G]; [assumption|].
      exfalso. assert (pow2 (-1022) < pow2 (ilog2 r)) by (apply pow2_lt; lia). lra. }
    apply (round_pos_exact r (round_half_even (q / pow2 (ulp_exp q)))).
    assert (U : ulp_exp r = ulp_exp q) by (unfold ulp_exp; lia).
    rewrite U. apply round_pos_scaled.
Qed.

(** So every operation of the model returns a float, and so does the
    reading of a decimal. *)
Lemma round64_idem (q : Q) : is_binary64 (round64 q).
Proof.
  unfold is_binary64. destruct (Qcompare_spec q 0) as [Z|N|P].
  - rewrite (round64_zero q Z). now rewrite (round64_zero 0).
  - assert (Hq : 0 < - q) by lra. rewrite (round64_neg q N).
    rewrite round64_opp. apply Qopp_comp.
    pose proof (round_pos_nonneg (- q) Hq) as R.
    destruct (Qle_lt_or_eq _ _ R) as [Pos|Zero].
    + rewrite (round64_pos _ Pos). now apply round_pos_idem.
    + rewrite <- Zero. now rewrite (round64_zero 0).
  - rewrite (round64_pos q P). pose proof (round_pos_nonneg q P) as R.
    destruct (Qle_lt_or_eq _ _ R) as [Pos|Zero].
    + rewrite (round64_pos _ Pos). now apply round_pos_idem.
    + rewrite <- Zero. now rewrite (round64_zero 0).
Qed.

Lemma nearest_float_is_binary64 (q : Q) :
  is_binary64 (Reference.nearest_float q).
Proof.
  unfold is_binary64, Reference.nearest_float. rewrite Qred_correct.
  apply round64_idem.
Qed.

End FloatFacts.

Module ReFacts.
Section WithRuntime.
Context {RT : PyRuntime}.
Import Re.

Lemma startswith_app p t : startswith p (p ++ t) = true.
Proof. induction p as [|c p IH]; simpl; [reflexivity|]. now rewrite N.eqb_refl. Qed.

Lemma startswith_inv p : forall s, startswith p s = true -> exists t, s = p ++ t.
Proof.
  induction p as [|c p IH]; intros s H; simpl in *.
  - now exists s.
  - destruct s as [|d s]; [discriminate|].
    apply andb_true_iff in H as [Hc Hp]. apply N.eqb_eq in Hc. subst d.
    destruct (IH _ Hp) as [t ->]. now exists t.
Qed.

Lemma skipn_length_app (p t : str) : skipn (length p) (p ++ t) = t.
Proof. induction p; simpl; auto. Qed.

Lemma last_of_cons p x a : last_of p (x :: a) = last_of (Some x) a.
Proof.
  unfold last_of. simpl. destruct (rev a) as [|y r] eqn:E; reflexivity.
Qed.

Lemma last_of_snoc p a x : last_of p (a ++ [x]) = Some x.
Proof. unfold last_of. now rewrite rev_app_distr. Qed.

Lemma last_of_app p a b : last_of p (a ++ b) = last_of (last_of p a) b.
Proof.
  revert p. induction a as [|x a IH]; intros p; simpl; [reflexivity|].
  now rewrite !last_of_cons, IH.
Qed.

Lemma advance_split c (s t : str) :
  rest c = s ++ t ->
  advance c s = Cursor (last_of (prev c) s) (pos c + length s) t (spans c).
Proof.
  intros E. unfold advance. now rewrite E, skipn_length_app.
Qed.

(** *** The lazy star *)

Lemma lazy_star_some cls k : forall s p i sp c,
  lazy_star cls k p i sp s = Some c ->
  exists a b, s = a ++ b /\ forallb cls a = true /\
    k (Cursor (last_of p a) (i + length a) b sp) = Some c /\
    (forall a1 a2, a = a1 ++ a2 -> a2 <> [] ->
       k (Cursor (last_of p a1) (i + length a1) (a2 ++ b) sp) = None).
Proof.
  induction s as [|x s IH]; intros p i sp c H; simpl in H.
  - destruct (k (Cursor p i [] sp)) eqn:K; [|discriminate]. inversion H; subst.
    exists [], []. simpl. rewrite Nat.add_0_r. repeat split; auto.
    intros a1 a2 E. destruct a1, a2; try discriminate. congruence.
  - destruct (k (Cursor p i (x :: s) sp)) eqn:K.
    + inversion H; subst. exists [], (x :: s). simpl. rewrite Nat.add_0_r.
      repeat split; auto.
      intros a1 a2 E. destruct a1, a2; try discriminate. congruence.
    + destruct (cls x) eqn:Cx; [|discriminate].
      destruct (IH _ _ _ _ H) as (a & b & -> & Ha & Hk & Hmin).
      exists (x :: a), b. simpl. rewrite Cx, Ha, last_of_cons.
      rewrite Nat.add_succ_r. repeat split; auto.
      intros a1 a2 E Hne. destruct a1 as [|y a1]; simpl in *.
      * subst a2. simpl. now rewrite Nat.add_0_r.
      * inversion E; subst. rewrite last_of_cons, Nat.add_succ_r.
        now apply Hmin.
Qed.

Lemma lazy_star_none cls k : forall s p i sp,
  lazy_star cls k p i sp s = None ->
  forall a b, s = a ++ b -> forallb cls a = true ->
    k (Cursor (last_of p a) (i + length a) b sp) = None.
Proof.
  induction s as [|x s IH]; intros p i sp H a b E Ha; simpl in H.
  - destruct a, b; try discriminate. change (last_of p []) with p.
    simpl. rewrite Nat.add_0_r.
    destruct (k (Cursor p i [] sp)); congruence.
  - destruct (k (Cursor p i (x :: s) sp)) eqn:K; [discriminate|].
    destruct a as [|y a]; simpl in *.
    + subst b. change (last_of p []) with p. now rewrite Nat.add_0_r.
    + inversion E; subst. apply andb_true_iff in Ha as [Hy Ha]. rewrite Hy in H.
      rewrite last_of_cons, Nat.add_succ_r. now apply (IH _ _ _ H).
Qed.


(** *** The bounded greedy repetition *)

Lemma repeat_greedy_some cls k sp : forall hi lo s p i c,
  repeat_greedy cls lo hi k p i sp s = Some c ->
  exists a b, s = a ++ b /\ forallb cls a = true /\
    lo <= length a <= hi /\
    k (Cursor (last_of p a) (i + length a) b sp) = Some c.
Proof.
  assert (Stop : forall lo s p i c,
    (if Nat.eqb lo 0 then k (Cursor p i s sp) else None) = Some c ->
    forall hi, exists a b, s = a ++ b /\ forallb cls a = true /\
      lo <= length a <= hi /\
      k (Cursor (last_of p a) (i + length a) b sp) = Some c).
  { intros lo s p i c H hi. destruct (Nat.eqb_spec lo 0); [|discriminate].
    exists [], s. change (last_of p []) with p. simpl. rewrite Nat.add_0_r.
    repeat split; auto; lia. }
  induction hi as [|hi IH]; intros lo s p i c H; simpl in H.
  - now apply Stop.
  - destruct s as [|x s]; [now apply Stop|].
    destruct (cls x) eqn:Cx; [|now apply Stop].
    destruct (repeat_greedy cls (lo - 1) hi k (Some x) (S i) sp s) eqn:R;
      [|now apply Stop].
    inversion H; subst.
    destruct (IH _ _ _ _ _ R) as (a & b & -> & Ha & Hlen & Hk).
    exists (x :: a), b. simpl. rewrite Cx, Ha, last_of_cons, Nat.add_succ_r.
    repeat split; auto; lia.
Qed.

Lemma repeat_greedy_none cls k sp : forall hi lo s p i,
  repeat_greedy cls lo hi k p i sp s = None ->
  forall a b, s = a ++ b -> forallb cls a = true ->
    lo <= length a <= hi ->
    k (Cursor (last_of p a) (i + length a) b sp) = None.
Proof.
  induction hi as [|hi IH]; intros lo s p i H a b E Ha Hlen; simpl in H.
  - destruct a; [|simpl in Hlen; lia]. simpl in *. subst b.
    change (last_of p []) with p. rewrite Nat.add_0_r.
    destruct (Nat.eqb_spec lo 0); [assumption|lia].
  - destruct a as [|y a].
    + simpl in *. subst b. change (last_of p []) with p. rewrite Nat.add_0_r.
      assert (lo = 0) as -> by lia. simpl in H.
      destruct s as [|x s]; [assumption|].
      destruct (cls x); [|assumption].
      destruct (repeat_greedy cls 0 hi k (Some x) (S i) sp s); [discriminate|assumption].
    + simpl in E. subst s. simpl in Ha, Hlen.
      apply andb_true_iff in Ha as [Hy Ha]. rewrite Hy in H.
      destruct (repeat_greedy cls (lo - 1) hi k (Some y) (S i) sp (a ++ b)) eqn:R;
        [discriminate|].
      rewrite last_of_cons. simpl. rewrite Nat.add_succ_r.
      apply (IH _ _ _ _ R); auto. lia.
Qed.

End WithRuntime.
End ReFacts.

Module StockFacts.
Section WithRuntime.
Context {RT : PyRuntime}.
Import Re ReFacts Orchestrator Ticker.

Lemma upper_is_word c : is_upper_AZ c = true -> is_word c = true.
Proof.
  unfold is_word, is_ascii. intros H. rewrite H. unfold is_upper_AZ in H.
  apply andb_true_iff in H as [_ H]. apply N.leb_le in H.
  destruct (N.ltb_spec c 128); [reflexivity | lia].
Qed.

Lemma uppers_last_word p a :
  a <> [] -> forallb is_upper_AZ a = true -> is_word_opt (last_of p a) = true.
Proof.
  intros Hne Ha. destruct (exists_last Hne) as (a' & x & ->).
  rewrite last_of_snoc. rewrite forallb_app in Ha.
  apply andb_true_iff in Ha as [_ Hx]. simpl in Hx.
  rewrite andb_true_r in Hx. now apply upper_is_word.
Qed.

Lemma uppers_head_word (a b : str) :
  a <> [] -> forallb is_upper_AZ a = true -> is_word_opt (hd_error (a ++ b)) = true.
Proof.
  destruct a as [|x a]; [congruence|]. simpl. intros _ H.
  apply andb_true_iff in H as [H _]. now apply upper_is_word.
Qed.

Lemma token_some c c' :
  run token_regex Some c = Some c' ->
  exists tok post, rest c = tok ++ post /\
    standalone_token (prev c) tok post /\ c' = token_end c tok post.
Proof.
  unfold token_regex. cbn [run]. intros H.
  destruct (at_boundary c) eqn:B; [|discriminate].
  apply repeat_greedy_some in H as (a & b & E & Ha & Hlen & Hk).
  cbn [prev pos rest spans] in Hk.
  destruct (at_boundary _) eqn:B2 in Hk; [|discriminate]. inversion Hk; subst c'.
  assert (Hne : a <> []) by (destruct a; simpl in Hlen; [lia | discriminate]).
  unfold at_boundary in B, B2. cbn [prev rest] in B2.
  rewrite E, (uppers_head_word a b Hne Ha) in B.
  rewrite (uppers_last_word (prev c) a Hne Ha) in B2.
  exists a, b. split; [assumption|]. split; [|reflexivity].
  repeat split; auto; try lia.
  - destruct (is_word_opt (prev c)); [discriminate | reflexivity].
  - destruct (is_word_opt (hd_error b)); [discriminate | reflexivity].
Qed.

Lemma token_complete c tok post :
  rest c = tok ++ post -> standalone_token (prev c) tok post ->
  run token_regex Some c = Some (token_end c tok post).
Proof.
  intros E (Hne & Hup & Hlen & Hb & Ha).
  destruct (run token_regex Some c) as [c'|] eqn:R.
  - apply token_some in R as (tok' & post' & E' & (Hne' & Hup' & Hlen' & _ & Ha') & ->).
    enough (tok' = tok /\ post' = post) as [-> ->] by reflexivity.
    rewrite E in E'. clear - E' Hne Hup Ha Hne' Hup' Ha'.
    revert tok' E' Hne' Hup'.
    induction tok as [|x tok IH]; [congruence|]. intros [|y tok'] E' Hne' Hup'; [congruence|].
    simpl in E'. inversion E'; subst y.
    simpl in Hup, Hup'. apply andb_true_iff in Hup as [Hx Hup], Hup' as [_ Hup'].
    destruct tok as [|x' tok], tok' as [|y' tok'].
    + simpl in *. now subst.
    + exfalso. simpl in H1. subst post. simpl in Ha, Hup'.
      apply andb_true_iff in Hup' as [Hy _]. now rewrite (upper_is_word _ Hy) in Ha.
    + exfalso. simpl in H1. subst post'. simpl in Ha', Hup.
      apply andb_true_iff in Hup as [Hy _]. now rewrite (upper_is_word _ Hy) in Ha'.
    + destruct (IH ltac:(discriminate) Hup (y' :: tok') H1 ltac:(discriminate) Hup') as [E1 E2].
      split; congruence.
  - exfalso. unfold token_regex in R. cbn [run] in R.
    unfold at_boundary in R. rewrite E, (uppers_head_word tok post Hne Hup), Hb in R.
    simpl xorb in R. cbv iota in R.
    assert (1 <= length tok) by (destruct tok; [congruence | simpl; lia]).
    eapply repeat_greedy_none in R; [| reflexivity | exact Hup | lia].
    cbn [prev pos rest spans] in R. unfold at_boundary in R. cbn [prev rest] in R.
    rewrite (uppers_last_word (prev c) tok Hne Hup), Ha in R. discriminate.
Qed.


Lemma stock_regex_parts :
  stock_regex = Seq trigger_regex (Seq (LazyStar dot) token_regex).
Proof. reflexivity. Qed.

Lemma lit_some s k c c' :
  run (Lit s) k c = Some c' ->
  exists t, rest c = s ++ t /\
    k (Cursor (last_of (prev c) s) (pos c + length s) t (spans c)) = Some c'.
Proof.
  cbn [run]. destruct (startswith s (rest c)) eqn:S; [|discriminate].
  apply startswith_inv in S as [t E]. rewrite (advance_split c s t E).
  intros H. now exists t.
Qed.

Lemma lit_none s k c t :
  run (Lit s) k c = None -> rest c = s ++ t ->
  k (Cursor (last_of (prev c) s) (pos c + length s) t (spans c)) = None.
Proof.
  cbn [run]. intros H E. rewrite E, startswith_app in H.
  now rewrite <- (advance_split c s t) by now rewrite E.
Qed.

Lemma alt_some r1 r2 k c c' :
  run (Alt r1 r2) k c = Some c' -> run r1 k c = Some c' \/ run r2 k c = Some c'.
Proof. cbn [run]. destruct (run r1 k c); auto. Qed.

Lemma alt_none r1 r2 k c :
  run (Alt r1 r2) k c = None -> run r1 k c = None /\ run r2 k c = None.
Proof. cbn [run]. destruct (run r1 k c); [discriminate | auto]. Qed.

Lemma run_group n r k c :
  run (Group n r) k c =
  run r (fun c' => k (Cursor (prev c') (pos c') (rest c')
                        ((n, (pos c, pos c')) :: spans c'))) c.
Proof. reflexivity. Qed.

Lemma run_seq r1 r2 k c : run (Seq r1 r2) k c = run r1 (run r2 k) c.
Proof. reflexivity. Qed.

Lemma trigger_some k c c' :
  run trigger_regex k c = Some c' ->
  exists trig t, In trig triggers /\ rest c = trig ++ t /\
    k (trigger_end c trig t) = Some c'.
Proof.
  unfold trigger_regex. rewrite run_group. intros H.
  repeat (apply alt_some in H as [H|H]);
    apply lit_some in H as (t & E & H); cbn [prev pos rest spans] in H;
    eexists _, t; (split; [|split; [exact E | exact H]]);
    unfold triggers; simpl; tauto.
Qed.

Lemma trigger_none k c trig t :
  run trigger_regex k c = None -> In trig triggers -> rest c = trig ++ t ->
  k (trigger_end c trig t) = None.
Proof.
  unfold trigger_regex. rewrite run_group. intros H Hin E.
  repeat (apply alt_none in H as [? H]).
  unfold triggers in Hin. simpl in Hin.
  repeat (destruct Hin as [<-|Hin];
    [match goal with
     | L : run (Lit _) _ _ = None |- _ => exact (lit_none _ _ _ _ L E)
     end|]).
  contradiction.
Qed.

Lemma trigger_unique trig trig' (t t' : str) :
  In trig triggers -> In trig' triggers -> trig ++ t = trig' ++ t' ->
  trig = trig' /\ t = t'.
Proof.
  unfold triggers. simpl. intros H H' E.
  repeat (destruct H as [<-|H]; [|]); try contradiction;
    repeat (destruct H' as [<-|H']; [|]); try contradiction;
    cbv in E; try discriminate; inversion E; auto.
Qed.

(** *** [re.search] *)

Lemma search_from_some r whole : forall s p i m,
  search_from r whole p i s = Some m ->
  exists a b c, s = a ++ b /\
    run r Some (Cursor (last_of p a) (i + length a) b []) = Some c /\
    m = Match whole (i + length a) (pos c) (spans c) /\
    (forall a1 a2, a = a1 ++ a2 -> a2 <> [] ->
       run r Some (Cursor (last_of p a1) (i + length a1) (a2 ++ b) []) = None).
Proof.
  assert (Here : forall s p i c,
    run r Some (Cursor p i s []) = Some c ->
    exists a b c0, s = a ++ b /\
      run r Some (Cursor (last_of p a) (i + length a) b []) = Some c0 /\
      Match whole i (pos c) (spans c) = Match whole (i + length a) (pos c0) (spans c0) /\
      (forall a1 a2, a = a1 ++ a2 -> a2 <> [] ->
         run r Some (Cursor (last_of p a1) (i + length a1) (a2 ++ b) []) = None)).
  { intros s p i c H. exists [], s, c. change (last_of p []) with p. simpl.
    rewrite Nat.add_0_r. repeat split; auto.
    intros a1 a2 E. destruct a1, a2; try discriminate. congruence. }
  induction s as [|x s IH]; intros p i m H; simpl in H.
  - destruct (run r Some (Cursor p i [] [])) eqn:R; [|discriminate].
    inversion H; subst. now apply Here.
  - destruct (run r Some (Cursor p i (x :: s) [])) eqn:R.
    + inversion H; subst. now apply Here.
    + destruct (IH _ _ _ H) as (a & b & c & -> & Hc & -> & Hmin).
      exists (x :: a), b, c. simpl. rewrite last_of_cons, Nat.add_succ_r.
      repeat split; auto.
      intros a1 a2 E Hne. destruct a1 as [|y a1]; simpl in *.
      * subst a2. change (last_of p []) with p. simpl. now rewrite Nat.add_0_r.
      * inversion E; subst. rewrite last_of_cons, Nat.add_succ_r. now apply Hmin.
Qed.

Lemma search_from_none r whole : forall s p i,
  search_from r whole p i s = None ->
  forall a b, s = a ++ b ->
    run r Some (Cursor (last_of p a) (i + length a) b []) = None.
Proof.
  induction s as [|x s IH]; intros p i H a b E; simpl in H.
  - destruct a, b; try discriminate. change (last_of p []) with p. simpl.
    rewrite Nat.add_0_r. destruct (run r Some (Cursor p i [] [])); congruence.
  - destruct (run r Some (Cursor p i (x :: s) [])) eqn:R; [discriminate|].
    destruct a as [|y a]; simpl in *.
    + subst b. change (last_of p []) with p. now rewrite Nat.add_0_r.
    + inversion E; subst. rewrite last_of_cons, Nat.add_succ_r.
      now apply (IH _ _ H).
Qed.

End WithRuntime.
End StockFacts.

Module StockSearch.
Section WithRuntime.
Context {RT : PyRuntime}.
Import Re ReFacts Orchestrator Ticker StockFacts.

Lemma run_lazy_star cls k c :
  run (LazyStar cls) k c = lazy_star cls k (prev c) (pos c) (spans c) (rest c).
Proof. reflexivity. Qed.

Lemma app_split_shorter (a b a' b' : str) :
  a ++ b = a' ++ b' -> length a' < length a ->
  exists a2, a = a' ++ a2 /\ a2 <> [] /\ b' = a2 ++ b.
Proof.
  intros E L. apply app_eq_app in E as [l [[-> ->]|[-> ->]]].
  - exists l. repeat split; auto. intros ->. rewrite app_nil_r in L. lia.
  - rewrite length_app in L. lia.
Qed.

Lemma app_split_same (a b a' b' : str) :
  a ++ b = a' ++ b' -> length a = length a' -> a = a' /\ b = b'.
Proof.
  intros E L. apply app_eq_app in E as [l [[-> ->]|[-> ->]]];
    rewrite length_app in L; assert (l = []) as -> by (destruct l; simpl in *; [reflexivity|lia]);
    now rewrite !app_nil_r.
Qed.

(** At a position where a trigger word is followed on its line by a
    standalone token, the pattern matches. *)
Lemma run_stock_complete c trig mid tok post :
  rest c = trig ++ mid ++ tok ++ post -> In trig triggers ->
  forallb dot mid = true ->
  standalone_token (last_of (prev c) (trig ++ mid)) tok post ->
  run stock_regex Some c <> None.
Proof.
  intros E Hin Hdot Htok R. rewrite stock_regex_parts, run_seq in R.
  apply (trigger_none _ c trig (mid ++ tok ++ post)) in R; auto.
  rewrite run_seq, run_lazy_star in R. cbn [trigger_end prev pos rest spans] in R.
  eapply lazy_star_none in R; [| reflexivity | exact Hdot].
  rewrite <- last_of_app in R.
  rewrite (token_complete _ tok post) in R; [discriminate | reflexivity | exact Htok].
Qed.

Lemma run_stock_some c c' :
  run stock_regex Some c = Some c' ->
  exists trig mid tok post,
    rest c = trig ++ mid ++ tok ++ post /\ In trig triggers /\
    forallb dot mid = true /\
    standalone_token (last_of (prev c) (trig ++ mid)) tok post /\
    pos c' = pos c + length trig + length mid + length tok /\
    spans c' =
      (2, (pos c + length trig + length mid,
           pos c + length trig + length mid + length tok))
      :: (1, (pos c, pos c + length trig)) :: spans c /\
    (forall mid1 mid2, mid = mid1 ++ mid2 -> mid2 <> [] ->
       run token_regex Some
         (Cursor (last_of (prev c) (trig ++ mid1))
                 (pos c + length trig + length mid1)
                 (mid2 ++ tok ++ post)
                 ((1, (pos c, pos c + length trig)) :: spans c)) = None).
Proof.
  rewrite stock_regex_parts, run_seq. intros H.
  apply trigger_some in H as (trig & t & Hin & E & H).
  rewrite run_seq, run_lazy_star in H. cbn [trigger_end prev pos rest spans] in H.
  apply lazy_star_some in H as (mid & b & -> & Hdot & H & Hmin).
  apply token_some in H as (tok & post & Eb & Htok & ->).
  cbn [prev pos rest spans] in Eb, Htok. subst b.
  exists trig, mid, tok, post. rewrite last_of_app.
  do 6 (split; [auto|]).
  intros mid1 mid2 Em Hne. rewrite last_of_app. subst mid.
  exact (Hmin mid1 mid2 eq_refl Hne).
Qed.

Theorem stock_search_sound (query : str) (m : match_object) :
  search stock_regex query = Some m ->
  exists pre trig mid tok post,
    occurrence query pre trig mid tok post /\
    first_occurrence query pre mid /\
    m = stock_match_of query pre trig mid tok.
Proof.
  unfold search. intros H.
  apply search_from_some in H as (pre & b & c & E & Hc & -> & Hmin).
  apply run_stock_some in Hc as (trig & mid & tok & post & Eb & Hin & Hdot & Htok & Hpos & Hsp & Hlazy).
  cbn [prev pos rest spans] in *. subst b.
  exists pre, trig, mid, tok, post.
  assert (Hocc : occurrence query pre trig mid tok post).
  { repeat split; auto; try apply Htok. all: rewrite last_of_app; apply Htok. }
  split; [exact Hocc|]. split.
  - intros pre' trig' mid' tok' post' ((E' & Hin' & Htok') & Hdot').
    destruct (Nat.lt_trichotomy (length pre) (length pre')) as [L|[L|L]]; [now left| |].
    + right. split; [assumption|].
      rewrite E in E'. apply app_split_same in E' as [<- E']; [|assumption].
      apply trigger_unique in E' as [<- E']; auto.
      destruct (Nat.le_gt_cases (length mid) (length mid')) as [|L']; [assumption|exfalso].
      apply app_split_shorter in E' as (mid2 & Em & Hne & E2); [|assumption].
      specialize (Hlazy mid' mid2 Em Hne).
      rewrite (token_complete _ tok' post') in Hlazy; [discriminate | now cbn [rest] |].
      cbn [prev]. rewrite <- last_of_app. exact Htok'.
    + exfalso. rewrite E in E'. apply app_split_shorter in E' as (a2 & Ea & Hne & E2); [|assumption].
      specialize (Hmin pre' a2 Ea Hne).
      revert Hmin. apply (run_stock_complete _ trig' mid' tok' post'); auto.
      cbn [prev]. rewrite <- last_of_app. exact Htok'.
  - unfold stock_match_of. rewrite Hpos, Hsp. simpl. reflexivity.
Qed.

Theorem stock_search_complete (query pre trig mid tok post : str) :
  occurrence query pre trig mid tok post ->
  search stock_regex query <> None.
Proof.
  intros ((E & Hin & Htok) & Hdot) R. unfold search in R.
  eapply search_from_none in R; [|exact E].
  revert R. apply (run_stock_complete _ trig mid tok post); auto.
  cbn [prev]. rewrite <- last_of_app. exact Htok.
Qed.

End WithRuntime.
End StockSearch.

Module CoroFacts.

Lemma bind_lift_ok {A B} (a : A) (f : A -> M B) : bind (lift (Ok a)) f = f a.
Proof. unfold bind, lift. now destruct (f a). Qed.

Lemma bind_lift_raise {A B} (e : exn) (f : A -> M B) :
  bind (lift (Raise e)) f = lift (Raise e).
Proof. reflexivity. Qed.

Lemma bind_ret {A B} (a : A) (f : A -> M B) : bind (ret a) f = f a.
Proof. apply bind_lift_ok. Qed.

Lemma bind_await_ok {A B} (c : call) (a : A) (f : A -> M B) :
  bind (await c (Ok a)) f = (c :: trace (f a), result (f a)).
Proof. unfold bind, await, trace, result. now destruct (f a). Qed.

Lemma bind_await_raise {A B} (c : call) (e : exn) (f : A -> M B) :
  bind (await c (Raise e)) f = ([c], Raise e).
Proof. reflexivity. Qed.

Lemma trace_lift {A} (r : res A) : trace (lift r) = [].
Proof. reflexivity. Qed.

Lemma trace_bind_await {A B} (c : call) (r : res A) (f : A -> M B) :
  (forall a, trace (f a) = []) -> trace (bind (await c r) f) = [c].
Proof.
  intros H. destruct r as [a|e]; [|reflexivity].
  rewrite bind_await_ok. cbn [trace fst]. now rewrite H.
Qed.

Lemma trace_bind_lift {A B} (r : res A) (f : A -> M B) :
  (forall a, trace (f a) = []) -> trace (bind (lift r) f) = [].
Proof.
  intros H. destruct r as [a|e]; [|reflexivity]. now rewrite bind_lift_ok.
Qed.

End CoroFacts.

Module StrFacts.

Lemma eqb_refl (a : str) : Str.eqb a a = true.
Proof. induction a; simpl; [reflexivity|]. now rewrite N.eqb_refl. Qed.

Lemma eqb_eq (a b : str) : Str.eqb a b = true <-> a = b.
Proof.
  split; [|intros ->; apply eqb_refl].
  revert b. induction a as [|x a IH]; intros [|y b] H; simpl in H;
    try reflexivity; try discriminate.
  apply andb_true_iff in H as [Hx Hab]. apply N.eqb_eq in Hx.
  f_equal; auto.
Qed.

Lemma eqb_neq (a b : str) : a <> b -> Str.eqb a b = false.
Proof.
  intros H. destruct (Str.eqb a b) eqn:E; [|reflexivity].
  now apply eqb_eq in E.
Qed.

Lemma lines_join (parts : list str) :
  parts <> [] -> Forall (fun p => ~ In newline p) parts ->
  lines (join [newline] parts) = parts.
Proof.
  assert (One : forall p : str, ~ In newline p -> forall rest, 
            lines (p ++ newline :: rest) = p :: lines rest).
  { induction p as [|c p IH]; intros Hp rest; simpl.
    - reflexivity.
    - destruct (N.eqb_spec c newline) as [->|_]; [exfalso; apply Hp; now left|].
      rewrite IH; [reflexivity|]. intros H. apply Hp. now right. }
  assert (Last : forall p : str, ~ In newline p -> lines p = [p]).
  { induction p as [|c p IH]; intros Hp; simpl; [reflexivity|].
    destruct (N.eqb_spec c newline) as [->|_]; [exfalso; apply Hp; now left|].
    rewrite IH; [reflexivity|]. intros H. apply Hp. now right. }
  induction parts as [|p parts IH]; intros Hne Hall; [congruence|].
  inversion Hall as [|? ? Hp Hrest]; subst.
  destruct parts as [|p' parts].
  - simpl. now apply Last.
  - change (join [newline] (p :: p' :: parts))
      with (p ++ newline :: join [newline] (p' :: parts)).
    rewrite One by assumption. f_equal. apply IH; [discriminate|assumption].
Qed.

End StrFacts.

Module HandlerFacts.
Section WithAgents.
Context {RT : PyRuntime}.
Variable agents : Orchestrator.Agents.
Import Orchestrator Payload CoroFacts.

Lemma py_get_dict d k : py_get (VDict d) k = Ok (field d k).
Proof. reflexivity. Qed.

Lemma truthy_field_item d k :
  truthy (field d k) = true -> py_item (VDict d) k = Ok (field d k).
Proof.
  unfold field, py_item. destruct (lookup k d); [reflexivity | discriminate].
Qed.

(** Without a signal, the guards fall through to the rest of the handler. *)
Lemma pass_through_no_signal d otherwise :
  no_signal d -> pass_through (VDict d) otherwise = otherwise.
Proof.
  intros [Hn Hi]. unfold pass_through.
  rewrite py_get_dict, bind_lift_ok, Hn, py_get_dict, bind_lift_ok, Hi.
  reflexivity.
Qed.

(** A truthy ["Note"] is returned as it is. *)
Lemma pass_through_note d otherwise :
  truthy (field d (py "Note")) = true ->
  pass_through (VDict d) otherwise = lift (Ok (field d (py "Note"))).
Proof.
  intros Hn. unfold pass_through.
  rewrite py_get_dict, bind_lift_ok, Hn. now rewrite truthy_field_item.
Qed.

(** Without a truthy ["Note"], a truthy ["Information"] is returned as it
    is. *)
Lemma pass_through_information d otherwise :
  truthy (field d (py "Note")) = false ->
  truthy (field d (py "Information")) = true ->
  pass_through (VDict d) otherwise = lift (Ok (field d (py "Information"))).
Proof.
  intros Hn Hi. unfold pass_through.
  rewrite py_get_dict, bind_lift_ok, Hn, py_get_dict, bind_lift_ok, Hi.
  now rewrite truthy_field_item.
Qed.

Lemma trace_pass_through data otherwise :
  trace otherwise = [] -> trace (pass_through data otherwise) = [].
Proof.
  intros H. unfold pass_through.
  apply trace_bind_lift. intros note. destruct (truthy note); [apply trace_lift|].
  apply trace_bind_lift. intros info. destruct (truthy info); [apply trace_lift|].
  exact H.
Qed.

(** The quote handler awaits the quote agent and nothing else. *)
Lemma trace_quote_handler ticker :
  trace (quote_handler agents ticker) = [CallQuote ticker].
Proof.
  unfold quote_handler. apply trace_bind_await. intros data.
  apply trace_pass_through. apply trace_bind_lift. intros present.
  destruct present; [|reflexivity].
  apply trace_bind_lift. intros q. apply trace_lift.
Qed.

(** The historical handler awaits the historical agent and nothing else. *)
Lemma trace_historical_handler ticker :
  trace (historical_handler agents ticker) = [CallHistorical ticker].
Proof.
  unfold historical_handler. apply trace_bind_await. intros data.
  apply trace_pass_through. apply trace_bind_lift. intros present.
  destruct present; [apply trace_lift | reflexivity].
Qed.

(** What [orchestrate_query] does once [stock_regex] matched. *)
Lemma orchestrate_query_matched query m ticker :
  Re.search stock_regex query = Some m -> ticker_of m = Ok ticker ->
  orchestrate_query agents query =
  if contains (py "historical") (lower query) ||
     contains (py "performance") (lower query)
  then historical_handler agents ticker
  else quote_handler agents ticker.
Proof.
  intros Hm Ht. unfold orchestrate_query. rewrite Hm, Ht.
  now rewrite bind_lift_ok.
Qed.

(** What [orchestrate_query] does when [stock_regex] did not match. *)
Lemma orchestrate_query_unmatched query :
  Re.search stock_regex query = None ->
  orchestrate_query agents query =
  if any_in news_keywords (lower query) then news_handler agents (lower query)
  else if any_in analysis_keywords (lower query) then analysis_handler agents
  else if any_in explain_keywords (lower query) then explain_handler agents query
  else default_handler agents query.
Proof. intros Hm. unfold orchestrate_query. now rewrite Hm. Qed.

End WithAgents.
End HandlerFacts.

Module TickerFacts.
Section WithRuntime.
Context {RT : PyRuntime}.
Import Re ReFacts Orchestrator Ticker StockFacts StockSearch.

Lemma firstn_length_app (a b : str) : firstn (length a) (a ++ b) = a.
Proof. induction a; simpl; [now destruct b | now f_equal]. Qed.

Lemma group_2_of_occurrence query pre trig mid tok post :
  query = pre ++ trig ++ mid ++ tok ++ post ->
  group (stock_match_of query pre trig mid tok) 2 = Some tok.
Proof.
  intros E. unfold group, span, stock_match_of. cbn.
  replace (length pre + length trig + length mid + length tok
           - (length pre + length trig + length mid)) with (length tok) by lia.
  f_equal. rewrite E.
  replace (pre ++ trig ++ mid ++ tok ++ post)
    with ((pre ++ trig ++ mid) ++ tok ++ post) by now rewrite <- !app_assoc.
  replace (length pre + length trig + length mid)
    with (length (pre ++ trig ++ mid)) by (rewrite !length_app; lia).
  now rewrite skipn_length_app, firstn_length_app.
Qed.

Lemma upper_of_capitals tok : forallb is_upper_AZ tok = true -> upper tok = tok.
Proof.
  intros H. unfold upper.
  assert (A : forallb is_ascii tok = true).
  { rewrite forallb_forall in *. intros c Hc. specialize (H c Hc).
    unfold is_upper_AZ in H. unfold is_ascii.
    apply andb_true_iff in H as [_ H]. apply N.leb_le in H.
    apply N.ltb_lt. lia. }
  rewrite A. clear A. induction tok as [|c tok IH]; [reflexivity|].
  simpl in *. apply andb_true_iff in H as [Hc H]. rewrite IH by assumption.
  f_equal. unfold ascii_upper_char, is_lower_az. unfold is_upper_AZ in Hc.
  apply andb_true_iff in Hc as [_ Hc]. apply N.leb_le in Hc.
  destruct (N.leb_spec 97 c); [lia | reflexivity].
Qed.

Lemma ticker_of_occurrence query pre trig mid tok post :
  occurrence query pre trig mid tok post ->
  ticker_of (stock_match_of query pre trig mid tok) = Ok tok.
Proof.
  intros ((E & _ & (_ & Hup & _)) & _). unfold ticker_of.
  rewrite (group_2_of_occurrence query pre trig mid tok post E).
  now rewrite upper_of_capitals.
Qed.

(** Two first occurrences are the same occurrence. *)
Lemma first_occurrence_unique query pre trig mid tok post pre' trig' mid' tok' post' :
  occurrence query pre trig mid tok post -> first_occurrence query pre mid ->
  occurrence query pre' trig' mid' tok' post' -> first_occurrence query pre' mid' ->
  pre' = pre /\ trig' = trig /\ mid' = mid /\ tok' = tok /\ post' = post.
Proof.
  intros O F O' F'.
  assert (L : length pre = length pre' /\ length mid = length mid').
  { destruct (F _ _ _ _ _ O') as [L|[L1 L2]], (F' _ _ _ _ _ O) as [L'|[L1' L2']]; lia. }
  destruct L as [Lp Lm].
  destruct O as ((E & Hin & Htok) & _), O' as ((E' & Hin' & Htok') & _).
  rewrite E in E'. apply app_split_same in E' as [<- E']; [|assumption].
  apply trigger_unique in E' as [<- E']; auto.
  apply app_split_same in E' as [<- E']; [|assumption].
  pose proof (token_complete (Cursor (last_of None (pre ++ trig ++ mid)) 0 (tok ++ post) [])
                tok post eq_refl Htok) as T.
  pose proof (token_complete (Cursor (last_of None (pre ++ trig ++ mid)) 0 (tok ++ post) [])
                tok' post' E' Htok') as T'.
  rewrite T in T'. unfold token_end in T'. cbn [prev pos rest spans] in T'.
  inversion T' as [[H1 H2 H3]]. subst post'.
  apply app_inv_tail in E'. auto.
Qed.

End WithRuntime.
End TickerFacts.

Module TickerClaims.
Import Re ReFacts Orchestrator Ticker StockFacts StockSearch TickerFacts HandlerFacts.

(** The pattern finds the first occurrence of a trigger word followed on
    its line by a standalone token. *)
Lemma extraction_of_occurrence {RT : PyRuntime} (query pre trig mid tok post : str) :
  occurrence query pre trig mid tok post ->
  exists m pre' trig' mid' tok' post',
    Re.search stock_regex query = Some m /\
    m = stock_match_of query pre' trig' mid' tok' /\
    ticker_of m = Ok tok' /\
    occurrence query pre' trig' mid' tok' post' /\
    first_occurrence query pre' mid' /\
    (first_occurrence query pre mid -> tok' = tok /\ pre' = pre /\ mid' = mid).
Proof.
  intros O.
  destruct (search stock_regex query) as [m|] eqn:S;
    [|now apply stock_search_complete in O].
  destruct (stock_search_sound query m S) as (pre' & trig' & mid' & tok' & post' & O' & F' & ->).
  exists (stock_match_of query pre' trig' mid' tok'), pre', trig', mid', tok', post'.
  repeat (split; [first [reflexivity | assumption | now apply ticker_of_occurrence with post']|]).
  intros F.
  destruct (first_occurrence_unique query pre trig mid tok post pre' trig' mid' tok' post' O F O' F')
    as (-> & _ & -> & -> & _).
  auto.
Qed.

(** C7 (as amended): whenever a trigger word is followed, with no line break
    in between, by a standalone token of one to five capital letters,
    [stock_regex] matches and the ticker is the token of the first such
    occurrence: it stands verbatim in the query, after the trigger word
    (group 2 starts where the text between them ends), and when the given
    occurrence is the first one the ticker is exactly its token. *)
Theorem ticker_extraction {RT : PyRuntime} (query pre trig mid tok post : str) :
  occurrence query pre trig mid tok post ->
  exists m pre' trig' mid' tok' post',
    Re.search stock_regex query = Some m /\
    m = stock_match_of query pre' trig' mid' tok' /\
    ticker_of m = Ok tok' /\
    occurrence query pre' trig' mid' tok' post' /\
    first_occurrence query pre' mid' /\
    (first_occurrence query pre mid -> tok' = tok /\ pre' = pre /\ mid' = mid).
Proof. exact (extraction_of_occurrence query pre trig mid tok post). Qed.

Lemma price_of_TSLA_occurrence :
  occurrence (RT := Reference.runtime) Reference.price_of_TSLA
    (py "What's the ") (py "price") (py " of ") (py "TSLA") (py "?").
Proof.
  unfold occurrence, occurrence_anywhere, standalone_token.
  repeat split; try reflexivity; try discriminate.
  - vm_compute. tauto.
  - vm_compute. lia.
Defined.

Lemma ticker_extraction_witness :
  occurrence (RT := Reference.runtime) Reference.price_of_TSLA
    (py "What's the ") (py "price") (py " of ") (py "TSLA") (py "?") /\
  exists m pre' trig' mid' tok' post',
    Re.search (RT := Reference.runtime) stock_regex Reference.price_of_TSLA = Some m /\
    m = stock_match_of Reference.price_of_TSLA pre' trig' mid' tok' /\
    ticker_of (RT := Reference.runtime) m = Ok tok' /\
    occurrence (RT := Reference.runtime) Reference.price_of_TSLA pre' trig' mid' tok' post' /\
    first_occurrence (RT := Reference.runtime) Reference.price_of_TSLA pre' mid' /\
    (first_occurrence (RT := Reference.runtime) Reference.price_of_TSLA
       (py "What's the ") (py " of ") ->
     tok' = py "TSLA" /\ pre' = py "What's the " /\ mid' = py " of ").
Proof.
  split; [exact price_of_TSLA_occurrence|].
  apply (ticker_extraction (RT := Reference.runtime) Reference.price_of_TSLA
           (py "What's the ") (py "price") (py " of ") (py "TSLA") (py "?")).
  exact price_of_TSLA_occurrence.
Defined.

(** C7 (as stated) fails: in [price], line break, [TSLA] the trigger word is
    followed later in the string by a standalone token, and nothing is
    extracted; and in [price of AAPL and TSLA] the trigger word is followed
    by the standalone token [TSLA], and the ticker is [AAPL], the first
    one. *)
Lemma ticker_extraction_counterexample :
  (occurrence_anywhere (RT := Reference.runtime) Reference.two_line_query
     [] (py "price") [newline] (py "TSLA") [] /\
   Re.search (RT := Reference.runtime) stock_regex Reference.two_line_query = None) /\
  (occurrence (RT := Reference.runtime) Reference.price_of_AAPL_and_TSLA
     [] (py "price") (py " of AAPL and ") (py "TSLA") [] /\
   exists m,
     Re.search (RT := Reference.runtime) stock_regex
       Reference.price_of_AAPL_and_TSLA = Some m /\
     ticker_of (RT := Reference.runtime) m = Ok (py "AAPL")).
Proof.
  split; split.
  - unfold occurrence_anywhere, standalone_token.
    repeat split; try reflexivity; try discriminate.
    + vm_compute. tauto.
    + vm_compute. lia.
  - reflexivity.
  - unfold occurrence, occurrence_anywhere, standalone_token.
    repeat split; try reflexivity; try discriminate.
    + vm_compute. tauto.
    + vm_compute. lia.
  - eexists. split; vm_compute; reflexivity.
Qed.

(** C6 (as amended): a query in which a trigger word is followed, with no
    line break in between, by a standalone token of one to five capital
    letters, and which also contains a news keyword, is handled by the quote
    or the historical handler with the extracted ticker; the news agent is
    not called. *)
Theorem ticker_rule_has_priority {RT : PyRuntime} (agents : Agents)
    (query pre trig mid tok post : str) :
  occurrence query pre trig mid tok post ->
  any_in news_keywords (lower query) = true ->
  exists ticker,
    (orchestrate_query agents query = quote_handler agents ticker /\
     trace (orchestrate_query agents query) = [CallQuote ticker]) \/
    (orchestrate_query agents query = historical_handler agents ticker /\
     trace (orchestrate_query agents query) = [CallHistorical ticker]).
Proof.
  intros O _.
  destruct (extraction_of_occurrence query pre trig mid tok post O)
    as (m & pre' & trig' & mid' & tok' & post' & S & _ & T & _).
  exists tok'. rewrite (orchestrate_query_matched agents query m tok' S T).
  destruct (contains (py "historical") (lower query) ||
            contains (py "performance") (lower query)).
  - right. split; [reflexivity | apply trace_historical_handler].
  - left. split; [reflexivity | apply trace_quote_handler].
Qed.

Lemma price_of_TSLA_news_occurrence :
  occurrence (RT := Reference.runtime) Reference.price_of_TSLA_news
    [] (py "price") (py " of ") (py "TSLA") (py " news").
Proof.
  unfold occurrence, occurrence_anywhere, standalone_token.
  repeat split; try reflexivity; try discriminate.
  - vm_compute. tauto.
  - vm_compute. lia.
Defined.

Lemma ticker_rule_has_priority_witness :
  occurrence (RT := Reference.runtime) Reference.price_of_TSLA_news
    [] (py "price") (py " of ") (py "TSLA") (py " news") /\
  any_in news_keywords (lower (RT := Reference.runtime) Reference.price_of_TSLA_news) = true /\
  exists ticker,
    (orchestrate_query (RT := Reference.runtime) Reference.quiet
       Reference.price_of_TSLA_news =
     quote_handler (RT := Reference.runtime) Reference.quiet ticker /\
     trace (orchestrate_query (RT := Reference.runtime) Reference.quiet
              Reference.price_of_TSLA_news) = [CallQuote ticker]) \/
    (orchestrate_query (RT := Reference.runtime) Reference.quiet
       Reference.price_of_TSLA_news =
     historical_handler (RT := Reference.runtime) Reference.quiet ticker /\
     trace (orchestrate_query (RT := Reference.runtime) Reference.quiet
              Reference.price_of_TSLA_news) = [CallHistorical ticker]).
Proof.
  split; [exact price_of_TSLA_news_occurrence|]. split; [reflexivity|].
  apply (ticker_rule_has_priority (RT := Reference.runtime) Reference.quiet
           Reference.price_of_TSLA_news [] (py "price") (py " of ") (py "TSLA") (py " news")).
  - exact price_of_TSLA_news_occurrence.
  - reflexivity.
Defined.

(** C6 (as stated) fails: [price], line break, [TSLA news] contains a
    trigger word followed later by a standalone token, and a news keyword,
    and is handled by the news handler. *)
Lemma ticker_rule_priority_counterexample :
  occurrence_anywhere (RT := Reference.runtime) Reference.two_line_news_query
    [] (py "price") [newline] (py "TSLA") (py " news") /\
  any_in news_keywords (lower (RT := Reference.runtime) Reference.two_line_news_query) = true /\
  trace (orchestrate_query (RT := Reference.runtime) Reference.quiet
           Reference.two_line_news_query) =
    [CallNews (py "price" ++ [newline] ++ py "tsla news")].
Proof.
  split; [|split; reflexivity].
  unfold occurrence_anywhere, standalone_token.
  repeat split; try reflexivity; try discriminate.
  - vm_compute. tauto.
  - vm_compute. lia.
Qed.

End TickerClaims.

Module DispatchClaims.
Import Re Orchestrator Payload CoroFacts StrFacts HandlerFacts.

Lemma lookup_some_nonempty (d : list (str * value)) k v :
  lookup k d = Some v -> truthy (VDict d) = true.
Proof. destruct d; [discriminate | reflexivity]. Qed.

Lemma truthy_dict_nonempty (d : list (str * value)) :
  d <> [] -> truthy (VDict d) = true.
Proof. destruct d; [congruence | reflexivity]. Qed.

(** The answer of the quote handler to a well-formed payload. *)
Lemma quote_handler_payload {RT : PyRuntime} (agents : Agents)
    (ticker : str) (d quote_info : list (str * value)) :
  get_stock_quote agents ticker = Ok (VDict d) ->
  no_signal d ->
  lookup (py "Global Quote") d = Some (VDict quote_info) ->
  quote_info <> [] ->
  result (quote_handler agents ticker) = quote_report ticker (VDict quote_info).
Proof.
  intros Hq Hs Hg Hne. unfold quote_handler.
  rewrite Hq, bind_await_ok. cbn [result snd].
  rewrite (pass_through_no_signal d _ Hs).
  unfold has_global_quote, py_in, py_item.
  rewrite (lookup_some_nonempty d _ _ Hg), Hg. cbn [res_bind].
  rewrite (truthy_dict_nonempty quote_info Hne).
  now rewrite !bind_lift_ok.
Qed.

(** C8: the query [What's the price of TSLA?] is a quote request for
    [TSLA] (the quote agent is the one agent called, with that ticker), and
    on a payload with a non-empty ["Global Quote"] and no provider signal
    the answer begins with the line [📈 TSLA Stock Quote:] and lists Open,
    High, Low, Price, Volume and Last Trading Day, in this order. *)
Theorem price_of_TSLA_scenario {RT : PyRuntime} (agents : Agents)
    (d quote_info : list (str * value)) :
  get_stock_quote agents (py "TSLA") = Ok (VDict d) ->
  no_signal d ->
  lookup (py "Global Quote") d = Some (VDict quote_info) ->
  quote_info <> [] ->
  trace (orchestrate_query agents Reference.price_of_TSLA) = [CallQuote (py "TSLA")] /\
  result (orchestrate_query agents Reference.price_of_TSLA) =
    Ok (VStr (py "📈 TSLA Stock Quote:" ++ [newline] ++
              py "Open: " ++ py_str (field quote_info (py "02. open")) ++ [newline] ++
              py "High: " ++ py_str (field quote_info (py "03. high")) ++ [newline] ++
              py "Low: " ++ py_str (field quote_info (py "04. low")) ++ [newline] ++
              py "Price: " ++ py_str (field quote_info (py "05. price")) ++ [newline] ++
              py "Volume: " ++ py_str (field quote_info (py "06. volume")) ++ [newline] ++
              py "Last Trading Day: " ++
              py_str (field quote_info (py "07. latest trading day")))).
Proof.
  intros Hq Hs Hg Hne.
  assert (E : orchestrate_query agents Reference.price_of_TSLA =
              quote_handler agents (py "TSLA")).
  { rewrite (orchestrate_query_matched agents Reference.price_of_TSLA
               (Ticker.stock_match_of Reference.price_of_TSLA
                  (py "What's the ") (py "price") (py " of ") (py "TSLA"))
               (py "TSLA")) by (vm_compute; reflexivity).
    reflexivity. }
  rewrite E. split; [apply trace_quote_handler|].
  rewrite (quote_handler_payload agents (py "TSLA") d quote_info Hq Hs Hg Hne).
  reflexivity.
Qed.

Lemma price_of_TSLA_scenario_witness :
  get_stock_quote
    Reference.tsla_quoted
    (py "TSLA") =
    Ok (VDict (Reference.quote_items (py "TSLA") (py "251.30") (py "1.20"))) /\
  no_signal
    (Reference.quote_items (py "TSLA") (py "251.30") (py "1.20")) /\
  lookup (py "Global Quote")
    (Reference.quote_items (py "TSLA") (py "251.30") (py "1.20")) =
    Some (VDict (Reference.quote_info (py "TSLA") (py "251.30") (py "1.20"))) /\
  trace (orchestrate_query (RT := Reference.runtime)
           Reference.tsla_quoted
           Reference.price_of_TSLA) = [CallQuote (py "TSLA")] /\
  result (orchestrate_query (RT := Reference.runtime)
            Reference.tsla_quoted
            Reference.price_of_TSLA) =
    Ok (VStr (py "📈 TSLA Stock Quote:" ++ [newline] ++
              py "Open: 250.10" ++ [newline] ++
              py "High: 255.00" ++ [newline] ++
              py "Low: 248.75" ++ [newline] ++
              py "Price: 251.30" ++ [newline] ++
              py "Volume: 1200300" ++ [newline] ++
              py "Last Trading Day: 2024-05-17")).
Proof.
  split; [reflexivity|]. split; [split; reflexivity|]. split; [reflexivity|].
  apply (price_of_TSLA_scenario (RT := Reference.runtime)
           Reference.tsla_quoted
           (Reference.quote_items (py "TSLA") (py "251.30") (py "1.20"))
           (Reference.quote_info (py "TSLA") (py "251.30") (py "1.20"))).
  - reflexivity.
  - split; reflexivity.
  - reflexivity.
  - discriminate.
Defined.

(** The answer of the news handler. *)
Lemma news_handler_result {RT : PyRuntime} (agents : Agents)
    (query_lower : str) (news : list str) :
  get_financial_news_mock agents (news_query_term_of query_lower) = Ok news ->
  trace (news_handler agents query_lower) =
    [CallNews (news_query_term_of query_lower)] /\
  result (news_handler agents query_lower) =
    Ok (VStr (match news with
              | [] => py "⚠️ Could not retrieve financial news at this time."
              | _ :: _ =>
                  join [newline]
                    (py "📰 Latest News:" :: map (fun h => py "- " ++ h) news)
              end)).
Proof.
  intros Hn. unfold news_handler. rewrite Hn, bind_await_ok.
  destruct news as [|h news]; split; reflexivity.
Qed.

(** C9: on the news path the news agent is called with the cleaned topic;
    when it returns [n >= 1] headlines (each a single line) the answer is
    the header line followed by exactly the [n] headlines, in the agent's
    order, each prefixed with [- ]; when it returns none, the answer is the
    fallback sentence. *)
Theorem news_headlines {RT : PyRuntime} (agents : Agents)
    (query : str) (news : list str) :
  Re.search stock_regex query = None ->
  any_in news_keywords (lower query) = true ->
  get_financial_news_mock agents (news_query_term_of (lower query)) = Ok news ->
  Forall (fun h => ~ In newline h) news ->
  trace (orchestrate_query agents query) =
    [CallNews (news_query_term_of (lower query))] /\
  match news with
  | [] =>
      result (orchestrate_query agents query) =
        Ok (VStr (py "⚠️ Could not retrieve financial news at this time."))
  | _ :: _ =>
      exists text,
        result (orchestrate_query agents query) = Ok (VStr text) /\
        lines text = py "📰 Latest News:" :: map (fun h => py "- " ++ h) news /\
        length (lines text) = S (length news)
  end.
Proof.
  intros Hs Hk Hn Hl.
  rewrite (orchestrate_query_unmatched agents query Hs), Hk.
  destruct (news_handler_result agents (lower query) news Hn) as [Ht Hr].
  split; [exact Ht|]. rewrite Hr. destruct news as [|h news]; [reflexivity|].
  eexists. split; [reflexivity|].
  assert (L : lines (join [newline]
                (py "📰 Latest News:" :: map (fun h0 => py "- " ++ h0) (h :: news))) =
              py "📰 Latest News:" :: map (fun h0 => py "- " ++ h0) (h :: news)).
  { apply lines_join; [discriminate|]. constructor.
    - vm_compute. intuition discriminate.
    - apply Forall_map. eapply Forall_impl; [|exact Hl].
      intros a Ha Hin. apply in_app_or in Hin as [Hin|Hin]; [|contradiction].
      revert Hin. vm_compute. intuition discriminate. }
  rewrite L. split; [reflexivity|]. cbn [length]. now rewrite length_map.
Qed.

Lemma news_headlines_witness :
  Re.search (RT := Reference.runtime) stock_regex Reference.news_about_AAPL = None /\
  any_in news_keywords (lower (RT := Reference.runtime) Reference.news_about_AAPL) = true /\
  exists text,
    result (orchestrate_query (RT := Reference.runtime) Reference.quiet
              Reference.news_about_AAPL) = Ok (VStr text) /\
    lines text =
      py "📰 Latest News:" ::
      map (fun h => py "- " ++ h)
        [py "Apple announces record quarterly earnings, driven by iPhone sales.";
         py "Analysts raise price targets for AAPL after new product unveiling.";
         py "Apple faces antitrust scrutiny in Europe."] /\
    length (lines text) = 4.
Proof.
  split; [reflexivity|]. split; [reflexivity|].
  apply (news_headlines (RT := Reference.runtime) Reference.quiet
           Reference.news_about_AAPL
           [py "Apple announces record quarterly earnings, driven by iPhone sales.";
            py "Analysts raise price targets for AAPL after new product unveiling.";
            py "Apple faces antitrust scrutiny in Europe."]).
  - reflexivity.
  - reflexivity.
  - reflexivity.
  - repeat constructor; vm_compute; intuition discriminate.
Defined.

Lemma ltb_not_trusted (confidence : Q) :
  Float.ltb confidence Float.lit_0_7 = negb (trusted confidence).
Proof.
  unfold Float.ltb, trusted.
  destruct (Qle_bool Float.lit_0_7 confidence) eqn:L.
  - apply Qle_bool_iff in L.
    rewrite <- (Qcompare_antisym Float.lit_0_7 confidence).
    destruct (Float.lit_0_7 ?= confidence)%Q eqn:C; try reflexivity.
    apply Qgt_alt in C. now apply Qlt_not_le in C.
  - destruct (confidence ?= Float.lit_0_7)%Q eqn:C; simpl; try reflexivity; exfalso.
    + apply Qeq_alt in C. assert (Float.lit_0_7 <= confidence)%Q by (rewrite C; apply Qle_refl).
      apply Qle_bool_iff in H. congruence.
    + apply Qgt_alt in C. apply Qlt_le_weak in C. apply Qle_bool_iff in C. congruence.
Qed.

(** The answer of the Explain handler. *)
Lemma explain_handler_result {RT : PyRuntime} (agents : Agents)
    (query retrieved_content response : str) (confidence : Q) :
  retrieve_info_from_rag agents query = Ok (retrieved_content, confidence) ->
  generate_text_with_gemini agents
    (explain_prompt query retrieved_content confidence) = Ok response ->
  explain_handler agents query =
    ([CallRetrieve query;
      CallGenerate (explain_prompt query retrieved_content confidence)],
     Ok (VStr (explain_header confidence ++ [newline; newline] ++ response))).
Proof.
  unfold explain_handler, explain_prompt, explain_header.
  intros Hr Hg. rewrite Hr, bind_await_ok, ltb_not_trusted.
  destruct (trusted confidence); cbn [negb]; rewrite Hg, bind_await_ok; reflexivity.
Qed.

(** C2: on the Explain path the retrieval agent is called with the query;
    when its confidence is at least 0.7 the generation agent is prompted
    with the retrieved context and the query and the answer starts with the
    found-via-retrieval header; when it is below 0.7 the generation agent
    is prompted with the query alone and the answer starts with the
    low-confidence header. *)
Theorem confidence_gate {RT : PyRuntime} (agents : Agents)
    (query retrieved_content response : str) (confidence : Q) :
  Re.search stock_regex query = None ->
  any_in news_keywords (lower query) = false ->
  any_in analysis_keywords (lower query) = false ->
  any_in explain_keywords (lower query) = true ->
  retrieve_info_from_rag agents query = Ok (retrieved_content, confidence) ->
  generate_text_with_gemini agents
    (explain_prompt query retrieved_content confidence) = Ok response ->
  trace (orchestrate_query agents query) =
    [CallRetrieve query;
     CallGenerate
       (if Qle_bool Float.lit_0_7 confidence
        then py "Explain this based on context:" ++ [newline; newline] ++
             retrieved_content ++ [newline; newline] ++
             py "User asked: " ++ query
        else py "Explain this concept: " ++ query)] /\
  result (orchestrate_query agents query) =
    Ok (VStr ((if Qle_bool Float.lit_0_7 confidence
               then py "📘 Here's what I found:"
               else py "I couldn't find very specific info, but here's what I know:")
              ++ [newline; newline] ++ response)).
Proof.
  intros Hs Hn Ha He Hr Hg.
  rewrite (orchestrate_query_unmatched agents query Hs), Hn, Ha, He.
  rewrite (explain_handler_result agents query retrieved_content response confidence Hr Hg).
  split; reflexivity.
Qed.

End DispatchClaims.

Module HistoricalClaims.
Import Re Orchestrator Payload CoroFacts StrFacts HandlerFacts DispatchClaims.

Lemma keys_of_series {RT : PyRuntime} (series : list (str * value)) (rows : list day_row) :
  Forall2 row_of series rows -> keys series = map row_date rows.
Proof.
  induction 1 as [|item row series rows [Hd _] _ IH]; [reflexivity|].
  unfold keys in *. simpl. now rewrite Hd, IH.
Qed.

(** Each date of a series leads to its own entry. *)
Lemma lookup_row {RT : PyRuntime} (series : list (str * value)) (rows : list day_row) :
  daily_series series rows ->
  forall row, In row rows ->
  exists fields,
    lookup (row_date row) series = Some (VDict fields) /\
    lookup (py "4. close") fields = Some (row_close row) /\
    py_float (row_close row) = Ok (row_price row).
Proof.
  intros [HF HN]. induction HF as [|item r series rows [Hd (fields & Hv & Hc & Hp)] HF IH];
    intros row Hin; [contradiction|].
  destruct item as [date v]. simpl in Hd, Hv. subst date v.
  simpl in HN. inversion HN as [|? ? Hnot HN']; subst.
  destruct Hin as [<-|Hin].
  - exists fields. simpl. rewrite eqb_refl. auto.
  - destruct (IH HN' row Hin) as (fields' & Hl & Hc' & Hp').
    exists fields'. simpl. rewrite eqb_neq; [auto|].
    intros E. apply Hnot. rewrite <- E. now apply in_map.
Qed.

Lemma res_map_rows {A} (f : str -> res A) (g : day_row -> A) (rows : list day_row) :
  (forall row, In row rows -> f (row_date row) = Ok (g row)) ->
  res_map f (map row_date rows) = Ok (map g rows).
Proof.
  induction rows as [|r rows IH]; intros H; [reflexivity|].
  simpl. rewrite (H r) by now left. rewrite IH; [reflexivity|].
  intros row Hin. apply H. now right.
Qed.

Lemma in_firstn {A} (x : A) : forall n l, In x (firstn n l) -> In x l.
Proof.
  induction n as [|n IH]; intros [|y l] H; simpl in *; try contradiction.
  destruct H as [->|H]; [now left | right; now apply IH].
Qed.

Lemma length_recent (rows : list day_row) :
  length (recent rows) = Nat.min 7 (length rows).
Proof. unfold recent. now rewrite length_map, length_firstn. Qed.





(** The nine-day scenario reads: seven days, ten percent. *)
Example nine_days_text :
  historical_text (RT := Reference.runtime) (py "IBM") Reference.nine_rows =
  py "Historical performance for IBM: Latest close on 2024-05-17 was 110.00. Over the last 7 days, it changed by 10.00%.".
Proof. vm_compute. reflexivity. Qed.

(** Where the rounding shows: from 1000.00 to 1000.25 the change is
    0.025 percent before rounding, which would print as 0.02; the three
    rounded operations give a float just above it. *)
Example quarter_text :
  result (orchestrate_query (RT := Reference.runtime) Reference.ibm_quarter
            Reference.historical_IBM) =
    Ok (VStr (historical_text (RT := Reference.runtime) (py "IBM")
                Reference.quarter_rows)) /\
  historical_text (RT := Reference.runtime) (py "IBM") Reference.quarter_rows =
  py "Historical performance for IBM: Latest close on 2024-05-17 was 1000.25. Over the last 2 days, it changed by 0.03%.".
Proof. split; vm_compute; reflexivity. Qed.

End HistoricalClaims.

Module RetrievalClaims.
Import RetrieverAgent FloatFacts.
Local Open Scope Q_scope.

Lemma div_one (d : Q) : d / 1 == d.
Proof. unfold Qdiv. change (/ 1) with 1. ring. Qed.

Lemma round64_one : Float.round64 1 == 1.
Proof. apply (round64_Z 1). lia. Qed.

Lemma round64_le_one (q : Q) : q <= 1 -> Float.round64 q <= 1.
Proof.
  intros H. apply Qle_trans with (Float.round64 1).
  - now apply round64_mono.
  - rewrite round64_one. apply Qle_refl.
Qed.

Lemma round64_ge_one (q : Q) : 1 <= q -> 1 <= Float.round64 q.
Proof.
  intros H. apply Qle_trans with (Float.round64 1).
  - rewrite round64_one. apply Qle_refl.
  - now apply round64_mono.
Qed.

Lemma confidence_of_range (d : Q) : 0 <= d -> 0 <= confidence_of d <= 1.
Proof.
  intros Hd. unfold confidence_of, Float.sub, Float.div. split.
  - apply Q.le_max_l.
  - apply Q.max_lub; [lra|]. apply round64_le_one.
    assert (0 <= Float.round64 (d / 1)); [|lra].
    apply round64_nonneg. rewrite div_one. exact Hd.
Qed.

(** On a float the division by [1.0] changes nothing. *)
Lemma confidence_of_float (d : Q) :
  Float.is_binary64 d -> confidence_of d == Qmax 0 (Float.sub 1 d).
Proof.
  intros Hd. unfold Float.is_binary64 in Hd.
  unfold confidence_of, Float.sub, Float.div.
  rewrite div_one, Hd. reflexivity.
Qed.

Lemma confidence_of_error (d : Q) :
  Float.is_binary64 d -> 0 <= d ->
  Qabs (confidence_of d - Qmax 0 (1 - d)) <= Float.pow2 (-53).
Proof.
  intros Hb Hd. rewrite (confidence_of_float d Hb). unfold Float.sub.
  destruct (Qlt_le_dec 1 d) as [Far|Near].
  - assert (A : Float.round64 (1 - d) <= 0) by (apply round64_nonpos; lra).
    rewrite (Q.max_l 0 (Float.round64 (1 - d)) A).
    rewrite (Q.max_l 0 (1 - d)) by lra.
    setoid_replace (0 - 0) with 0 by ring.
    apply Qlt_le_weak, (pow2_pos (-53)).
  - assert (A : 0 <= Float.round64 (1 - d)) by (apply round64_nonneg; lra).
    rewrite (Q.max_r 0 (Float.round64 (1 - d)) A).
    rewrite (Q.max_r 0 (1 - d)) by lra.
    setoid_replace (Float.pow2 (-53)) with (1 * Float.pow2 (-53)) by ring.
    apply round64_error; [lra|].
    apply Qlt_le_weak. change 1 with (Float.pow2 0). now apply pow2_lt.
Qed.

Lemma round64_above_cap : Float.round64 (inject_Z Float.cap + 1) == inject_Z Float.cap.
Proof. vm_compute. reflexivity. Qed.

Lemma add_bounds (a x : Q) (j : Z) :
  (0 <= j)%Z -> 0 <= a <= inject_Z (Z.min j Float.cap) -> 0 <= x <= 1 ->
  0 <= Float.add a x <= inject_Z (Z.min (j + 1) Float.cap).
Proof.
  intros Hj [La Ha] [Lx Hx]. unfold Float.add. split.
  - apply round64_nonneg. lra.
  - destruct (Z_lt_le_dec j Float.cap) as [Small|Big].
    + rewrite Z.min_l in Ha by lia. rewrite Z.min_l by lia.
      rewrite <- (round64_Z (j + 1)) by (unfold Float.cap in *; lia).
      apply round64_mono. rewrite inject_Z_plus. change (inject_Z 1) with 1. lra.
    + rewrite Z.min_r in Ha by lia. rewrite Z.min_r by lia.
      rewrite <- round64_above_cap. apply round64_mono. lra.
Qed.

Lemma sum_acc_bounds (l : list Q) :
  Forall (fun c => 0 <= c <= 1) l ->
  forall (a : Q) (j : Z),
    (0 <= j)%Z -> 0 <= a <= inject_Z (Z.min j Float.cap) ->
    0 <= fold_left Float.add l a <=
      inject_Z (Z.min (j + Z.of_nat (length l)) Float.cap).
Proof.
  induction 1 as [|x l Hx _ IH]; intros a j Hj Ha.
  - cbn [fold_left length]. now rewrite Z.add_0_r.
  - cbn [fold_left length]. rewrite Nat2Z.inj_succ.
    replace (j + Z.succ (Z.of_nat (length l)))%Z
      with ((j + 1) + Z.of_nat (length l))%Z by lia.
    apply IH; [lia|]. now apply add_bounds.
Qed.

Lemma sum_bounds (l : list Q) :
  Forall (fun c => 0 <= c <= 1) l ->
  0 <= sum l <= inject_Z (Z.min (Z.of_nat (length l)) Float.cap).
Proof.
  intros H. unfold sum.
  apply (sum_acc_bounds l H 0 0%Z); [lia|]. 
  rewrite Z.min_l by (unfold Float.cap; lia). split; apply Qle_refl.
Qed.

Lemma of_int_pos (n : nat) : (0 < n)%nat -> 1 <= Float.of_int n.
Proof.
  intros H. unfold Float.of_int. apply round64_ge_one.
  change 1 with (inject_Z 1). rewrite <- Zle_Qle. lia.
Qed.



Lemma pow2_small_le_Z (N : Z) : (1 <= N)%Z -> Float.pow2 (-1022) <= inject_Z N.
Proof.
  intros H. apply Qle_trans with 1.
  - apply Qlt_le_weak. change 1 with (Float.pow2 0). now apply pow2_lt.
  - change 1 with (inject_Z 1). now rewrite <- Zle_Qle.
Qed.

(** The rounded sum against the exact one: every addition is off by at
    most half a unit in the last place of the largest sum. *)
Lemma sum_acc_error (N : Z) (l : list Q) :
  (1 <= N <= Float.cap)%Z ->
  Forall (fun c => 0 <= c <= 1) l ->
  forall (a : Q) (j : Z),
    (0 <= j)%Z -> (j + Z.of_nat (length l) <= N)%Z -> 0 <= a <= inject_Z j ->
    Qabs (fold_left Float.add l a - (a + fold_right Qplus 0 l)) <=
      inject_Z (Z.of_nat (length l)) * (inject_Z N * Float.pow2 (-53)).
Proof.
  intros HN. set (U := inject_Z N * Float.pow2 (-53)).
  induction 1 as [|x l Hx Hl IH]; intros a j Hj Hlen Ha.
  - cbn [fold_left fold_right length]. 
    setoid_replace (a - (a + 0)) with 0 by ring.
    setoid_replace (inject_Z (Z.of_nat 0) * U) with 0 by (cbn; ring).
    apply Qle_refl.
  - cbn [fold_left fold_right length] in *. rewrite Nat2Z.inj_succ in *.
    unfold Z.succ in *. rewrite inject_Z_plus. change (inject_Z 1) with 1.
    assert (B : 0 <= Float.add a x <= inject_Z (j + 1)).
    { pose proof (add_bounds a x j Hj) as P.
      rewrite !Z.min_l in P by lia. apply P; [exact Ha | exact Hx]. }
    assert (E : Qabs (Float.add a x - (a + x)) <= U).
    { unfold Float.add, U. apply round64_error.
      - assert (inject_Z (j + 1) <= inject_Z N) by (rewrite <- Zle_Qle; lia).
        rewrite inject_Z_plus in H. change (inject_Z 1) with 1 in H. lra.
      - apply pow2_small_le_Z. lia. }
    specialize (IH (Float.add a x) (j + 1)%Z ltac:(lia) ltac:(lia) B).
    apply Qabs_Qle_condition in E, IH. apply Qabs_Qle_condition.
    lra.
Qed.

Lemma exact_sum_error {A} (f g : A -> Q) (e : Q) (l : list A) :
  Forall (fun x => Qabs (f x - g x) <= e) l ->
  Qabs (fold_right Qplus 0 (map f l) - fold_right Qplus 0 (map g l)) <=
    inject_Z (Z.of_nat (length l)) * e.
Proof.
  induction 1 as [|x l Hx _ IH].
  - cbn [fold_right map length Z.of_nat]. change (inject_Z 0) with 0.
    apply Qabs_Qle_condition. lra.
  - cbn [fold_right map length]. rewrite Nat2Z.inj_succ. unfold Z.succ.
    rewrite inject_Z_plus. change (inject_Z 1) with 1.
    apply Qabs_Qle_condition in Hx, IH. apply Qabs_Qle_condition. lra.
Qed.

Lemma assemble_confidence (docs : list (str * Q)) :
  docs <> [] ->
  snd (assemble docs) = float_mean (map (fun d => confidence_of (snd d)) docs).
Proof. intros H. destruct docs; [congruence | reflexivity]. Qed.

Lemma confidences_range (docs : list (str * Q)) :
  Forall (fun d => 0 <= snd d) docs ->
  Forall (fun c => 0 <= c <= 1) (map (fun d => confidence_of (snd d)) docs).
Proof.
  intros H. apply Forall_map. eapply Forall_impl; [|exact H].
  intros d Hd. now apply confidence_of_range.
Qed.

(** The rounded mean of the rounded confidences against the exact mean of
    the exact ones. *)
Lemma assemble_error (docs : list (str * Q)) :
  docs <> [] -> (Z.of_nat (length docs) <= Float.cap)%Z ->
  Forall (fun d => Float.is_binary64 (snd d) /\ 0 <= snd d) docs ->
  Qabs (snd (assemble docs) - mean (map (fun d => Qmax 0 (1 - snd d)) docs)) <=
    inject_Z (Z.of_nat (length docs) + 2) * Float.pow2 (-53).
Proof.
  intros Hne Hcap Hd. rewrite (assemble_confidence docs Hne).
  set (cs := map (fun d => confidence_of (snd d)) docs).
  set (n := Z.of_nat (length docs)).
  assert (Hn : (1 <= n)%Z).
  { unfold n. destruct docs; [congruence | simpl length; lia]. }
  assert (Hr : Forall (fun c => 0 <= c <= 1) cs).
  { apply confidences_range. eapply Forall_impl; [|exact Hd]. now intros d [_ H]. }
  assert (Lc : length cs = length docs) by apply length_map.
  pose proof (sum_acc_error n cs (conj Hn Hcap) Hr 0 0%Z ltac:(lia)
                ltac:(rewrite Lc; fold n; lia)
                (conj (Qle_refl 0) (Qle_refl 0))) as Es.
  rewrite Lc in Es. fold n in Es.
  assert (Ee : Qabs (fold_right Qplus 0 cs -
                     fold_right Qplus 0 (map (fun d => Qmax 0 (1 - snd d)) docs)) <=
               inject_Z n * Float.pow2 (-53)).
  { unfold cs, n. apply exact_sum_error. eapply Forall_impl; [|exact Hd].
    intros d [Hb H0]. now apply confidence_of_error. }
  destruct (sum_bounds cs Hr) as [Slo Shi]. rewrite Lc in Shi. fold n in Shi.
  rewrite Z.min_l in Shi by exact Hcap. unfold sum in Slo, Shi.
  unfold float_mean, mean, Float.div, Float.of_int.
  rewrite !length_map. fold n. rewrite Lc. fold n.
  rewrite (round64_Z n) by (unfold Float.cap in Hcap; lia).
  set (s := fold_left Float.add cs 0) in *.
  set (S_c := fold_right Qplus 0 cs) in *.
  set (S_e := fold_right Qplus 0 (map (fun d => Qmax 0 (1 - snd d)) docs)) in *.
  set (u := Float.pow2 (-53)) in *.
  assert (Hq : 1 <= inject_Z n).
  { change 1 with (inject_Z 1). now rewrite <- Zle_Qle. }
  assert (Er : Qabs (Float.round64 (s / inject_Z n) - s / inject_Z n) <= 1 * u).
  { apply round64_error.
    - split; [apply Qle_shift_div_l; lra | apply Qle_shift_div_r; lra].
    - apply (pow2_small_le_Z 1). lia. }
  assert (Em : Qabs (s / inject_Z n - S_e / inject_Z n) <= (inject_Z n + 1) * u).
  { apply Qabs_Qle_condition in Es, Ee. apply Qabs_Qle_condition.
    setoid_replace (s / inject_Z n - S_e / inject_Z n)
      with ((s - S_e) / inject_Z n) by (field; lra).
    split.
    - apply Qle_shift_div_l; [lra|]. nra.
    - apply Qle_shift_div_r; [lra|]. nra. }
  rewrite inject_Z_plus. change (inject_Z 2) with 2.
  apply Qabs_Qle_condition in Er, Em. apply Qabs_Qle_condition. lra.
Qed.




End RetrievalClaims.

Module SignalClaims.
Import Orchestrator Payload CoroFacts StrFacts HandlerFacts DispatchClaims HistoricalClaims.

Section WithEnvironment.
Context {RT : PyRuntime}.
Variable env : ApiAgent.Environment.
Import ApiAgent.

(** What [inspect] lets through carries no ["Note"]. *)
Lemma inspect_drops_note (data v : value) :
  inspect data = Ok v -> py_in (py "Note") v = Ok false.
Proof.
  unfold inspect. destruct (py_in (py "Error Message") data) as [[|]|] eqn:E;
    cbn [res_bind]; try discriminate.
  - destruct (py_item data (py "Error Message")); cbn [res_bind]; discriminate.
  - destruct (py_in (py "Note") data) as [[|]|] eqn:N; cbn [res_bind]; try discriminate.
    + destruct (py_item data (py "Note")); cbn [res_bind]; [|discriminate].
      intros H. inversion H. reflexivity.
    + intros H. inversion H. subst v. exact N.
Qed.

(** [fetch_alpha_vantage_data] never returns anything that contains
    ["Note"]. *)
Lemma fetch_drops_note (function symbol : str) (kwargs : list (str * str)) (v : value) :
  fetch_alpha_vantage_data env function symbol kwargs = Ok v ->
  py_in (py "Note") v = Ok false.
Proof.
  unfold fetch_alpha_vantage_data.
  destruct (ALPHA_VANTAGE_API_KEY env) as [[|c key]|]; try discriminate.
  destruct (requests_get env _ _) as [data| |]; try discriminate.
  destruct (inspect data) as [d|] eqn:I; [|discriminate].
  intros H. inversion H. subst v. now apply inspect_drops_note with data.
Qed.

Lemma no_note_guard (v : value) :
  py_in (py "Note") v = Ok false ->
  match py_get v (py "Note") with
  | Ok note => truthy note = false
  | Raise _ => True
  end.
Proof.
  destruct v as [| | | | | |items]; try exact (fun _ => I).
  unfold py_in, py_get.
  destruct (lookup (py "Note") items); intros H; [discriminate | reflexivity].
Qed.

(** A document with a ["Note"] and no ["Error Message"] is replaced by the
    empty dict. *)
Lemma inspect_note (d : list (str * value)) :
  lookup (py "Note") d <> None -> lookup (py "Error Message") d = None ->
  inspect (VDict d) = Ok (VDict []).
Proof.
  intros Hn He. unfold inspect, py_in, py_item. rewrite He. cbn [res_bind].
  destruct (lookup (py "Note") d); [reflexivity | congruence].
Qed.

(** Under a rate limit on [symbol], every fetch about it returns the empty
    dict. *)
Lemma fetch_rate_limited (key symbol function : str) (kwargs : list (str * str)) :
  ALPHA_VANTAGE_API_KEY env = Some key -> key <> [] ->
  rate_limited env key symbol ->
  fetch_alpha_vantage_data env function symbol kwargs = Ok (VDict []).
Proof.
  intros Hk Hne Hr. unfold fetch_alpha_vantage_data. rewrite Hk.
  destruct key as [|c key]; [congruence|].
  destruct (Hr function kwargs) as (d & Hd & Hn & He).
  rewrite Hd. now rewrite (inspect_note d Hn He).
Qed.

End WithEnvironment.

(** C10 (as amended): when the upstream answers the requests about a symbol
    with a JSON object that has a ["Note"] key and no ["Error Message"] key,
    [fetch_alpha_vantage_data] returns the empty dict; whatever the
    upstream answers, [get_stock_quote] and [get_historical_data] never
    return anything containing ["Note"], so the guard [data.get("Note")]
    of the dispatcher and of the market brief never holds; and a query
    about the rate-limited symbol is answered with the "could not retrieve"
    fallback, as the market brief gets the line "Quote unavailable." for
    it. *)
Theorem note_is_swallowed {RT : PyRuntime} (env : ApiAgent.Environment)
    (llm_ainvoke : str -> res str) (store : Type)
    (faiss : RetrieverAgent.Faiss store) (faiss_vectorstore : option store)
    (analyze : list str -> res value)
    (key symbol query : str) (m : Re.match_object) (brief_parts : list str) :
  ApiAgent.ALPHA_VANTAGE_API_KEY env = Some key -> key <> [] ->
  rate_limited env key symbol ->
  Re.search stock_regex query = Some m ->
  ticker_of m = Ok symbol ->
  (forall function kwargs,
     ApiAgent.fetch_alpha_vantage_data env function symbol kwargs = Ok (VDict [])) /\
  (forall ticker,
     match ApiAgent.get_stock_quote env ticker with
     | Ok data =>
         py_in (py "Note") data = Ok false /\
         match py_get data (py "Note") with
         | Ok note => truthy note = false
         | Raise _ => True
         end
     | Raise _ => True
     end) /\
  (forall ticker,
     match ApiAgent.get_historical_data env ticker with
     | Ok data =>
         py_in (py "Note") data = Ok false /\
         match py_get data (py "Note") with
         | Ok note => truthy note = false
         | Raise _ => True
         end
     | Raise _ => True
     end) /\
  result (Backend.orchestrate_query env llm_ainvoke faiss faiss_vectorstore
            analyze query) =
    Ok (VStr ((if contains (py "historical") (lower query) ||
                  contains (py "performance") (lower query)
               then py "⚠️ Could not retrieve historical data for "
               else py "⚠️ Could not retrieve live quote for ")
              ++ symbol ++ py ".")) /\
  result (brief_loop
            (Backend.agents env llm_ainvoke faiss faiss_vectorstore analyze)
            [symbol] brief_parts) =
    Ok (inr (brief_parts ++ [symbol ++ py ": Quote unavailable."])).
Proof.
  intros Hk Hne Hr Hm Ht.
  pose proof (fun function kwargs =>
                fetch_rate_limited env key symbol function kwargs Hk Hne Hr) as F.
  split; [exact F|].
  assert (G : forall function ticker kwargs,
            match ApiAgent.fetch_alpha_vantage_data env function ticker kwargs with
            | Ok data =>
                py_in (py "Note") data = Ok false /\
                match py_get data (py "Note") with
                | Ok note => truthy note = false
                | Raise _ => True
                end
            | Raise _ => True
            end).
  { intros function ticker kwargs.
    destruct (ApiAgent.fetch_alpha_vantage_data env function ticker kwargs) as [data|] eqn:E;
      [|exact I].
    pose proof (fetch_drops_note env function ticker kwargs data E) as N.
    split; [exact N | now apply no_note_guard]. }
  split; [intros ticker; apply G|]. split; [intros ticker; apply G|].
  split.
  - unfold Backend.orchestrate_query.
    rewrite (orchestrate_query_matched _ query m symbol Hm Ht).
    destruct (contains (py "historical") (lower query) ||
              contains (py "performance") (lower query)).
    + unfold historical_handler.
      cbn [get_historical_data Backend.agents]. unfold ApiAgent.get_historical_data.
      rewrite F, bind_await_ok. cbn [result snd].
      rewrite (pass_through_no_signal [] _ (conj eq_refl eq_refl)).
      unfold has_time_series. cbn [truthy length Nat.eqb negb].
      rewrite bind_lift_ok. settle.
    + unfold quote_handler.
      cbn [get_stock_quote Backend.agents]. unfold ApiAgent.get_stock_quote.
      rewrite F, bind_await_ok. cbn [result snd].
      rewrite (pass_through_no_signal [] _ (conj eq_refl eq_refl)).
      unfold has_global_quote. cbn [truthy length Nat.eqb negb].
      rewrite bind_lift_ok. settle.
  - cbn [brief_loop get_stock_quote Backend.agents]. unfold ApiAgent.get_stock_quote.
    rewrite F, bind_await_ok. cbn [result snd].
    rewrite py_get_dict, bind_lift_ok.
    change (truthy (field [] (py "Note"))) with false. cbv iota.
    unfold ticker_line. cbn [truthy length Nat.eqb negb].
    rewrite bind_lift_ok. settle.
Qed.

End SignalClaims.

Module Scenarios.
Import Orchestrator Payload.

Lemma tsla_is_rate_limited :
  rate_limited (Reference.upstream Reference.tsla_rate_limited) (py "demo") (py "TSLA").
Proof.
  intros function kwargs. eexists. split; [reflexivity|].
  split; [discriminate | reflexivity].
Defined.

Lemma note_is_swallowed_witness :
  rate_limited (Reference.upstream Reference.tsla_rate_limited) (py "demo") (py "TSLA") /\
  ApiAgent.fetch_alpha_vantage_data (RT := Reference.runtime)
    (Reference.upstream Reference.tsla_rate_limited)
    (py "GLOBAL_QUOTE") (py "TSLA") [] = Ok (VDict []) /\
  result (orchestrate_query (RT := Reference.runtime)
            (Reference.backend Reference.tsla_rate_limited Reference.unrelated)
            Reference.price_of_TSLA) =
    Ok (VStr (py "⚠️ Could not retrieve live quote for TSLA.")).
Proof.
  split; [exact tsla_is_rate_limited|].
  destruct (SignalClaims.note_is_swallowed (RT := Reference.runtime)
              (Reference.upstream Reference.tsla_rate_limited)
              Reference.llm_ainvoke (list str)
              (Reference.faiss Reference.unrelated) None
              Reference.analyze
              (py "demo") (py "TSLA") Reference.price_of_TSLA
              (Ticker.stock_match_of Reference.price_of_TSLA
                 (py "What's the ") (py "price") (py " of ") (py "TSLA"))
              []
              eq_refl ltac:(discriminate) tsla_is_rate_limited eq_refl eq_refl)
    as (F & _ & _ & R & _).
  split; [apply F | exact R].
Defined.

(** C10 (as stated) fails: a response with a ["Note"] key and an
    ["Error Message"] key makes [fetch_alpha_vantage_data] raise instead of
    returning the empty dict. *)
Lemma note_is_swallowed_counterexample :
  ApiAgent.requests_get (Reference.upstream Reference.tsla_error_and_note)
    ApiAgent.BASE_URL
    [(py "function", py "GLOBAL_QUOTE"); (py "symbol", py "TSLA");
     (py "apikey", py "demo")] = ApiAgent.Responded Reference.error_and_note /\
  py_in (py "Note") Reference.error_and_note = Ok true /\
  ApiAgent.fetch_alpha_vantage_data (RT := Reference.runtime)
    (Reference.upstream Reference.tsla_error_and_note)
    (py "GLOBAL_QUOTE") (py "TSLA") [] =
    Raise (HTTPException 500
             (VStr (py "An unexpected error occurred: 400: Invalid API call."))).
Proof. repeat split; reflexivity. Qed.

(** C4, at its failing input: the upstream answers the quote request for
    TSLA (and the historical one) with a rate-limit ["Note"], and the
    dispatcher returns the "could not retrieve" fallback, not the note. *)
Theorem rate_limit_note_is_not_passed_through :
  ApiAgent.requests_get (Reference.upstream Reference.tsla_rate_limited)
    ApiAgent.BASE_URL
    [(py "function", py "GLOBAL_QUOTE"); (py "symbol", py "TSLA");
     (py "apikey", py "demo")] = ApiAgent.Responded Reference.rate_limit_note /\
  orchestrate_query (RT := Reference.runtime)
    (Reference.backend Reference.tsla_rate_limited Reference.unrelated)
    Reference.price_of_TSLA =
    ([CallQuote (py "TSLA")],
     Ok (VStr (py "⚠️ Could not retrieve live quote for TSLA."))) /\
  orchestrate_query (RT := Reference.runtime)
    (Reference.backend Reference.tsla_rate_limited Reference.unrelated)
    Reference.historical_TSLA =
    ([CallHistorical (py "TSLA")],
     Ok (VStr (py "⚠️ Could not retrieve historical data for TSLA."))).
Proof. repeat split; vm_compute; reflexivity. Qed.

(** The dispatcher does pass a note through when the quote agent hands it
    one, and the backend does pass an ["Information"] message through. *)
Example dispatcher_passes_signals :
  orchestrate_query (RT := Reference.runtime) Reference.noting_agents
    Reference.price_of_TSLA =
    ([CallQuote (py "TSLA")],
     Ok (VStr (py "Thank you for using Alpha Vantage! Our standard API rate limit is 25 requests per day."))) /\
  orchestrate_query (RT := Reference.runtime)
    (Reference.backend Reference.tsla_information Reference.unrelated)
    Reference.price_of_TSLA =
    ([CallQuote (py "TSLA")],
     Ok (VStr (py "Our standard API rate limit is 25 requests per day. Please subscribe to a premium plan."))).
Proof. split; vm_compute; reflexivity. Qed.

(** C3, at its failing inputs: the upstream answers the quote request for
    SPY with an ["Information"] message, or with a ["Note"], and QQQ and DIA
    with quotes; [get_market_brief] goes on to the news and to the
    summary of a brief that lists SPY as unavailable next to the two other
    tickers, and returns the summary, not the signal. *)
Theorem market_brief_under_rate_limit :
  get_market_brief (RT := Reference.runtime)
    (Reference.backend Reference.spy_rate_limited Reference.unrelated) =
    ([CallQuote (py "SPY"); CallQuote (py "QQQ"); CallQuote (py "DIA");
      CallNews (py "market");
      CallGenerate
        (py "Summarize this market brief:" ++ [newline] ++
         py "SPY: Quote unavailable." ++ [newline] ++
         py "QQQ: $451.30 (Change: 1.20)" ++ [newline] ++
         py "DIA: $390.00 (Change: -0.50)" ++ [newline] ++
         [newline] ++ py "🗞️ News:" ++ [newline] ++
         py "- Global markets show mixed signals as inflation concerns persist." ++ [newline] ++
         py "- Tech stocks lead rally; S&P 500 hits new high." ++ [newline] ++
         py "- Oil prices surge amidst geopolitical tensions.")],
     Ok (VStr (py "Markets were mixed."))) /\
  get_market_brief (RT := Reference.runtime)
    (Reference.backend Reference.spy_noted Reference.unrelated) =
  get_market_brief (RT := Reference.runtime)
    (Reference.backend Reference.spy_rate_limited Reference.unrelated).
Proof. split; vm_compute; reflexivity. Qed.

(** The loop of the market brief does return a note alone when the quote
    agent hands it one. *)
Example market_brief_returns_a_note :
  get_market_brief (RT := Reference.runtime) Reference.noting_agents =
    ([CallQuote (py "SPY")],
     Ok (VStr (py "Thank you for using Alpha Vantage! Our standard API rate limit is 25 requests per day."))).
Proof. vm_compute. reflexivity. Qed.

Lemma confidence_gate_witness :
  Re.search (RT := Reference.runtime) stock_regex
    Reference.tell_me_about_diversification = None /\
  retrieve_info_from_rag Reference.unsure_agents
    Reference.tell_me_about_diversification =
    Ok (py "Diversification is a strategy employed to minimize risk.",
        Reference.lit_0_42) /\
  trace (orchestrate_query (RT := Reference.runtime) Reference.unsure_agents
           Reference.tell_me_about_diversification) =
    [CallRetrieve Reference.tell_me_about_diversification;
     CallGenerate
       (if Qle_bool Float.lit_0_7 Reference.lit_0_42
        then py "Explain this based on context:" ++ [newline; newline] ++
             py "Diversification is a strategy employed to minimize risk." ++
             [newline; newline] ++
             py "User asked: " ++ Reference.tell_me_about_diversification
        else py "Explain this concept: " ++ Reference.tell_me_about_diversification)] /\
  result (orchestrate_query (RT := Reference.runtime) Reference.unsure_agents
            Reference.tell_me_about_diversification) =
    Ok (VStr ((if Qle_bool Float.lit_0_7 Reference.lit_0_42
               then py "📘 Here's what I found:"
               else py "I couldn't find very specific info, but here's what I know:")
              ++ [newline; newline] ++ py "Markets were mixed.")).
Proof.
  split; [vm_compute; reflexivity|]. split; [reflexivity|].
  apply (DispatchClaims.confidence_gate (RT := Reference.runtime)
           Reference.unsure_agents Reference.tell_me_about_diversification
           (py "Diversification is a strategy employed to minimize risk.")
           (py "Markets were mixed.") Reference.lit_0_42);
    vm_compute; reflexivity.
Defined.

(** The scenario of the specification: a confidence of 0.42 is answered
    from the model alone, under the low-confidence header. *)
Example diversification_scenario :
  orchestrate_query (RT := Reference.runtime) Reference.unsure_agents
    Reference.tell_me_about_diversification =
    ([CallRetrieve (py "Tell me about diversification");
      CallGenerate (py "Explain this concept: Tell me about diversification")],
     Ok (VStr (py "I couldn't find very specific info, but here's what I know:"
               ++ [newline; newline] ++ py "Markets were mixed."))).
Proof. vm_compute. reflexivity. Qed.


(** In that scenario the confidence is (3/4 + 0) / 2, and no operation
    rounds. *)
Example near_and_far_confidence :
  (snd (RetrieverAgent.assemble Reference.near_and_far) == 3 # 8)%Q /\
  (mean (map (fun d => Qmax 0 (1 - snd d)) Reference.near_and_far) == 3 # 8)%Q.
Proof. split; vm_compute; reflexivity. Qed.

(** A distance half a unit in the last place short of 0.3: the confidence
    is the float 0.7, above the mean taken without rounding, and the
    answer is trusted. *)
Example threshold_confidence :
  (snd (RetrieverAgent.assemble Reference.on_the_threshold) ==
   Float.lit_0_7)%Q /\
  (mean (map (fun d => Qmax 0 (1 - snd d)) Reference.on_the_threshold) <
   Float.lit_0_7)%Q /\
  Payload.trusted (snd (RetrieverAgent.assemble Reference.on_the_threshold)) =
    true.
Proof. repeat split; vm_compute; reflexivity. Qed.

End Scenarios.

(* ===================================================================== *)
(** * Further properties of the code *)
(* ===================================================================== *)

Module KeysFacts.
Import Keys StrFacts.

Lemma splitlines_go_line (l rest : str) :
  forallb (fun c => negb (is_linebreak c)) l = true ->
  splitlines_go false (l ++ newline :: rest) = l :: splitlines_go false rest.
Proof.
  induction l as [|c l IH]; intros H.
  - reflexivity.
  - simpl in H. apply andb_true_iff in H as [Hc Hl].
    cbn [app splitlines_go andb]. apply negb_true_iff in Hc. rewrite Hc.
    now rewrite (IH Hl).
Qed.

Lemma splitlines_go_last (l : str) :
  l <> [] -> forallb (fun c => negb (is_linebreak c)) l = true ->
  splitlines_go false l = [l].
Proof.
  induction l as [|c l IH]; intros Hne H; [congruence|].
  simpl in H. apply andb_true_iff in H as [Hc Hl].
  cbn [splitlines_go andb]. apply negb_true_iff in Hc. rewrite Hc.
  destruct l as [|d l]; [reflexivity|].
  now rewrite (IH ltac:(discriminate) Hl).
Qed.

Lemma splitlines_join (lines : list str) :
  Forall (fun l => l <> [] /\ forallb (fun c => negb (is_linebreak c)) l = true) lines ->
  splitlines (join [newline] lines) = lines.
Proof.
  unfold splitlines. induction 1 as [|l lines [Hne Hl] _ IH]; [reflexivity|].
  destruct lines as [|l' lines].
  - now apply splitlines_go_last.
  - change (join [newline] (l :: l' :: lines))
      with (l ++ newline :: join [newline] (l' :: lines)).
    now rewrite splitlines_go_line, IH.
Qed.

Lemma split_first_render (key value : str) :
  forallb (fun c => negb (c =? equals_sign)%N) key = true ->
  split_first equals_sign (key ++ equals_sign :: value) = Some (key, value).
Proof.
  induction key as [|c key IH]; intros H; cbn [app split_first].
  - now rewrite N.eqb_refl.
  - simpl in H. apply andb_true_iff in H as [Hc Hk].
    apply negb_true_iff in Hc. now rewrite Hc, (IH Hk).
Qed.

Lemma dict_get_set (key k v : str) (keys : list (str * str)) :
  dict_get key (dict_set k v keys) =
  if Str.eqb key k then Some v else dict_get key keys.
Proof.
  induction keys as [|[k' v'] keys IH]; simpl.
  - destruct (Str.eqb key k); reflexivity.
  - destruct (Str.eqb k k') eqn:E; simpl.
    + apply eqb_eq in E. subst k'. destruct (Str.eqb key k); reflexivity.
    + rewrite IH. destruct (Str.eqb key k') eqn:E'; [|reflexivity].
      apply eqb_eq in E'. subst k'.
      destruct (Str.eqb key k) eqn:E''; [|reflexivity].
      apply eqb_eq in E''. subst k. now rewrite eqb_refl in E.
Qed.

Lemma dict_set_new (k v : str) (keys : list (str * str)) :
  ~ In k (map fst keys) -> dict_set k v keys = keys ++ [(k, v)].
Proof.
  induction keys as [|[k' v'] keys IH]; intros H; simpl; [reflexivity|].
  simpl in H. rewrite eqb_neq by (intros ->; apply H; now left).
  rewrite IH; [reflexivity|]. intros Hin. apply H. now right.
Qed.

Lemma one_line_nonempty (kv : str * str) : render_line kv <> [].
Proof. unfold render_line. now destruct (fst kv). Qed.

Lemma read_rendered (acc pairs : list (str * str)) :
  NoDup (map fst (acc ++ pairs)) ->
  Forall (fun kv => plain_key (fst kv) /\ one_line_stripped (snd kv)) pairs ->
  fold_left read_line (map render_line pairs) acc = acc ++ pairs.
Proof.
  revert acc. induction pairs as [|[k v] pairs IH]; intros acc Hnd Hall.
  - now rewrite app_nil_r.
  - inversion Hall as [|? ? Hkv Hrest]; subst. cbn [fst snd] in Hkv.
    destruct Hkv as [[[Hsk _] Hk] [Hsv _]].
    cbn [map fold_left]. unfold read_line at 2, render_line. cbn [fst snd].
    rewrite (split_first_render k v Hk), Hsk, Hsv.
    rewrite dict_set_new.
    + rewrite IH; [now rewrite <- app_assoc | now rewrite <- app_assoc | exact Hrest].
    + rewrite map_app in Hnd. cbn [map fst] in Hnd.
      apply NoDup_remove_2 in Hnd. intros Hin. apply Hnd.
      apply in_or_app. now left.
Qed.

(** X1: a file of keys written one [key=value] per line is read back as
    it was written: the pairs, in their order, provided the keys are
    distinct, keys and values are stripped and on one line, and no key
    holds an equals sign (a value may). *)
Theorem keys_file_round_trip {RT : PyRuntime} (filepath : str)
    (pairs : list (str * str)) :
  NoDup (map fst pairs) ->
  Forall (fun kv => plain_key (fst kv) /\ one_line_stripped (snd kv)) pairs ->
  load_api_keys_from_file filepath (Ok (render pairs)) = Ok pairs.
Proof.
  intros Hnd Hall. unfold load_api_keys_from_file, render, parse_lines.
  rewrite splitlines_join.
  - now rewrite (read_rendered [] pairs Hnd Hall).
  - apply Forall_map. eapply Forall_impl; [|exact Hall].
    intros [k v] [[[_ Hlk] _] [_ Hlv]]. split; [apply one_line_nonempty|].
    unfold render_line. cbn [fst snd] in *.
    rewrite forallb_app, Hlk. cbn [forallb]. now rewrite Hlv.
Qed.

(** X2: reading one more line changes the value of a key only when the
    line holds an equals sign and the stripped text before the first one is
    that key; the value is then the stripped text after it, which may hold
    further equals signs. A later line so overrides an earlier one, and a
    line without an equals sign is skipped. *)
Theorem later_line_overrides (lines : list str) (line key : str) :
  dict_get key (parse_lines (lines ++ [line])) =
  match split_first equals_sign line with
  | Some (before, after) =>
      if Str.eqb key (strip before) then Some (strip after)
      else dict_get key (parse_lines lines)
  | None => dict_get key (parse_lines lines)
  end.
Proof.
  unfold parse_lines. rewrite fold_left_app. cbn [fold_left].
  unfold read_line at 1. destruct (split_first equals_sign line) as [[before after]|].
  - apply dict_get_set.
  - reflexivity.
Qed.

End KeysFacts.

Module KeysScenarios.
Import Keys.

Lemma keys_file_round_trip_witness :
  NoDup (map fst Fixtures.key_pairs) /\
  Forall (fun kv => plain_key (fst kv) /\ one_line_stripped (snd kv))
    Fixtures.key_pairs /\
  load_api_keys_from_file (RT := Reference.runtime) (py "gemini.txt")
    (Ok (render Fixtures.key_pairs)) = Ok Fixtures.key_pairs.
Proof.
  assert (N : NoDup (map fst Fixtures.key_pairs)).
  { repeat constructor; vm_compute; intuition discriminate. }
  assert (F : Forall (fun kv => plain_key (fst kv) /\ one_line_stripped (snd kv))
                Fixtures.key_pairs).
  { repeat constructor; vm_compute; reflexivity. }
  split; [exact N|]. split; [exact F|].
  exact (KeysFacts.keys_file_round_trip (RT := Reference.runtime)
           (py "gemini.txt") Fixtures.key_pairs N F).
Defined.

End KeysScenarios.

Module ApiFacts.
Import Payload StrFacts SignalClaims.

Section WithEnvironment.
Context {RT : PyRuntime}.
Variable env : ApiAgent.Environment.
Import ApiAgent.

(** What [inspect] lets through is the document itself or the empty dict,
    and carries no ["Error Message"]. *)
Lemma inspect_ok (data v : value) :
  inspect data = Ok v ->
  py_in (py "Error Message") v = Ok false /\ (v = VDict [] \/ v = data).
Proof.
  unfold inspect. destruct (py_in (py "Error Message") data) as [[|]|] eqn:E;
    cbn [res_bind]; try discriminate.
  - destruct (py_item data (py "Error Message")); cbn [res_bind]; discriminate.
  - destruct (py_in (py "Note") data) as [[|]|] eqn:N; cbn [res_bind]; try discriminate.
    + destruct (py_item data (py "Note")); cbn [res_bind]; [|discriminate].
      intros H. inversion H. split; [reflexivity | now left].
    + intros H. inversion H. subst v. split; [exact E | now right].
Qed.

(** A fetch that returns has sent one request, with the key of the
    environment, and returns what [inspect] makes of the answer. *)
Lemma fetch_ok (function symbol : str) (kwargs : list (str * str)) (v : value) :
  fetch_alpha_vantage_data env function symbol kwargs = Ok v ->
  exists key data,
    ALPHA_VANTAGE_API_KEY env = Some key /\ key <> [] /\
    requests_get env BASE_URL
      ([(py "function", function); (py "symbol", symbol); (py "apikey", key)]
       ++ kwargs) = Responded data /\
    inspect data = Ok v.
Proof.
  unfold fetch_alpha_vantage_data.
  destruct (ALPHA_VANTAGE_API_KEY env) as [[|c key]|]; try discriminate.
  destruct (requests_get env _ _) as [data| |] eqn:R; try discriminate.
  destruct (inspect data) as [d|] eqn:I; [|discriminate].
  intros H. inversion H. subst v. exists (c :: key), data.
  repeat split; [discriminate | exact R | exact I].
Qed.

End WithEnvironment.

(** X3: whatever goes wrong in [fetch_alpha_vantage_data] reaches the caller
    as an [HTTPException] of status 500 with a text as its detail: the
    missing key, the failed request, an answer that is no JSON, and the
    upstream's ["Error Message"] as well, whose status 400 is raised inside
    the [try] block and wrapped by its last handler. *)
Theorem fetch_failure_is_500 {RT : PyRuntime} (env : ApiAgent.Environment)
    (function symbol : str) (kwargs : list (str * str)) (e : exn) :
  ApiAgent.fetch_alpha_vantage_data env function symbol kwargs = Raise e ->
  exists detail, e = HTTPException 500 (VStr detail).
Proof.
  unfold ApiAgent.fetch_alpha_vantage_data, ApiAgent.unexpected.
  destruct (ApiAgent.ALPHA_VANTAGE_API_KEY env) as [[|c key]|];
    try (intros H; inversion H; eexists; reflexivity).
  destruct (ApiAgent.requests_get env _ _) as [data|message|e'];
    try (intros H; inversion H; eexists; reflexivity).
  destruct (ApiAgent.inspect data); intros H; inversion H. eexists; reflexivity.
Qed.

(** X4: [fetch_alpha_vantage_data] never edits a document: what it returns
    is the JSON value the upstream answered to the one request made with
    the function, the symbol, the key of the environment and the extra
    parameters, or else the empty dict; and it never returns a value
    that contains ["Error Message"]. *)
Theorem fetch_hands_over_the_document {RT : PyRuntime}
    (env : ApiAgent.Environment)
    (function symbol : str) (kwargs : list (str * str)) (v : value) :
  ApiAgent.fetch_alpha_vantage_data env function symbol kwargs = Ok v ->
  py_in (py "Error Message") v = Ok false /\
  (v = VDict [] \/
   exists key,
     ApiAgent.ALPHA_VANTAGE_API_KEY env = Some key /\
     ApiAgent.requests_get env ApiAgent.BASE_URL
       ([(py "function", function); (py "symbol", symbol); (py "apikey", key)]
        ++ kwargs) = ApiAgent.Responded v).
Proof.
  intros H. apply fetch_ok in H as (key & data & Hk & _ & Hr & Hi).
  apply inspect_ok in Hi as [He [->| ->]].
  - split; [reflexivity | now left].
  - split; [exact He | right; now exists key].
Qed.

Section Endpoint.
Context {RT : PyRuntime}.
Variable env : ApiAgent.Environment.
Variable non_string_symbol : value -> res value.
Import ApiEndpoints.

Lemma price_of_ok (data price : value) :
  price_of data = Ok price ->
  exists d q,
    data = VDict d /\ lookup (py "Global Quote") d = Some (VDict q) /\
    lookup (py "05. price") q = Some price.
Proof.
  unfold price_of, py_item. destruct data as [| | | | | |d]; try discriminate.
  destruct (lookup (py "Global Quote") d) as [g|] eqn:G; [|discriminate].
  cbn [res_bind]. destruct g as [| | | | | |q]; try discriminate.
  destruct (lookup (py "05. price") q) as [p|] eqn:P; [|discriminate].
  intros H. inversion H. subst p. now exists d, q.
Qed.

End Endpoint.

(** X5: while the upstream answers the requests about a symbol with a
    rate-limit note, [POST /stock_price] for that symbol fails with status
    500 and the detail [Failed to extract price from API response.]: the
    note itself is not reported. *)
Theorem stock_price_under_rate_limit {RT : PyRuntime}
    (env : ApiAgent.Environment) (non_string_symbol : value -> res value)
    (key symbol : str) (payload : list (str * value)) :
  ApiAgent.ALPHA_VANTAGE_API_KEY env = Some key -> key <> [] ->
  field payload (py "symbol") = VStr symbol -> symbol <> [] ->
  rate_limited env key symbol ->
  ApiEndpoints.get_stock_price_post env non_string_symbol payload =
    Raise (HTTPException 500
             (VStr (py "Failed to extract price from API response."))).
Proof.
  intros Hk Hne Hs Hsym Hr. unfold ApiEndpoints.get_stock_price_post.
  rewrite Hs. destruct symbol as [|c symbol]; [congruence|].
  cbn [truthy length Nat.eqb negb]. unfold ApiAgent.get_stock_quote.
  rewrite (fetch_rate_limited env key (c :: symbol) _ _ Hk Hne Hr).
  reflexivity.
Qed.

(** X6: a successful answer of [POST /stock_price] to a request whose
    symbol is a string is the dict of the symbol in upper case and of the
    price, and the price is the value under ["05. price"] in the
    ["Global Quote"] of the document that the upstream answered to the
    quote request; that request carries the symbol as it was sent, not in
    upper case. *)
Theorem stock_price_answer {RT : PyRuntime}
    (env : ApiAgent.Environment) (non_string_symbol : value -> res value)
    (payload : list (str * value)) (symbol : str) (answer : value) :
  field payload (py "symbol") = VStr symbol ->
  ApiEndpoints.get_stock_price_post env non_string_symbol payload = Ok answer ->
  exists key d q price,
    ApiAgent.ALPHA_VANTAGE_API_KEY env = Some key /\
    ApiAgent.requests_get env ApiAgent.BASE_URL
      [(py "function", py "GLOBAL_QUOTE"); (py "symbol", symbol);
       (py "apikey", key)] = ApiAgent.Responded (VDict d) /\
    lookup (py "Global Quote") d = Some (VDict q) /\
    lookup (py "05. price") q = Some price /\
    answer = VDict [(py "symbol", VStr (upper symbol)); (py "price", price)].
Proof.
  intros Hs. unfold ApiEndpoints.get_stock_price_post. rewrite Hs.
  destruct (truthy (VStr symbol)); [|discriminate].
  unfold ApiAgent.get_stock_quote.
  destruct (ApiAgent.fetch_alpha_vantage_data env (py "GLOBAL_QUOTE") symbol [])
    as [data|e] eqn:F; cbn [res_bind]; [|discriminate].
  destruct (ApiEndpoints.price_of data) as [price|e] eqn:P.
  - intros H. inversion H. subst answer.
    apply price_of_ok in P as (d & q & -> & Hg & Hp).
    apply fetch_ok in F as (key & data & Hk & _ & Hr & Hi).
    apply inspect_ok in Hi as [_ [Hi|Hi]]; [inversion Hi; subst d; discriminate|].
    subst data. exists key, d, q, price. auto.
  - destruct e as [| | |]; try discriminate. destruct kind; discriminate.
Qed.

End ApiFacts.

Module ApiScenarios.
Import Payload.

Lemma fetch_failure_is_500_witness :
  ApiAgent.fetch_alpha_vantage_data (RT := Reference.runtime)
    (Reference.upstream Reference.tsla_error_and_note)
    (py "GLOBAL_QUOTE") (py "TSLA") [] =
    Raise (HTTPException 500
             (VStr (py "An unexpected error occurred: 400: Invalid API call."))) /\
  exists detail,
    HTTPException 500
      (VStr (py "An unexpected error occurred: 400: Invalid API call.")) =
    HTTPException 500 (VStr detail).
Proof.
  assert (F : ApiAgent.fetch_alpha_vantage_data (RT := Reference.runtime)
                (Reference.upstream Reference.tsla_error_and_note)
                (py "GLOBAL_QUOTE") (py "TSLA") [] =
              Raise (HTTPException 500
                       (VStr (py "An unexpected error occurred: 400: Invalid API call.")))).
  { vm_compute. reflexivity. }
  split; [exact F|].
  exact (ApiFacts.fetch_failure_is_500 (RT := Reference.runtime)
           (Reference.upstream Reference.tsla_error_and_note)
           (py "GLOBAL_QUOTE") (py "TSLA") [] _ F).
Defined.

Lemma fetch_hands_over_the_document_witness :
  ApiAgent.fetch_alpha_vantage_data (RT := Reference.runtime)
    Fixtures.tsla_typed_in_lowercase (py "GLOBAL_QUOTE") (py "tsla") [] =
    Ok (Reference.quote_payload (py "TSLA") (py "251.30") (py "1.20")) /\
  py_in (py "Error Message")
    (Reference.quote_payload (py "TSLA") (py "251.30") (py "1.20")) = Ok false /\
  (Reference.quote_payload (py "TSLA") (py "251.30") (py "1.20") = VDict [] \/
   exists key,
     ApiAgent.ALPHA_VANTAGE_API_KEY Fixtures.tsla_typed_in_lowercase = Some key /\
     ApiAgent.requests_get Fixtures.tsla_typed_in_lowercase ApiAgent.BASE_URL
       ([(py "function", py "GLOBAL_QUOTE"); (py "symbol", py "tsla");
         (py "apikey", key)] ++ []) =
     ApiAgent.Responded
       (Reference.quote_payload (py "TSLA") (py "251.30") (py "1.20"))).
Proof.
  assert (F : ApiAgent.fetch_alpha_vantage_data (RT := Reference.runtime)
                Fixtures.tsla_typed_in_lowercase (py "GLOBAL_QUOTE") (py "tsla") [] =
              Ok (Reference.quote_payload (py "TSLA") (py "251.30") (py "1.20"))).
  { vm_compute. reflexivity. }
  split; [exact F|].
  exact (ApiFacts.fetch_hands_over_the_document (RT := Reference.runtime)
           Fixtures.tsla_typed_in_lowercase (py "GLOBAL_QUOTE") (py "tsla") [] _ F).
Defined.

Lemma stock_price_under_rate_limit_witness :
  rate_limited (Reference.upstream Reference.tsla_rate_limited) (py "demo") (py "TSLA") /\
  ApiEndpoints.get_stock_price_post (RT := Reference.runtime)
    (Reference.upstream Reference.tsla_rate_limited) Fixtures.refuse
    (Fixtures.price_request (py "TSLA")) =
    Raise (HTTPException 500
             (VStr (py "Failed to extract price from API response."))).
Proof.
  split; [exact Scenarios.tsla_is_rate_limited|].
  apply (ApiFacts.stock_price_under_rate_limit (RT := Reference.runtime)
           (Reference.upstream Reference.tsla_rate_limited) Fixtures.refuse
           (py "demo") (py "TSLA") (Fixtures.price_request (py "TSLA"))).
  - reflexivity.
  - discriminate.
  - vm_compute. reflexivity.
  - discriminate.
  - exact Scenarios.tsla_is_rate_limited.
Defined.

Lemma stock_price_answer_witness :
  ApiEndpoints.get_stock_price_post (RT := Reference.runtime)
    Fixtures.tsla_typed_in_lowercase Fixtures.refuse
    (Fixtures.price_request (py "tsla")) =
    Ok (VDict [(py "symbol", VStr (py "TSLA")); (py "price", VStr (py "251.30"))]) /\
  exists key d q price,
    ApiAgent.ALPHA_VANTAGE_API_KEY Fixtures.tsla_typed_in_lowercase = Some key /\
    ApiAgent.requests_get Fixtures.tsla_typed_in_lowercase ApiAgent.BASE_URL
      [(py "function", py "GLOBAL_QUOTE"); (py "symbol", py "tsla");
       (py "apikey", key)] = ApiAgent.Responded (VDict d) /\
    lookup (py "Global Quote") d = Some (VDict q) /\
    lookup (py "05. price") q = Some price /\
    VDict [(py "symbol", VStr (py "TSLA")); (py "price", VStr (py "251.30"))] =
    VDict [(py "symbol", VStr (upper (RT := Reference.runtime) (py "tsla")));
           (py "price", price)].
Proof.
  assert (A : ApiEndpoints.get_stock_price_post (RT := Reference.runtime)
                Fixtures.tsla_typed_in_lowercase Fixtures.refuse
                (Fixtures.price_request (py "tsla")) =
              Ok (VDict [(py "symbol", VStr (py "TSLA"));
                         (py "price", VStr (py "251.30"))])).
  { vm_compute. reflexivity. }
  split; [exact A|].
  apply (ApiFacts.stock_price_answer (RT := Reference.runtime)
           Fixtures.tsla_typed_in_lowercase Fixtures.refuse
           (Fixtures.price_request (py "tsla")) (py "tsla") _).
  - vm_compute. reflexivity.
  - exact A.
Defined.

End ApiScenarios.

Module NewsFacts.
Import Orchestrator StrFacts CoroFacts HandlerFacts DispatchClaims.

Section WithRuntime.
Context {RT : PyRuntime}.

(** The mock answers from its tables, whatever it is asked. *)
Lemma mock_news_in_tables (query_term : str) :
  In (ScrapingAgent.get_financial_news_mock query_term)
     (ScrapingAgent.MOCK_market :: ScrapingAgent.MOCK_default ::
      map snd ScrapingAgent.MOCK_company).
Proof.
  unfold ScrapingAgent.get_financial_news_mock.
  destruct (existsb _ _).
  - unfold ScrapingAgent.MOCK_company. cbn [find fst map snd].
    destruct (contains (lower (py "AAPL")) (lower query_term));
      [right; right; left; reflexivity|].
    destruct (contains (lower (py "GOOGL")) (lower query_term));
      [right; right; right; left; reflexivity|].
    destruct (contains (lower (py "MSFT")) (lower query_term));
      [right; right; right; right; left; reflexivity|].
    right; left; reflexivity.
  - destruct (contains (py "market") (lower query_term));
      [left; reflexivity | right; left; reflexivity].
Qed.

Lemma tables_hold_headlines (news : list str) :
  In news (ScrapingAgent.MOCK_market :: ScrapingAgent.MOCK_default ::
           map snd ScrapingAgent.MOCK_company) ->
  3 <= length news <= 4.
Proof.
  unfold ScrapingAgent.MOCK_company. cbn [map snd].
  intros [<-|[<-|[<-|[<-|[<-|[]]]]]]; vm_compute; lia.
Qed.

Lemma collect_firstn (anchor_texts : list str) : forall headlines,
  length headlines < 5 ->
  ScrapingEndpoint.collect headlines anchor_texts =
  firstn 5 (headlines ++
            filter (fun text => match text with [] => false | _ :: _ => true end)
              (map strip anchor_texts)).
Proof.
  induction anchor_texts as [|text more IH]; intros headlines H.
  - cbn [ScrapingEndpoint.collect map filter]. rewrite app_nil_r.
    now rewrite firstn_all2 by lia.
  - cbn [ScrapingEndpoint.collect map filter].
    destruct (strip text) as [|c s] eqn:S; cbv beta iota zeta.
    + match goal with
      | |- context [Nat.leb 5 ?n] => destruct (Nat.leb_spec 5 n) as [L|L]
      end; [lia|]. now apply IH.
    + match goal with
      | |- context [Nat.leb 5 ?n] => destruct (Nat.leb_spec 5 n) as [L|L]
      end.
      * rewrite length_app in L. cbn [length] in L.
        assert (E : length headlines = 4) by lia.
        rewrite firstn_app, E. rewrite firstn_all2 by lia. reflexivity.
      * rewrite (IH _ L). now rewrite <- app_assoc.
Qed.

End WithRuntime.

(** X7: in the assembled backend a query on the news path is always
    answered with headlines: the header line and, each after a dash, the
    three or four headlines of one list of the mock tables. The sentence
    [Could not retrieve financial news at this time.] is never the
    answer. *)
Theorem news_path_always_has_headlines {RT : PyRuntime}
    (env : ApiAgent.Environment) (llm_ainvoke : str -> res str)
    (store : Type) (faiss : RetrieverAgent.Faiss store)
    (faiss_vectorstore : option store) (analyze : list str -> res value)
    (query : str) :
  Re.search stock_regex query = None ->
  any_in news_keywords (lower query) = true ->
  exists news,
    In news (ScrapingAgent.MOCK_market :: ScrapingAgent.MOCK_default ::
             map snd ScrapingAgent.MOCK_company) /\
    3 <= length news <= 4 /\
    Backend.orchestrate_query env llm_ainvoke faiss faiss_vectorstore analyze query =
      ([CallNews (news_query_term_of (lower query))],
       Ok (VStr (py "📰 Latest News:" ++ [newline] ++
                 join [newline] (map (fun n => py "- " ++ n) news)))) /\
    result (Backend.orchestrate_query env llm_ainvoke faiss faiss_vectorstore
              analyze query) <>
      Ok (VStr (py "⚠️ Could not retrieve financial news at this time.")).
Proof.
  intros Hs Hk. unfold Backend.orchestrate_query.
  rewrite (orchestrate_query_unmatched _ query Hs), Hk.
  set (term := news_query_term_of (lower query)).
  exists (ScrapingAgent.get_financial_news_mock term).
  pose proof (mock_news_in_tables term) as Hin.
  pose proof (tables_hold_headlines _ Hin) as Hlen.
  split; [exact Hin|]. split; [exact Hlen|].
  unfold news_handler. fold term.
  cbn [get_financial_news_mock Backend.agents]. rewrite bind_await_ok.
  destruct (ScrapingAgent.get_financial_news_mock term) as [|h news] eqn:E;
    [cbn [length] in Hlen; lia|].
  split; [reflexivity|].
  cbv beta iota delta [result ret lift snd fst]. intros H.
  apply (f_equal (fun r => match r with
                           | Ok (VStr (c :: _)) => c
                           | _ => 0%N
                           end)) in H.
  vm_compute in H. discriminate.
Qed.

(** X8: when the page was fetched and parsed, [read_financial_news] answers
    with the first five non-blank anchor texts, stripped, in page order;
    when there is none, with what the mock answers for the query term. *)
Theorem scraped_headlines {RT : PyRuntime} (anchor_texts : list str)
    (query_term : str) :
  ScrapingEndpoint.read_financial_news (ScrapingEndpoint.Scraped anchor_texts)
    query_term =
  match firstn 5 (filter (fun text => match text with [] => false | _ :: _ => true end)
                    (map strip anchor_texts)) with
  | [] => ScrapingAgent.get_financial_news_mock query_term
  | headlines => headlines
  end.
Proof.
  unfold ScrapingEndpoint.read_financial_news.
  rewrite (collect_firstn anchor_texts []) by (cbn [length]; lia).
  reflexivity.
Qed.

(** X9: whatever the page, [read_financial_news] answers with at least one
    headline and at most five. *)
Theorem news_endpoint_is_never_empty {RT : PyRuntime}
    (page : ScrapingEndpoint.scrape) (query_term : str) :
  1 <= length (ScrapingEndpoint.read_financial_news page query_term) <= 5.
Proof.
  assert (M : 1 <= length (ScrapingAgent.get_financial_news_mock query_term) <= 5).
  { pose proof (tables_hold_headlines _ (mock_news_in_tables query_term)). lia. }
  destruct page as [anchor_texts| |]; cbn [ScrapingEndpoint.read_financial_news];
    try exact M.
  rewrite (collect_firstn anchor_texts []) by (cbn [length]; lia).
  cbn [app].
  destruct (firstn 5 _) as [|h hs] eqn:F; [exact M|].
  pose proof (f_equal (@length str) F) as E. rewrite length_firstn in E.
  cbn [length] in *. lia.
Qed.

End NewsFacts.

Module NewsScenarios.
Import Orchestrator.

Lemma news_path_always_has_headlines_witness :
  Re.search (RT := Reference.runtime) stock_regex Reference.news_about_AAPL = None /\
  any_in news_keywords (lower (RT := Reference.runtime) Reference.news_about_AAPL) = true /\
  exists news,
    In news (ScrapingAgent.MOCK_market :: ScrapingAgent.MOCK_default ::
             map snd ScrapingAgent.MOCK_company) /\
    3 <= length news <= 4 /\
    Backend.orchestrate_query (RT := Reference.runtime)
      (Reference.upstream []) Reference.llm_ainvoke
      (Reference.faiss Reference.unrelated) None Reference.analyze
      Reference.news_about_AAPL =
      ([CallNews (news_query_term_of
                    (lower (RT := Reference.runtime) Reference.news_about_AAPL))],
       Ok (VStr (py "📰 Latest News:" ++ [newline] ++
                 join [newline] (map (fun n => py "- " ++ n) news)))) /\
    result (Backend.orchestrate_query (RT := Reference.runtime)
              (Reference.upstream []) Reference.llm_ainvoke
              (Reference.faiss Reference.unrelated) None Reference.analyze
              Reference.news_about_AAPL) <>
      Ok (VStr (py "⚠️ Could not retrieve financial news at this time.")).
Proof.
  split; [vm_compute; reflexivity|]. split; [vm_compute; reflexivity|].
  apply (NewsFacts.news_path_always_has_headlines (RT := Reference.runtime)
           (Reference.upstream []) Reference.llm_ainvoke (list str)
           (Reference.faiss Reference.unrelated) None Reference.analyze
           Reference.news_about_AAPL); vm_compute; reflexivity.
Defined.

(** Nine anchors, two of them blank: the first five headlines. *)
Example five_of_seven_headlines :
  ScrapingEndpoint.read_financial_news (RT := Reference.runtime)
    (ScrapingEndpoint.Scraped Fixtures.anchors) (py "market") =
  [py "Stocks rally"; py "Bond yields fall"; py "Oil slips";
   py "Gold steadies"; py "Dollar firms"].
Proof. vm_compute. reflexivity. Qed.

End NewsScenarios.

Module RetrievalFacts.
Import RetrievalClaims FloatFacts.
Import Orchestrator Payload CoroFacts HandlerFacts DispatchClaims.
Local Open Scope Q_scope.

Lemma confidence_of_antitone (near far : Q) :
  near <= far ->
  RetrieverAgent.confidence_of far <= RetrieverAgent.confidence_of near.
Proof.
  intros H. unfold RetrieverAgent.confidence_of, Float.sub, Float.div.
  apply Q.max_le_compat_l. apply round64_mono.
  assert (Float.round64 (near / 1) <= Float.round64 (far / 1)); [|lra].
  apply round64_mono. rewrite !div_one. exact H.
Qed.

(** Rounded sums grow with their terms: rounding keeps the order. *)
Lemma sum_monotone (small large : list Q) :
  Forall2 Qle small large ->
  forall a b, a <= b ->
  fold_left Float.add small a <= fold_left Float.add large b.
Proof.
  induction 1 as [|x y small large Hxy _ IH]; intros a b Hab; [exact Hab|].
  cbn [fold_left]. apply IH. apply round64_mono. lra.
Qed.

Lemma scores_antitone (docs docs' : list (str * Q)) :
  Forall2 (fun near far => snd near <= snd far) docs docs' ->
  RetrieverAgent.sum (map (fun d => RetrieverAgent.confidence_of (snd d)) docs') <=
  RetrieverAgent.sum (map (fun d => RetrieverAgent.confidence_of (snd d)) docs).
Proof.
  intros H. unfold RetrieverAgent.sum. apply sum_monotone; [|apply Qle_refl].
  induction H; constructor; [now apply confidence_of_antitone | assumption].
Qed.

Lemma round64_at_least (c q : Q) :
  Float.is_binary64 c -> c <= q -> c <= Float.round64 q.
Proof.
  intros Hc H. apply Qle_trans with (Float.round64 c).
  - unfold Float.is_binary64 in Hc. rewrite Hc. apply Qle_refl.
  - now apply round64_mono.
Qed.

Lemma round64_at_most (c q : Q) :
  Float.is_binary64 c -> q <= c -> Float.round64 q <= c.
Proof.
  intros Hc H. apply Qle_trans with (Float.round64 c).
  - now apply round64_mono.
  - unfold Float.is_binary64 in Hc. rewrite Hc. apply Qle_refl.
Qed.

(** A match at distance 1 or more counts for nothing. *)
Lemma confidence_of_far (d : Q) :
  1 <= d -> RetrieverAgent.confidence_of d == 0.
Proof.
  intros H. unfold RetrieverAgent.confidence_of, Float.sub, Float.div.
  apply Q.max_l. apply round64_nonpos.
  assert (1 <= Float.round64 (d / 1)); [|lra].
  apply round64_ge_one. now rewrite div_one.
Qed.

Lemma sum_of_zeros (l : list Q) :
  Forall (fun c => c == 0) l ->
  forall a, a == 0 -> fold_left Float.add l a == 0.
Proof.
  induction 1 as [|x l Hx _ IH]; intros a Ha; [exact Ha|].
  cbn [fold_left]. apply IH. unfold Float.add. rewrite Ha, Hx.
  now rewrite (round64_zero (0 + 0)).
Qed.

Lemma far_confidence (docs : list (str * Q)) :
  Forall (fun d => 1 <= snd d) docs ->
  snd (RetrieverAgent.assemble docs) == 0.
Proof.
  intros H. destruct docs as [|d docs]; [reflexivity|].
  unfold RetrieverAgent.assemble. cbn [snd].
  unfold Float.div, RetrieverAgent.sum.
  rewrite (sum_of_zeros
             (map (fun d0 => RetrieverAgent.confidence_of (snd d0)) (d :: docs)));
    [| |reflexivity].
  - unfold Qdiv. rewrite Qmult_0_l. now rewrite (round64_zero 0).
  - apply Forall_map. eapply Forall_impl; [|exact H].
    intros a Ha. now apply confidence_of_far.
Qed.

(** A match at distance 0.25 or less counts for 0.75 at least. *)
Lemma confidence_of_near (d : Q) :
  d <= 1 # 4 -> 3 # 4 <= RetrieverAgent.confidence_of d.
Proof.
  intros H. unfold RetrieverAgent.confidence_of, Float.sub, Float.div.
  eapply Qle_trans; [|apply Q.le_max_r].
  apply round64_at_least; [vm_compute; reflexivity|].
  assert (Float.round64 (d / 1) <= 1 # 4); [|lra].
  apply round64_at_most; [vm_compute; reflexivity|]. now rewrite div_one.
Qed.

(** One or two such matches keep the mean there: the sums 0.75 and 1.5
    and the quotients by 1 and by 2 are floats. *)
Lemma near_confidence (docs : list (str * Q)) :
  docs <> [] -> (length docs <= 2)%nat ->
  Forall (fun d => snd d <= 1 # 4) docs ->
  3 # 4 <= snd (RetrieverAgent.assemble docs).
Proof.
  intros Hne Hlen H.
  destruct docs as [|d1 [|d2 [|d3 docs]]];
    [congruence | | | cbn [length] in Hlen; lia].
  - inversion H as [|? ? H1 _]; subst. apply confidence_of_near in H1.
    unfold RetrieverAgent.assemble. cbn [snd map length].
    unfold RetrieverAgent.sum, Float.div, Float.add. cbn [fold_left].
    set (c1 := RetrieverAgent.confidence_of (snd d1)) in *.
    assert (N : Float.of_int 1 == 1) by (vm_compute; reflexivity).
    rewrite N, div_one.
    apply round64_at_least; [vm_compute; reflexivity|].
    apply round64_at_least; [vm_compute; reflexivity | lra].
  - inversion H as [|? ? H1 H']; subst. inversion H' as [|? ? H2 _]; subst.
    apply confidence_of_near in H1, H2.
    unfold RetrieverAgent.assemble. cbn [snd map length].
    unfold RetrieverAgent.sum, Float.div, Float.add. cbn [fold_left].
    set (c1 := RetrieverAgent.confidence_of (snd d1)) in *.
    set (c2 := RetrieverAgent.confidence_of (snd d2)) in *.
    assert (N : Float.of_int 2 == 2) by (vm_compute; reflexivity).
    rewrite N.
    assert (A : 3 # 4 <= Float.round64 (0 + c1)).
    { apply round64_at_least; [vm_compute; reflexivity | lra]. }
    assert (B : 3 # 2 <= Float.round64 (Float.round64 (0 + c1) + c2)).
    { apply round64_at_least; [vm_compute; reflexivity | lra]. }
    apply round64_at_least; [vm_compute; reflexivity|].
    apply Qle_shift_div_l; lra.
Qed.

Lemma count_positive {A} (x : A) (l : list A) :
  0 < inject_Z (Z.of_nat (length (x :: l))).
Proof. change 0 with (inject_Z 0). rewrite <- Zlt_Qlt. cbn [length]. lia. Qed.

Lemma exact_sum_at_least (lo : Q) (l : list Q) :
  Forall (fun c => lo <= c) l ->
  lo * inject_Z (Z.of_nat (length l)) <= fold_right Qplus 0 l.
Proof.
  induction 1 as [|x l Hx _ IH]; cbn [fold_right length].
  - change (inject_Z (Z.of_nat 0)) with 0. lra.
  - rewrite Nat2Z.inj_succ. unfold Z.succ. rewrite inject_Z_plus.
    change (inject_Z 1) with 1. lra.
Qed.

Lemma exact_sum_at_most (hi : Q) (l : list Q) :
  Forall (fun c => c <= hi) l ->
  fold_right Qplus 0 l <= hi * inject_Z (Z.of_nat (length l)).
Proof.
  induction 1 as [|x l Hx _ IH]; cbn [fold_right length].
  - change (inject_Z (Z.of_nat 0)) with 0. lra.
  - rewrite Nat2Z.inj_succ. unfold Z.succ. rewrite inject_Z_plus.
    change (inject_Z 1) with 1. lra.
Qed.

(** The mean taken without rounding follows the distances. *)
Lemma mean_at_least (bound : Q) (docs : list (str * Q)) :
  docs <> [] -> Forall (fun d => snd d <= bound) docs ->
  Qmax 0 (1 - bound) <= mean (map (fun d => Qmax 0 (1 - snd d)) docs).
Proof.
  intros Hne H. destruct docs as [|d docs]; [congruence|]. unfold mean.
  rewrite length_map. apply Qle_shift_div_l; [apply count_positive|].
  rewrite <- (length_map (fun d => Qmax 0 (1 - snd d)) (d :: docs)).
  apply exact_sum_at_least. apply Forall_map. eapply Forall_impl; [|exact H].
  intros a Ha. cbn beta in *. apply Q.max_le_compat_l. lra.
Qed.

Lemma mean_at_most (bound : Q) (docs : list (str * Q)) :
  docs <> [] -> Forall (fun d => bound <= snd d) docs ->
  mean (map (fun d => Qmax 0 (1 - snd d)) docs) <= Qmax 0 (1 - bound).
Proof.
  intros Hne H. destruct docs as [|d docs]; [congruence|]. unfold mean.
  rewrite length_map. apply Qle_shift_div_r; [apply count_positive|].
  rewrite <- (length_map (fun d => Qmax 0 (1 - snd d)) (d :: docs)).
  apply exact_sum_at_most. apply Forall_map. eapply Forall_impl; [|exact H].
  intros a Ha. cbn beta in *. apply Q.max_le_compat_l. lra.
Qed.

Lemma below_threshold (confidence : Q) :
  confidence <= 0 -> trusted confidence = false.
Proof.
  intros H. unfold trusted. destruct (Qle_bool Float.lit_0_7 confidence) eqn:L;
    [|reflexivity].
  apply Qle_bool_iff in L. unfold Float.lit_0_7 in L. lra.
Qed.

Lemma above_threshold (confidence : Q) :
  3 # 4 <= confidence -> trusted confidence = true.
Proof.
  intros H. unfold trusted. apply Qle_bool_iff. unfold Float.lit_0_7. lra.
Qed.

(** What the backend's retrieval agent answers when the search returns. *)
Lemma backend_retrieval {RT : PyRuntime}
    (env : ApiAgent.Environment) (llm_ainvoke : str -> res str)
    (store : Type) (faiss : RetrieverAgent.Faiss store)
    (faiss_vectorstore : option store) (analyze : list str -> res value)
    (query : str) (index : store) (docs : list (str * Q)) :
  RetrieverAgent.ensure_index faiss faiss_vectorstore = Ok index ->
  RetrieverAgent.similarity_search_with_score faiss index query 2 = Ok docs ->
  retrieve_info_from_rag
    (Backend.agents env llm_ainvoke faiss faiss_vectorstore analyze) query =
  Ok (RetrieverAgent.assemble docs).
Proof.
  intros Hi Hs. cbn [retrieve_info_from_rag Backend.agents].
  unfold RetrieverAgent.retrieve_info_from_rag. now rewrite Hi, Hs.
Qed.

(** The Explain path of the backend, from what the index answers. *)
Lemma backend_explain {RT : PyRuntime}
    (env : ApiAgent.Environment) (llm_ainvoke : str -> res str)
    (store : Type) (faiss : RetrieverAgent.Faiss store)
    (faiss_vectorstore : option store) (analyze : list str -> res value)
    (query : str) (index : store) (docs : list (str * Q)) (response : str) :
  Re.search stock_regex query = None ->
  any_in news_keywords (lower query) = false ->
  any_in analysis_keywords (lower query) = false ->
  any_in explain_keywords (lower query) = true ->
  RetrieverAgent.ensure_index faiss faiss_vectorstore = Ok index ->
  RetrieverAgent.similarity_search_with_score faiss index query 2 = Ok docs ->
  llm_ainvoke (explain_prompt query (fst (RetrieverAgent.assemble docs))
                 (snd (RetrieverAgent.assemble docs))) = Ok response ->
  Backend.orchestrate_query env llm_ainvoke faiss faiss_vectorstore analyze query =
    ([CallRetrieve query;
      CallGenerate (explain_prompt query (fst (RetrieverAgent.assemble docs))
                      (snd (RetrieverAgent.assemble docs)))],
     Ok (VStr (explain_header (snd (RetrieverAgent.assemble docs)) ++
               [newline; newline] ++ response))).
Proof.
  intros Hs Hn Ha He Hi Hd Hl. unfold Backend.orchestrate_query.
  rewrite (orchestrate_query_unmatched _ query Hs), Hn, Ha, He.
  apply explain_handler_result.
  - rewrite (backend_retrieval env llm_ainvoke store faiss faiss_vectorstore
               analyze query index docs Hi Hd).
    now destruct (RetrieverAgent.assemble docs).
  - cbn [generate_text_with_gemini Backend.agents].
    unfold LanguageAgent.generate_text_with_gemini. now rewrite Hl.
Qed.

(** X10: matches that are closer, one by one, never lower the confidence:
    when each distance of one result is at most the distance at the same
    rank of another, the confidence computed for the first is at least that
    of the second. *)
Theorem closer_matches_raise_confidence (docs docs' : list (str * Q)) :
  Forall2 (fun near far => snd near <= snd far) docs docs' ->
  snd (RetrieverAgent.assemble docs') <= snd (RetrieverAgent.assemble docs).
Proof.
  intros H. pose proof (Forall2_length H) as L.
  pose proof (scores_antitone docs docs' H) as S.
  destruct H as [|near far docs docs' Hd H]; [apply Qle_refl|].
  unfold RetrieverAgent.assemble. cbn [snd]. unfold Float.div.
  rewrite !length_map, <- L. apply round64_mono. unfold Qdiv.
  apply Qmult_le_compat_r; [exact S|].
  apply Qinv_le_0_compat. apply Qle_trans with 1; [lra|].
  apply of_int_pos. cbn [length]. lia.
Qed.

(** X11: the confidence of a non-empty result follows the distances, up to
    the rounding of its evaluation. For [n] matches, no more than [2^53],
    whose distances are non-negative floats: when the distances are all at
    most [bound] the confidence is at least [max(0, 1 - bound)] less
    [(n + 2) * 2^-53], and when they are all at least [bound] it is at most
    [max(0, 1 - bound)] plus as much. *)
Theorem confidence_follows_distances (bound : Q) (docs : list (str * Q)) :
  docs <> [] ->
  (Z.of_nat (length docs) <= 2 ^ 53)%Z ->
  Forall (fun d => Float.is_binary64 (snd d) /\ 0 <= snd d) docs ->
  (Forall (fun d => snd d <= bound) docs ->
   Qmax 0 (1 - bound) -
   inject_Z (Z.of_nat (length docs) + 2) * Float.pow2 (-53) <=
   snd (RetrieverAgent.assemble docs)) /\
  (Forall (fun d => bound <= snd d) docs ->
   snd (RetrieverAgent.assemble docs) <=
   Qmax 0 (1 - bound) +
   inject_Z (Z.of_nat (length docs) + 2) * Float.pow2 (-53)).
Proof.
  intros Hne Hn Hd.
  pose proof (assemble_error docs Hne Hn Hd) as E.
  apply Qabs_Qle_condition in E. destruct E as [Lo Hi].
  split; intros H.
  - pose proof (mean_at_least bound docs Hne H). lra.
  - pose proof (mean_at_most bound docs Hne H). lra.
Qed.

(** X12: when the index answers an Explain query with no match, or with
    matches of distance 1 or more only, the backend prompts the model with
    the query alone, without the retrieved texts, and answers under the
    low-confidence header. *)
Theorem far_matches_give_no_context {RT : PyRuntime}
    (env : ApiAgent.Environment) (llm_ainvoke : str -> res str)
    (store : Type) (faiss : RetrieverAgent.Faiss store)
    (faiss_vectorstore : option store) (analyze : list str -> res value)
    (query : str) (index : store) (docs : list (str * Q)) (response : str) :
  Re.search stock_regex query = None ->
  any_in news_keywords (lower query) = false ->
  any_in analysis_keywords (lower query) = false ->
  any_in explain_keywords (lower query) = true ->
  RetrieverAgent.ensure_index faiss faiss_vectorstore = Ok index ->
  RetrieverAgent.similarity_search_with_score faiss index query 2 = Ok docs ->
  Forall (fun d => 1 <= snd d) docs ->
  llm_ainvoke (py "Explain this concept: " ++ query) = Ok response ->
  Backend.orchestrate_query env llm_ainvoke faiss faiss_vectorstore analyze query =
    ([CallRetrieve query; CallGenerate (py "Explain this concept: " ++ query)],
     Ok (VStr (py "I couldn't find very specific info, but here's what I know:" ++
               [newline; newline] ++ response))).
Proof.
  intros Hs Hn Ha He Hi Hd Hfar Hl.
  assert (T : trusted (snd (RetrieverAgent.assemble docs)) = false).
  { apply below_threshold. rewrite (far_confidence docs Hfar). apply Qle_refl. }
  rewrite (backend_explain env llm_ainvoke store faiss faiss_vectorstore analyze
             query index docs response Hs Hn Ha He Hi Hd);
    unfold explain_prompt, explain_header; rewrite T; [reflexivity | exact Hl].
Qed.

(** X13: when the index answers an Explain query with matches of distance
    0.25 or less, the backend prompts the model with their texts, joined by
    blank lines, and the query, and answers under the found-via-retrieval
    header. *)
Theorem near_matches_give_the_context {RT : PyRuntime}
    (env : ApiAgent.Environment) (llm_ainvoke : str -> res str)
    (store : Type) (faiss : RetrieverAgent.Faiss store)
    (faiss_vectorstore : option store) (analyze : list str -> res value)
    (query : str) (index : store) (docs : list (str * Q)) (response : str) :
  Re.search stock_regex query = None ->
  any_in news_keywords (lower query) = false ->
  any_in analysis_keywords (lower query) = false ->
  any_in explain_keywords (lower query) = true ->
  RetrieverAgent.ensure_index faiss faiss_vectorstore = Ok index ->
  RetrieverAgent.similarity_search_with_score faiss index query 2 = Ok docs ->
  docs <> [] ->
  Forall (fun d => snd d <= 1 # 4) docs ->
  llm_ainvoke (py "Explain this based on context:" ++ [newline; newline] ++
               join [newline; newline] (map fst docs) ++ [newline; newline] ++
               py "User asked: " ++ query) = Ok response ->
  Backend.orchestrate_query env llm_ainvoke faiss faiss_vectorstore analyze query =
    ([CallRetrieve query;
      CallGenerate (py "Explain this based on context:" ++ [newline; newline] ++
                    join [newline; newline] (map fst docs) ++ [newline; newline] ++
                    py "User asked: " ++ query)],
     Ok (VStr (py "📘 Here's what I found:" ++ [newline; newline] ++ response))).
Proof.
  intros Hs Hn Ha He Hi Hd Hne Hnear Hl.
  assert (T : trusted (snd (RetrieverAgent.assemble docs)) = true).
  { apply above_threshold. apply near_confidence; [exact Hne | | exact Hnear].
    exact (@RetrieverAgent.at_most_k _ faiss _ _ _ _ Hd). }
  assert (C : fst (RetrieverAgent.assemble docs) =
              join [newline; newline] (map fst docs)).
  { destruct docs; [congruence | reflexivity]. }
  rewrite (backend_explain env llm_ainvoke store faiss faiss_vectorstore analyze
             query index docs response Hs Hn Ha He Hi Hd);
    unfold explain_prompt, explain_header; rewrite T, C; [reflexivity | exact Hl].
Qed.

(** X14: a document added while no index exists becomes the whole index:
    the seed corpus is not loaded then, nor by the retrievals that follow,
    which search the chunks of that document only. *)
Theorem document_added_first_replaces_seed {RT : PyRuntime}
    (store : Type) (faiss : RetrieverAgent.Faiss store)
    (document query : str) (k : nat) (index : store) :
  RetrieverAgent.from_texts faiss (RetrieverAgent.split_text faiss document) =
    Ok index ->
  fst (RetrieverEndpoints.add_document_to_index faiss None document) =
    Some index /\
  RetrieverAgent.retrieve_info_from_rag faiss
    (fst (RetrieverEndpoints.add_document_to_index faiss None document))
    query k =
    (Some index,
     match RetrieverAgent.similarity_search_with_score faiss index query k with
     | Ok docs => Ok (RetrieverAgent.assemble docs)
     | Raise e => Raise (RetrieverAgent.search_failed e)
     end).
Proof.
  intros H. unfold RetrieverEndpoints.add_document_to_index,
    RetrieverAgent.create_faiss_index. cbn [join]. rewrite H. cbn [fst].
  split; [reflexivity|].
  unfold RetrieverAgent.retrieve_info_from_rag, RetrieverAgent.ensure_index.
  now destruct (RetrieverAgent.similarity_search_with_score faiss index query k).
Qed.

End RetrievalFacts.

Module RetrievalScenarios.
Import Orchestrator.

Lemma closer_matches_raise_confidence_witness :
  Forall2 (fun near far => (snd near <= snd far)%Q)
    Fixtures.two_near Reference.near_and_far /\
  (snd (RetrieverAgent.assemble Reference.near_and_far) <=
   snd (RetrieverAgent.assemble Fixtures.two_near))%Q.
Proof.
  assert (F : Forall2 (fun near far => (snd near <= snd far)%Q)
                Fixtures.two_near Reference.near_and_far).
  { constructor; [vm_compute; discriminate|].
    constructor; [vm_compute; discriminate|]. constructor. }
  split; [exact F|].
  exact (RetrievalFacts.closer_matches_raise_confidence
           Fixtures.two_near Reference.near_and_far F).
Defined.

Lemma confidence_follows_distances_witness :
  Reference.on_the_threshold <> [] /\
  (Z.of_nat (length Reference.on_the_threshold) <= 2 ^ 53)%Z /\
  Forall (fun d => Float.is_binary64 (snd d) /\ (0 <= snd d)%Q)
    Reference.on_the_threshold /\
  Forall (fun d => (snd d <= 5404319552844597 # 18014398509481984)%Q)
    Reference.on_the_threshold /\
  Forall (fun d => (5404319552844597 # 18014398509481984 <= snd d)%Q)
    Reference.on_the_threshold /\
  (Qmax 0 (1 - (5404319552844597 # 18014398509481984)) -
   inject_Z (Z.of_nat (length Reference.on_the_threshold) + 2) *
   Float.pow2 (-53) <=
   snd (RetrieverAgent.assemble Reference.on_the_threshold))%Q /\
  (snd (RetrieverAgent.assemble Reference.on_the_threshold) <=
   Qmax 0 (1 - (5404319552844597 # 18014398509481984)) +
   inject_Z (Z.of_nat (length Reference.on_the_threshold) + 2) *
   Float.pow2 (-53))%Q.
Proof.
  assert (N : Reference.on_the_threshold <> []) by discriminate.
  assert (L : (Z.of_nat (length Reference.on_the_threshold) <= 2 ^ 53)%Z)
    by (vm_compute; discriminate).
  assert (F : Forall (fun d => Float.is_binary64 (snd d) /\ (0 <= snd d)%Q)
                Reference.on_the_threshold).
  { constructor; [|constructor].
    split; [vm_compute; reflexivity | vm_compute; discriminate]. }
  assert (A : Forall (fun d => (snd d <= 5404319552844597 # 18014398509481984)%Q)
                Reference.on_the_threshold).
  { constructor; [vm_compute; discriminate | constructor]. }
  assert (B : Forall (fun d => (5404319552844597 # 18014398509481984 <= snd d)%Q)
                Reference.on_the_threshold).
  { constructor; [vm_compute; discriminate | constructor]. }
  split; [exact N|]. split; [exact L|]. split; [exact F|].
  split; [exact A|]. split; [exact B|].
  destruct (RetrievalFacts.confidence_follows_distances
              (5404319552844597 # 18014398509481984)%Q
              Reference.on_the_threshold N L F) as [Lo Hi].
  split; [exact (Lo A) | exact (Hi B)].
Defined.

Lemma far_matches_give_no_context_witness :
  RetrieverAgent.ensure_index (Reference.faiss Reference.unrelated) None =
    Ok ([join [newline] RetrieverAgent.DUMMY_FINANCIAL_DOCS]) /\
  Forall (fun d => (1 <= snd d)%Q) Reference.unrelated /\
  Backend.orchestrate_query (RT := Reference.runtime)
    (Reference.upstream []) Reference.llm_ainvoke
    (Reference.faiss Reference.unrelated) None Reference.analyze
    Reference.tell_me_about_diversification =
    ([CallRetrieve Reference.tell_me_about_diversification;
      CallGenerate (py "Explain this concept: " ++
                    Reference.tell_me_about_diversification)],
     Ok (VStr (py "I couldn't find very specific info, but here's what I know:" ++
               [newline; newline] ++ py "Markets were mixed."))).
Proof.
  assert (F : Forall (fun d => (1 <= snd d)%Q) Reference.unrelated).
  { constructor; [vm_compute; discriminate | constructor]. }
  split; [reflexivity|]. split; [exact F|].
  apply (RetrievalFacts.far_matches_give_no_context (RT := Reference.runtime)
           (Reference.upstream []) Reference.llm_ainvoke (list str)
           (Reference.faiss Reference.unrelated) None Reference.analyze
           Reference.tell_me_about_diversification
           ([join [newline] RetrieverAgent.DUMMY_FINANCIAL_DOCS])
           Reference.unrelated (py "Markets were mixed."));
    try exact F; vm_compute; reflexivity.
Defined.

Lemma near_matches_give_the_context_witness :
  Fixtures.two_near <> [] /\
  Forall (fun d => (snd d <= 1 # 4)%Q) Fixtures.two_near /\
  Backend.orchestrate_query (RT := Reference.runtime)
    (Reference.upstream []) Reference.llm_ainvoke
    (Reference.faiss Fixtures.two_near) None Reference.analyze
    Reference.tell_me_about_diversification =
    ([CallRetrieve Reference.tell_me_about_diversification;
      CallGenerate (py "Explain this based on context:" ++ [newline; newline] ++
                    join [newline; newline] (map fst Fixtures.two_near) ++
                    [newline; newline] ++
                    py "User asked: " ++ Reference.tell_me_about_diversification)],
     Ok (VStr (py "📘 Here's what I found:" ++ [newline; newline] ++
               py "Markets were mixed."))).
Proof.
  assert (N : Fixtures.two_near <> []) by discriminate.
  assert (F : Forall (fun d => (snd d <= 1 # 4)%Q) Fixtures.two_near).
  { constructor; [vm_compute; discriminate|].
    constructor; [vm_compute; discriminate|]. constructor. }
  split; [exact N|]. split; [exact F|].
  apply (RetrievalFacts.near_matches_give_the_context (RT := Reference.runtime)
           (Reference.upstream []) Reference.llm_ainvoke (list str)
           (Reference.faiss Fixtures.two_near) None Reference.analyze
           Reference.tell_me_about_diversification
           ([join [newline] RetrieverAgent.DUMMY_FINANCIAL_DOCS])
           Fixtures.two_near (py "Markets were mixed."));
    try exact F; try exact N; vm_compute; reflexivity.
Defined.

Lemma document_added_first_replaces_seed_witness :
  RetrieverAgent.from_texts (Reference.faiss Reference.unrelated)
    (RetrieverAgent.split_text (Reference.faiss Reference.unrelated)
       Fixtures.memo) = Ok [Fixtures.memo] /\
  fst (RetrieverEndpoints.add_document_to_index
         (Reference.faiss Reference.unrelated) None Fixtures.memo) =
    Some [Fixtures.memo] /\
  RetrieverAgent.retrieve_info_from_rag (RT := Reference.runtime)
    (Reference.faiss Reference.unrelated)
    (fst (RetrieverEndpoints.add_document_to_index
            (Reference.faiss Reference.unrelated) None Fixtures.memo))
    Reference.tell_me_about_diversification 2 =
    (Some [Fixtures.memo],
     match RetrieverAgent.similarity_search_with_score
             (Reference.faiss Reference.unrelated) [Fixtures.memo]
             Reference.tell_me_about_diversification 2 with
     | Ok docs => Ok (RetrieverAgent.assemble docs)
     | Raise e => Raise (RetrieverAgent.search_failed (RT := Reference.runtime) e)
     end).
Proof.
  assert (T : RetrieverAgent.from_texts (Reference.faiss Reference.unrelated)
                (RetrieverAgent.split_text (Reference.faiss Reference.unrelated)
                   Fixtures.memo) = Ok [Fixtures.memo]).
  { vm_compute. reflexivity. }
  split; [exact T|].
  exact (RetrievalFacts.document_added_first_replaces_seed (RT := Reference.runtime)
           (list str) (Reference.faiss Reference.unrelated) Fixtures.memo
           Reference.tell_me_about_diversification 2 [Fixtures.memo] T).
Defined.

End RetrievalScenarios.

Module RouteFacts.
Import Re Orchestrator Ticker Payload CoroFacts StrFacts HandlerFacts.
Import StockSearch TickerFacts.

Section WithAgents.
Context {RT : PyRuntime}.
Variable agents : Agents.

Lemma trace_news_handler (query_lower : str) :
  trace (news_handler agents query_lower) =
  [CallNews (news_query_term_of query_lower)].
Proof.
  unfold news_handler. apply trace_bind_await. intros news.
  now destruct news.
Qed.

Lemma trace_analysis_handler :
  trace (analysis_handler agents) = [CallAnalysis tickers_for_analysis].
Proof. unfold analysis_handler. now apply trace_bind_await. Qed.

Lemma trace_default_handler (query : str) :
  trace (default_handler agents query) =
  [CallGenerate (py "User asked: " ++ query ++
                 py ". Please respond as a financial assistant.")].
Proof. unfold default_handler. now apply trace_bind_await. Qed.

Lemma trace_explain_handler (query : str) :
  trace (explain_handler agents query) = [CallRetrieve query] \/
  exists prompt,
    trace (explain_handler agents query) = [CallRetrieve query; CallGenerate prompt].
Proof.
  unfold explain_handler.
  destruct (retrieve_info_from_rag agents query) as [[content confidence]|e];
    [|now left].
  right. rewrite bind_await_ok. cbn [trace fst].
  destruct (Float.ltb confidence Float.lit_0_7); eexists;
    (rewrite trace_bind_await; [reflexivity | reflexivity]).
Qed.

(** Once the pattern matched, the query is handled by the historical or by
    the quote handler, for the token of the first occurrence. *)
Lemma matched_route (query : str) (m : match_object) :
  search stock_regex query = Some m ->
  exists pre trig mid tok post,
    occurrence query pre trig mid tok post /\
    first_occurrence query pre mid /\
    orchestrate_query agents query =
      if contains (py "historical") (lower query) ||
         contains (py "performance") (lower query)
      then historical_handler agents tok
      else quote_handler agents tok.
Proof.
  intros Hm.
  destruct (stock_search_sound query m Hm)
    as (pre & trig & mid & tok & post & O & F & E).
  exists pre, trig, mid, tok, post. split; [exact O|]. split; [exact F|].
  apply (orchestrate_query_matched agents query m tok Hm).
  rewrite E. now apply ticker_of_occurrence with post.
Qed.

(** The calls of a query, route by route. *)
Lemma routes (query : str) :
  (exists pre trig mid tok post,
     occurrence query pre trig mid tok post /\
     first_occurrence query pre mid /\
     (trace (orchestrate_query agents query) = [CallQuote tok] \/
      trace (orchestrate_query agents query) = [CallHistorical tok])) \/
  search stock_regex query = None /\
  (trace (orchestrate_query agents query) =
     [CallNews (news_query_term_of (lower query))] \/
   trace (orchestrate_query agents query) =
     [CallAnalysis [py "AAPL"; py "GOOGL"]] \/
   trace (orchestrate_query agents query) = [CallRetrieve query] \/
   (exists prompt,
      trace (orchestrate_query agents query) =
        [CallRetrieve query; CallGenerate prompt]) \/
   trace (orchestrate_query agents query) =
     [CallGenerate (py "User asked: " ++ query ++
                    py ". Please respond as a financial assistant.")]).
Proof.
  destruct (search stock_regex query) as [m|] eqn:Hm.
  - left. destruct (matched_route query m Hm)
      as (pre & trig & mid & tok & post & O & F & E).
    exists pre, trig, mid, tok, post. split; [exact O|]. split; [exact F|].
    rewrite E. destruct (_ || _).
    + right. apply trace_historical_handler.
    + left. apply trace_quote_handler.
  - right. split; [reflexivity|].
    rewrite (orchestrate_query_unmatched agents query Hm).
    destruct (any_in news_keywords (lower query));
      [left; apply trace_news_handler|].
    destruct (any_in analysis_keywords (lower query));
      [right; left; apply trace_analysis_handler|].
    destruct (any_in explain_keywords (lower query)).
    + destruct (trace_explain_handler query) as [H|H]; auto.
    + do 4 right. apply trace_default_handler.
Qed.

(** The tickers of the calls to the API agent. *)
Lemma api_calls (query ticker : str) :
  In (CallQuote ticker) (trace (orchestrate_query agents query)) \/
  In (CallHistorical ticker) (trace (orchestrate_query agents query)) ->
  exists pre trig mid post,
    occurrence query pre trig mid ticker post /\
    first_occurrence query pre mid.
Proof.
  intros H.
  destruct (routes query)
    as [(pre & trig & mid & tok & post & O & F & [E|E])
       |[_ [E|[E|[E|[[prompt E]|E]]]]]];
    rewrite E in H; cbn [In] in H;
    try (destruct H as [[H|[]]|[H|[]]]; try discriminate H;
         inversion H; subst; now exists pre, trig, mid, post);
    intuition discriminate.
Qed.

(** A query without a capital letter of A to Z holds no occurrence. *)
Lemma no_capital_no_occurrence (query pre trig mid tok post : str) :
  forallb (fun c => negb (is_upper_AZ c)) query = true ->
  ~ occurrence query pre trig mid tok post.
Proof.
  intros Hq ((E & _ & (Hne & Hup & _)) & _).
  destruct tok as [|c tok]; [congruence|].
  cbn [forallb] in Hup. apply andb_true_iff in Hup as [Hc _].
  rewrite forallb_forall in Hq. specialize (Hq c).
  rewrite Hc in Hq. discriminate Hq. rewrite E.
  apply in_or_app; right. apply in_or_app; right. apply in_or_app; right.
  now left.
Qed.

End WithAgents.

(** X15: every query takes one route: the orchestrator calls one agent,
    once, or on the Explain path the retrieval agent and then, when the
    retrieval returned, the generation agent. The API agent is called for a
    token of the query, the news agent for the cleaned topic, the analysis
    agent for AAPL and GOOGL, the retrieval agent for the query as it is,
    and by default the generation agent for the query in its frame. *)
Theorem one_route_per_query {RT : PyRuntime} (agents : Agents) (query : str) :
  (exists pre trig mid tok post,
     occurrence query pre trig mid tok post /\
     (trace (orchestrate_query agents query) = [CallQuote tok] \/
      trace (orchestrate_query agents query) = [CallHistorical tok])) \/
  trace (orchestrate_query agents query) =
    [CallNews (news_query_term_of (lower query))] \/
  trace (orchestrate_query agents query) =
    [CallAnalysis [py "AAPL"; py "GOOGL"]] \/
  trace (orchestrate_query agents query) = [CallRetrieve query] \/
  (exists prompt,
     trace (orchestrate_query agents query) =
       [CallRetrieve query; CallGenerate prompt]) \/
  trace (orchestrate_query agents query) =
    [CallGenerate (py "User asked: " ++ query ++
                   py ". Please respond as a financial assistant.")].
Proof.
  destruct (routes agents query)
    as [(pre & trig & mid & tok & post & O & _ & E)|[_ E]].
  - left. now exists pre, trig, mid, tok, post.
  - right. exact E.
Qed.

(** X16: a ticker that reaches the API agent, for a quote or for the daily
    series, stands in the query: it is the standalone token of one to five
    capital letters of the first occurrence of a trigger word followed on
    its line by such a token. The orchestrator never asks for a symbol that
    the user did not type. *)
Theorem api_tickers_come_from_the_query {RT : PyRuntime} (agents : Agents)
    (query ticker : str) :
  In (CallQuote ticker) (trace (orchestrate_query agents query)) \/
  In (CallHistorical ticker) (trace (orchestrate_query agents query)) ->
  exists pre trig mid post,
    occurrence query pre trig mid ticker post /\
    first_occurrence query pre mid.
Proof. exact (api_calls agents query ticker). Qed.

(** X17: a query without a capital letter of A to Z never reaches the API
    agent: the pattern of rule 1 does not match it, whatever trigger words
    it holds, and it is routed by the keyword rules. *)
Theorem queries_without_capitals_skip_the_api {RT : PyRuntime}
    (agents : Agents) (query : str) :
  forallb (fun c => negb (is_upper_AZ c)) query = true ->
  search stock_regex query = None /\
  forall ticker,
    ~ In (CallQuote ticker) (trace (orchestrate_query agents query)) /\
    ~ In (CallHistorical ticker) (trace (orchestrate_query agents query)).
Proof.
  intros Hq. split.
  - destruct (search stock_regex query) as [m|] eqn:Hm; [exfalso | reflexivity].
    destruct (stock_search_sound query m Hm)
      as (pre & trig & mid & tok & post & O & _).
    exact (no_capital_no_occurrence query pre trig mid tok post Hq O).
  - intros ticker. split; intros H.
    + destruct (api_calls agents query ticker (or_introl H))
        as (pre & trig & mid & post & O & _).
      exact (no_capital_no_occurrence query pre trig mid ticker post Hq O).
    + destruct (api_calls agents query ticker (or_intror H))
        as (pre & trig & mid & post & O & _).
      exact (no_capital_no_occurrence query pre trig mid ticker post Hq O).
Qed.

(** X18: on the analysis path the answer does not depend on the query: the
    analysis agent is asked about AAPL and GOOGL whatever tickers the query
    names, and two queries on this path get the same calls and the same
    answer. *)
Theorem analysis_ignores_the_query {RT : PyRuntime} (agents : Agents)
    (query query' : str) :
  search stock_regex query = None ->
  any_in news_keywords (lower query) = false ->
  any_in analysis_keywords (lower query) = true ->
  search stock_regex query' = None ->
  any_in news_keywords (lower query') = false ->
  any_in analysis_keywords (lower query') = true ->
  trace (orchestrate_query agents query) =
    [CallAnalysis [py "AAPL"; py "GOOGL"]] /\
  orchestrate_query agents query = orchestrate_query agents query'.
Proof.
  intros Hs Hn Ha Hs' Hn' Ha'.
  rewrite (orchestrate_query_unmatched agents query Hs), Hn, Ha.
  rewrite (orchestrate_query_unmatched agents query' Hs'), Hn', Ha'.
  split; [apply trace_analysis_handler | reflexivity].
Qed.

End RouteFacts.

Module RouteScenarios.
Import Re Orchestrator Ticker.

Lemma api_tickers_come_from_the_query_witness :
  In (CallQuote (py "TSLA"))
     (trace (orchestrate_query (RT := Reference.runtime) Reference.quiet
               Reference.price_of_TSLA)) /\
  exists pre trig mid post,
    occurrence (RT := Reference.runtime) Reference.price_of_TSLA
      pre trig mid (py "TSLA") post /\
    first_occurrence (RT := Reference.runtime) Reference.price_of_TSLA pre mid.
Proof.
  assert (C : In (CallQuote (py "TSLA"))
                (trace (orchestrate_query (RT := Reference.runtime) Reference.quiet
                          Reference.price_of_TSLA))).
  { vm_compute. left. reflexivity. }
  split; [exact C|].
  exact (RouteFacts.api_tickers_come_from_the_query (RT := Reference.runtime)
           Reference.quiet Reference.price_of_TSLA (py "TSLA") (or_introl C)).
Defined.

Lemma queries_without_capitals_skip_the_api_witness :
  forallb (fun c => negb (is_upper_AZ c)) Fixtures.price_of_tsla = true /\
  search (RT := Reference.runtime) stock_regex Fixtures.price_of_tsla = None /\
  forall ticker,
    ~ In (CallQuote ticker)
        (trace (orchestrate_query (RT := Reference.runtime) Reference.quiet
                  Fixtures.price_of_tsla)) /\
    ~ In (CallHistorical ticker)
        (trace (orchestrate_query (RT := Reference.runtime) Reference.quiet
                  Fixtures.price_of_tsla)).
Proof.
  assert (L : forallb (fun c => negb (is_upper_AZ c)) Fixtures.price_of_tsla = true).
  { vm_compute. reflexivity. }
  split; [exact L|].
  exact (RouteFacts.queries_without_capitals_skip_the_api (RT := Reference.runtime)
           Reference.quiet Fixtures.price_of_tsla L).
Defined.

(** The ticker typed in lower case is answered by the model. *)
Example price_of_tsla_goes_to_the_model :
  orchestrate_query (RT := Reference.runtime) Reference.quiet
    Fixtures.price_of_tsla =
    ([CallGenerate (py "User asked: price of tsla. Please respond as a financial assistant.")],
     Ok (VStr (py "Markets were mixed."))).
Proof. vm_compute. reflexivity. Qed.

Lemma analysis_ignores_the_query_witness :
  search (RT := Reference.runtime) stock_regex Fixtures.analyze_NVDA = None /\
  search (RT := Reference.runtime) stock_regex
    Fixtures.portfolio_of_MSFT_and_TSLA = None /\
  trace (orchestrate_query (RT := Reference.runtime) Reference.quiet
           Fixtures.analyze_NVDA) =
    [CallAnalysis [py "AAPL"; py "GOOGL"]] /\
  orchestrate_query (RT := Reference.runtime) Reference.quiet
    Fixtures.analyze_NVDA =
  orchestrate_query (RT := Reference.runtime) Reference.quiet
    Fixtures.portfolio_of_MSFT_and_TSLA.
Proof.
  split; [vm_compute; reflexivity|]. split; [vm_compute; reflexivity|].
  apply (RouteFacts.analysis_ignores_the_query (RT := Reference.runtime)
           Reference.quiet Fixtures.analyze_NVDA
           Fixtures.portfolio_of_MSFT_and_TSLA); vm_compute; reflexivity.
Defined.

End RouteScenarios.

Module BriefFacts.
Import Orchestrator Payload CoroFacts StrFacts HandlerFacts DispatchClaims.

Section WithAgents.
Context {RT : PyRuntime}.
Variable agents : Agents.

Lemma bind_ok {A B} (t : list call) (a : A) (f : A -> M B) :
  bind (t, Ok a) f = (t ++ trace (f a), result (f a)).
Proof. unfold bind, trace, result. now destruct (f a). Qed.

(** A loop that ran to its end has asked for every ticker, in order, and
    appended one line for each, provided the agent hands over no truthy
    ["Note"]. *)
Lemma brief_loop_ok (tickers : list str) : forall brief_parts out,
  (forall ticker data note,
     get_stock_quote agents ticker = Ok data ->
     py_get data (py "Note") = Ok note -> truthy note = false) ->
  result (brief_loop agents tickers brief_parts) = Ok out ->
  exists lines,
    out = inr (brief_parts ++ lines) /\
    Forall2 (fun ticker line =>
               exists data,
                 get_stock_quote agents ticker = Ok data /\
                 ticker_line ticker data = Ok line) tickers lines /\
    trace (brief_loop agents tickers brief_parts) = map CallQuote tickers.
Proof.
  induction tickers as [|ticker more IH]; intros brief_parts out Hq H.
  - cbn in H. inversion H. exists []. rewrite app_nil_r.
    repeat split. constructor.
  - cbn [brief_loop] in *.
    destruct (get_stock_quote agents ticker) as [data|e] eqn:Q;
      [|rewrite bind_await_raise in H; discriminate H].
    rewrite bind_await_ok in *. cbn [result snd trace fst] in *.
    destruct (py_get data (py "Note")) as [note|e] eqn:N;
      [|rewrite bind_lift_raise in H; discriminate H].
    rewrite bind_lift_ok in *. rewrite (Hq ticker data note Q N) in *.
    destruct (ticker_line ticker data) as [line|e] eqn:L;
      [|rewrite bind_lift_raise in H; discriminate H].
    rewrite bind_lift_ok in *.
    destruct (IH (brief_parts ++ [line]) out Hq H) as (lines & -> & F & T).
    exists (line :: lines). rewrite <- app_assoc. split; [reflexivity|].
    split; [|cbn [map]; now f_equal].
    constructor; [|exact F]. now exists data.
Qed.

End WithAgents.

(** The quote agent of the backend hands over no truthy ["Note"]. *)
Lemma backend_quotes_carry_no_note {RT : PyRuntime}
    (env : ApiAgent.Environment) (ticker : str) (data note : value) :
  ApiAgent.get_stock_quote env ticker = Ok data ->
  py_get data (py "Note") = Ok note -> truthy note = false.
Proof.
  intros Hq Hn. unfold ApiAgent.get_stock_quote in Hq.
  apply SignalClaims.fetch_drops_note in Hq.
  apply SignalClaims.no_note_guard in Hq. now rewrite Hn in Hq.
Qed.

Lemma market_news {RT : PyRuntime} :
  ScrapingAgent.get_financial_news_mock (py "market") = ScrapingAgent.MOCK_market.
Proof. vm_compute. reflexivity. Qed.

(** X19: in the assembled backend a market brief that is returned is always
    the summary of the model, never a provider note: the quote agent was
    asked for SPY, QQQ and DIA, in this order, each answer gave one line,
    the news agent was asked for the market headlines, and the model
    summarised the three lines, the news heading and the first three
    market headlines of the mock. *)
Theorem backend_brief_is_a_summary {RT : PyRuntime}
    (env : ApiAgent.Environment) (llm_ainvoke : str -> res str)
    (store : Type) (faiss : RetrieverAgent.Faiss store)
    (faiss_vectorstore : option store) (analyze : list str -> res value)
    (brief : value) :
  result (Backend.get_market_brief env llm_ainvoke faiss faiss_vectorstore
            analyze) = Ok brief ->
  exists spy qqq dia prompt summary,
    Forall2 (fun ticker line =>
               exists data,
                 ApiAgent.get_stock_quote env ticker = Ok data /\
                 ticker_line ticker data = Ok line)
      [py "SPY"; py "QQQ"; py "DIA"] [spy; qqq; dia] /\
    prompt =
      py "Summarize this market brief:" ++ [newline] ++
      join [newline]
        [spy; qqq; dia; newline :: py "🗞️ News:";
         py "- " ++ py "Global markets show mixed signals as inflation concerns persist.";
         py "- " ++ py "Tech stocks lead rally; S&P 500 hits new high.";
         py "- " ++ py "Oil prices surge amidst geopolitical tensions."] /\
    llm_ainvoke prompt = Ok summary /\
    brief = VStr summary /\
    trace (Backend.get_market_brief env llm_ainvoke faiss faiss_vectorstore
             analyze) =
      [CallQuote (py "SPY"); CallQuote (py "QQQ"); CallQuote (py "DIA");
       CallNews (py "market"); CallGenerate prompt].
Proof.
  unfold Backend.get_market_brief, get_market_brief.
  set (agents := Backend.agents env llm_ainvoke faiss faiss_vectorstore analyze).
  destruct (brief_loop agents index_tickers []) as [calls [looped|e]] eqn:B;
    [|intros H; discriminate H].
  assert (R : result (brief_loop agents index_tickers []) = Ok looped)
    by now rewrite B.
  apply brief_loop_ok in R as (lines & -> & F & T).
  2:{ intros ticker data note. apply backend_quotes_carry_no_note. }
  rewrite B in T. cbn [trace fst] in T. subst calls.
  unfold index_tickers in F.
  inversion F as [|? spy ? l1 Hspy F1]; subst.
  inversion F1 as [|? qqq ? l2 Hqqq F2]; subst.
  inversion F2 as [|? dia ? l3 Hdia F3]; subst.
  inversion F3; subst. clear F1 F2 F3.
  rewrite bind_ok. cbn [get_financial_news_mock agents Backend.agents].
  rewrite market_news, bind_await_ok.
  unfold ScrapingAgent.MOCK_market. cbn [firstn map app].
  subst agents. cbn [generate_text_with_gemini Backend.agents].
  unfold LanguageAgent.generate_text_with_gemini.
  match goal with
  | |- context [llm_ainvoke ?p] =>
      set (prompt := p); destruct (llm_ainvoke prompt) as [summary|e] eqn:L
  end.
  - rewrite bind_await_ok. cbn [result snd trace fst ret lift app map index_tickers].
    intros H. inversion H. subst brief.
    exists spy, qqq, dia, prompt, summary.
    split; [exact F|]. split; [reflexivity|]. split; [exact L|].
    split; reflexivity.
  - rewrite bind_await_raise. cbn [result snd]. intros H. discriminate H.
Qed.

(** X20: an empty ["Global Quote"], without a provider signal, is read in
    two ways: to a query the quote handler answers that it could not
    retrieve the quote, and the market brief lists the ticker with the
    price and the change [N/A]. *)
Theorem empty_global_quote_is_read_two_ways {RT : PyRuntime} (agents : Agents)
    (ticker : str) (d : list (str * value)) (brief_parts : list str) :
  get_stock_quote agents ticker = Ok (VDict d) ->
  no_signal d ->
  lookup (py "Global Quote") d = Some (VDict []) ->
  quote_handler agents ticker =
    ([CallQuote ticker],
     Ok (VStr (py "⚠️ Could not retrieve live quote for " ++ ticker ++ py "."))) /\
  brief_loop agents [ticker] brief_parts =
    ([CallQuote ticker],
     Ok (inr (brief_parts ++ [ticker ++ py ": $N/A (Change: N/A)"]))).
Proof.
  intros Hq Hs Hg. split.
  - unfold quote_handler. rewrite Hq, bind_await_ok.
    rewrite (pass_through_no_signal d _ Hs).
    unfold has_global_quote, py_in, py_item.
    rewrite (lookup_some_nonempty d _ _ Hg), Hg. cbn [res_bind].
    cbn [truthy length Nat.eqb negb]. rewrite bind_lift_ok. reflexivity.
  - cbn [brief_loop]. rewrite Hq, bind_await_ok.
    rewrite py_get_dict, bind_lift_ok. destruct Hs as [Hn _]. rewrite Hn.
    unfold ticker_line, py_in, py_item, py_get_default.
    rewrite (lookup_some_nonempty d _ _ Hg), Hg. cbn [res_bind lookup].
    rewrite bind_lift_ok. cbn [py_str]. reflexivity.
Qed.

End BriefFacts.

Module BriefScenarios.
Import Orchestrator Payload.

Lemma backend_brief_is_a_summary_witness :
  result (Backend.get_market_brief (RT := Reference.runtime)
            (Reference.upstream Reference.spy_noted) Reference.llm_ainvoke
            (Reference.faiss Reference.unrelated) None Reference.analyze) =
    Ok (VStr (py "Markets were mixed.")) /\
  exists spy qqq dia prompt summary,
    Forall2 (fun ticker line =>
               exists data,
                 ApiAgent.get_stock_quote (RT := Reference.runtime)
                   (Reference.upstream Reference.spy_noted) ticker = Ok data /\
                 ticker_line (RT := Reference.runtime) ticker data = Ok line)
      [py "SPY"; py "QQQ"; py "DIA"] [spy; qqq; dia] /\
    prompt =
      py "Summarize this market brief:" ++ [newline] ++
      join [newline]
        [spy; qqq; dia; newline :: py "🗞️ News:";
         py "- " ++ py "Global markets show mixed signals as inflation concerns persist.";
         py "- " ++ py "Tech stocks lead rally; S&P 500 hits new high.";
         py "- " ++ py "Oil prices surge amidst geopolitical tensions."] /\
    Reference.llm_ainvoke prompt = Ok summary /\
    VStr (py "Markets were mixed.") = VStr summary /\
    trace (Backend.get_market_brief (RT := Reference.runtime)
             (Reference.upstream Reference.spy_noted) Reference.llm_ainvoke
             (Reference.faiss Reference.unrelated) None Reference.analyze) =
      [CallQuote (py "SPY"); CallQuote (py "QQQ"); CallQuote (py "DIA");
       CallNews (py "market"); CallGenerate prompt].
Proof.
  assert (B : result (Backend.get_market_brief (RT := Reference.runtime)
                        (Reference.upstream Reference.spy_noted)
                        Reference.llm_ainvoke
                        (Reference.faiss Reference.unrelated) None
                        Reference.analyze) =
              Ok (VStr (py "Markets were mixed."))).
  { vm_compute. reflexivity. }
  split; [exact B|].
  exact (BriefFacts.backend_brief_is_a_summary (RT := Reference.runtime)
           (Reference.upstream Reference.spy_noted) Reference.llm_ainvoke
           (list str) (Reference.faiss Reference.unrelated) None
           Reference.analyze (VStr (py "Markets were mixed.")) B).
Defined.

Lemma empty_global_quote_is_read_two_ways_witness :
  get_stock_quote Fixtures.zzzz_unknown (py "ZZZZ") =
    Ok (VDict Fixtures.unknown_symbol) /\
  no_signal Fixtures.unknown_symbol /\
  quote_handler (RT := Reference.runtime) Fixtures.zzzz_unknown (py "ZZZZ") =
    ([CallQuote (py "ZZZZ")],
     Ok (VStr (py "⚠️ Could not retrieve live quote for " ++ py "ZZZZ" ++ py "."))) /\
  brief_loop (RT := Reference.runtime) Fixtures.zzzz_unknown [py "ZZZZ"] [] =
    ([CallQuote (py "ZZZZ")],
     Ok (inr ([] ++ [py "ZZZZ" ++ py ": $N/A (Change: N/A)"]))).
Proof.
  assert (Q : get_stock_quote Fixtures.zzzz_unknown (py "ZZZZ") =
              Ok (VDict Fixtures.unknown_symbol)) by (vm_compute; reflexivity).
  assert (S : no_signal Fixtures.unknown_symbol) by (split; reflexivity).
  split; [exact Q|]. split; [exact S|].
  exact (BriefFacts.empty_global_quote_is_read_two_ways (RT := Reference.runtime)
           Fixtures.zzzz_unknown (py "ZZZZ") Fixtures.unknown_symbol []
           Q S eq_refl).
Defined.

End BriefScenarios.

Module HistoricalFacts.
Import Re Orchestrator Payload CoroFacts StrFacts HandlerFacts DispatchClaims.
Import HistoricalClaims.

(** The report of a series of two days or more whose oldest recent close
    is zero. *)
Lemma historical_report_zero {RT : PyRuntime} (ticker : str)
    (d series : list (str * value)) (latest : day_row) (older : list day_row) :
  lookup (py "Time Series (Daily)") d = Some (VDict series) ->
  daily_series series (latest :: older) ->
  older <> [] ->
  (last (recent (latest :: older)) 0 == 0)%Q ->
  historical_report ticker (VDict d) = Raise (PyError ZeroDivisionError).
Proof.
  intros Hl Hs Hne Hz. set (rows := latest :: older) in *.
  pose proof (lookup_row series rows Hs) as Hrow.
  destruct Hs as [HF HN].
  unfold historical_report, py_item at 1. rewrite Hl. cbn [res_bind].
  unfold py_keys. rewrite (keys_of_series series rows HF). cbn [res_bind map rows].
  destruct (Hrow latest (or_introl eq_refl)) as (fields & Hf & Hc & Hp).
  unfold py_item at 1. rewrite Hf. cbn [res_bind].
  unfold py_item at 1. rewrite Hc. cbn [res_bind].
  change (row_date latest :: map row_date older) with (map row_date rows).
  rewrite firstn_map.
  rewrite (res_map_rows _ row_price (firstn 7 rows)).
  2:{ intros row Hin. apply in_firstn in Hin.
      destruct (Hrow row Hin) as (fields' & Hf' & Hc' & Hp').
      cbn beta. unfold py_item at 1. rewrite Hf'. cbn [res_bind].
      unfold py_item. rewrite Hc'. cbn [res_bind]. exact Hp'. }
  cbn [res_bind]. fold (recent rows). rewrite length_recent.
  assert (L : Nat.ltb 1 (Nat.min 7 (length rows)) = true).
  { apply Nat.ltb_lt. unfold rows. destruct older; [congruence|].
    cbn [length]. lia. }
  rewrite L. unfold returns_of, last_price.
  apply Qeq_bool_iff in Hz. now rewrite Hz.
Qed.

(** X21: on the historical path, a series of two days or more whose oldest
    close among the most recent seven is zero makes the division of the
    percentage fail: [orchestrate_query] raises [ZeroDivisionError] after
    the one call to the API agent, and [POST /ask] answers with status
    500. *)
Theorem zero_close_fails_the_request {RT : PyRuntime} (agents : Agents)
    (query : str) (m : match_object) (ticker : str)
    (d : list (str * value)) (rows : list day_row) :
  Re.search stock_regex query = Some m ->
  ticker_of m = Ok ticker ->
  contains (py "historical") (lower query) ||
  contains (py "performance") (lower query) = true ->
  get_historical_data agents ticker = Ok (VDict d) ->
  no_signal d ->
  series_of d rows ->
  2 <= length rows ->
  (last (recent rows) 0 == 0)%Q ->
  orchestrate_query agents query =
    ([CallHistorical ticker], Raise (PyError ZeroDivisionError)) /\
  BackendApp.ask_finance_bot (orchestrate_query agents query) =
    ([CallHistorical ticker],
     Raise (HTTPException 500 (VStr (exn_str (PyError ZeroDivisionError))))).
Proof.
  intros Hm Ht Hh Hd Hs Hr Hlen Hz.
  assert (E : orchestrate_query agents query =
              ([CallHistorical ticker], Raise (PyError ZeroDivisionError))).
  { rewrite (orchestrate_query_matched agents query m ticker Hm Ht), Hh.
    unfold historical_handler. rewrite Hd, bind_await_ok.
    rewrite (pass_through_no_signal d _ Hs).
    unfold has_time_series, series_of in *. rewrite py_get_dict. unfold field.
    destruct (lookup (py "Time Series (Daily)") d) as [v|] eqn:L;
      [|subst rows; cbn [length] in Hlen; lia].
    rewrite (lookup_some_nonempty d _ _ L). cbn [res_bind].
    destruct v as [| | | | | |series];
      try (destruct Hr as [_ ->]; cbn [length] in Hlen; lia).
    destruct rows as [|latest older]; [cbn [length] in Hlen; lia|].
    assert (T : truthy (VDict series) = true).
    { destruct Hr as [HF _]. inversion HF; subst. reflexivity. }
    rewrite T, bind_lift_ok.
    rewrite (historical_report_zero ticker d series latest older L Hr);
      [reflexivity | | exact Hz].
    destruct older; [cbn [length] in Hlen; lia | discriminate]. }
  split; [exact E|]. rewrite E. reflexivity.
Qed.

Lemma lookup_firstn (k : str) (n : nat) : forall (series : list (str * value)),
  In k (keys (firstn n series)) ->
  lookup k (firstn n series) = lookup k series.
Proof.
  induction n as [|n IH]; intros [|[k' v] series] H; cbn in H; try contradiction.
  cbn [firstn lookup]. destruct (Str.eqb k k') eqn:E; [reflexivity|].
  apply IH. destruct H as [H|H]; [|exact H].
  subst k'. now rewrite eqb_refl in E.
Qed.

Lemma res_map_ext {A B} (f g : A -> res B) (xs : list A) :
  (forall x, In x xs -> f x = g x) -> res_map f xs = res_map g xs.
Proof.
  induction xs as [|x xs IH]; intros H; [reflexivity|].
  cbn [res_map]. rewrite (H x) by now left.
  rewrite IH; [reflexivity|]. intros y Hy. apply H. now right.
Qed.

Lemma keys_firstn (n : nat) (series : list (str * value)) :
  keys (firstn n series) = firstn n (keys series).
Proof. unfold keys. now rewrite firstn_map. Qed.

(** The report reads the seven most recent entries of the series only. *)
Lemma historical_report_recent {RT : PyRuntime} (ticker : str)
    (d : list (str * value)) (series : list (str * value)) :
  lookup (py "Time Series (Daily)") d = Some (VDict series) ->
  historical_report ticker (VDict d) =
  historical_report ticker
    (VDict [(py "Time Series (Daily)", VDict (firstn 7 series))]).
Proof.
  intros H. unfold historical_report.
  assert (E1 : py_item (VDict d) (py "Time Series (Daily)") = Ok (VDict series)).
  { unfold py_item. now rewrite H. }
  assert (E2 : py_item (VDict [(py "Time Series (Daily)", VDict (firstn 7 series))])
                 (py "Time Series (Daily)") = Ok (VDict (firstn 7 series))).
  { unfold py_item. cbn [lookup]. now rewrite eqb_refl. }
  rewrite E1, E2. cbn [res_bind py_keys]. rewrite keys_firstn.
  destruct series as [|[date entry] series]; [reflexivity|].
  set (S := (date, entry) :: series).
  change (keys S) with (date :: keys series).
  rewrite firstn_firstn. cbn [Nat.min].
  rewrite (firstn_cons 6 date (keys series)). cbv beta iota.
  assert (L : forall k, In k (date :: firstn 6 (keys series)) ->
              py_item (VDict (firstn 7 S)) k = py_item (VDict S) k).
  { intros k Hk. unfold py_item. rewrite lookup_firstn; [reflexivity|].
    rewrite keys_firstn. unfold S. cbn [keys map fst]. fold (keys series).
    now rewrite firstn_cons. }
  rewrite (L date) by now left.
  destruct (py_item (VDict S) date) as [e|]; [|reflexivity].
  cbn [res_bind]. destruct (py_item e (py "4. close")) as [c|]; [|reflexivity].
  cbn [res_bind].
  erewrite res_map_ext; [reflexivity|].
  intros k Hk. cbn beta. now rewrite L.
Qed.

(** X22: on the historical path the answer is computed from the seven most
    recent entries of the series alone: two responses without a provider
    signal whose series agree on their first seven entries get the same
    calls and the same outcome, whatever the older entries hold, malformed
    ones included. *)
Theorem older_days_do_not_matter {RT : PyRuntime} (agents agents' : Agents)
    (query : str) (m : match_object) (ticker : str)
    (d d' series series' : list (str * value)) :
  Re.search stock_regex query = Some m ->
  ticker_of m = Ok ticker ->
  contains (py "historical") (lower query) ||
  contains (py "performance") (lower query) = true ->
  get_historical_data agents ticker = Ok (VDict d) ->
  get_historical_data agents' ticker = Ok (VDict d') ->
  no_signal d -> no_signal d' ->
  lookup (py "Time Series (Daily)") d = Some (VDict series) ->
  lookup (py "Time Series (Daily)") d' = Some (VDict series') ->
  firstn 7 series = firstn 7 series' ->
  orchestrate_query agents query = orchestrate_query agents' query.
Proof.
  intros Hm Ht Hh Hd Hd' Hs Hs' Hl Hl' E.
  rewrite (orchestrate_query_matched agents query m ticker Hm Ht), Hh.
  rewrite (orchestrate_query_matched agents' query m ticker Hm Ht), Hh.
  unfold historical_handler. rewrite Hd, Hd', !bind_await_ok.
  rewrite (pass_through_no_signal d _ Hs), (pass_through_no_signal d' _ Hs').
  unfold has_time_series. rewrite !py_get_dict. unfold field.
  rewrite Hl, Hl', (lookup_some_nonempty d _ _ Hl),
    (lookup_some_nonempty d' _ _ Hl').
  cbn [res_bind].
  assert (T : truthy (VDict series) = truthy (VDict series')).
  { destruct series, series'; try reflexivity; discriminate E. }
  rewrite T, !bind_lift_ok.
  rewrite (historical_report_recent ticker d series Hl).
  rewrite (historical_report_recent ticker d' series' Hl').
  now rewrite E.
Qed.

End HistoricalFacts.

Module HistoricalScenarios.
Import Re Orchestrator Payload.

Lemma two_days_series :
  series_of (RT := Reference.runtime)
    (Reference.daily_items Fixtures.two_days) Fixtures.two_rows.
Proof.
  unfold series_of, daily_series. cbn [lookup Reference.daily_items].
  split.
  - repeat (constructor;
      [split; [reflexivity | eexists; repeat split; reflexivity]|]).
    constructor.
  - repeat (constructor; [cbv; intuition discriminate|]). constructor.
Defined.

Lemma zero_close_fails_the_request_witness :
  get_historical_data Fixtures.ibm_delisted (py "IBM") =
    Ok (VDict (Reference.daily_items Fixtures.two_days)) /\
  (last (recent Fixtures.two_rows) 0 == 0)%Q /\
  orchestrate_query (RT := Reference.runtime) Fixtures.ibm_delisted
    Reference.historical_IBM =
    ([CallHistorical (py "IBM")], Raise (PyError ZeroDivisionError)) /\
  BackendApp.ask_finance_bot (RT := Reference.runtime)
    (orchestrate_query (RT := Reference.runtime) Fixtures.ibm_delisted
       Reference.historical_IBM) =
    ([CallHistorical (py "IBM")],
     Raise (HTTPException 500
              (VStr (exn_str (PyRuntime := Reference.runtime)
                       (PyError ZeroDivisionError))))).
Proof.
  split; [vm_compute; reflexivity|]. split; [reflexivity|].
  apply (HistoricalFacts.zero_close_fails_the_request (RT := Reference.runtime)
           Fixtures.ibm_delisted Reference.historical_IBM
           (Ticker.stock_match_of Reference.historical_IBM
              [] (py "historical") (py " performance of ") (py "IBM"))
           (py "IBM")
           (Reference.daily_items Fixtures.two_days)
           Fixtures.two_rows).
  - vm_compute. reflexivity.
  - vm_compute. reflexivity.
  - vm_compute. reflexivity.
  - vm_compute. reflexivity.
  - split; reflexivity.
  - exact two_days_series.
  - cbn [length Fixtures.two_rows]. lia.
  - reflexivity.
Defined.

Lemma older_days_do_not_matter_witness :
  firstn 7 Reference.nine_days = firstn 7 Fixtures.seven_days_and_junk /\
  orchestrate_query (RT := Reference.runtime) Reference.ibm_history
    Reference.historical_IBM =
  orchestrate_query (RT := Reference.runtime) Fixtures.ibm_history_with_junk
    Reference.historical_IBM.
Proof.
  assert (E : firstn 7 Reference.nine_days = firstn 7 Fixtures.seven_days_and_junk)
    by reflexivity.
  split; [exact E|].
  apply (HistoricalFacts.older_days_do_not_matter (RT := Reference.runtime)
           Reference.ibm_history Fixtures.ibm_history_with_junk
           Reference.historical_IBM
           (Ticker.stock_match_of Reference.historical_IBM
              [] (py "historical") (py " performance of ") (py "IBM"))
           (py "IBM")
           (Reference.daily_items Reference.nine_days)
           (Reference.daily_items Fixtures.seven_days_and_junk)
           Reference.nine_days Fixtures.seven_days_and_junk).
  - vm_compute. reflexivity.
  - vm_compute. reflexivity.
  - vm_compute. reflexivity.
  - vm_compute. reflexivity.
  - vm_compute. reflexivity.
  - split; reflexivity.
  - split; reflexivity.
  - vm_compute. reflexivity.
  - vm_compute. reflexivity.
  - exact E.
Defined.

End HistoricalScenarios.

Module BackendFacts.
Import Re Orchestrator Payload CoroFacts HandlerFacts.

Section WithRuntime.
Context {RT : PyRuntime}.

(** A run of the scheduler that fails leaves the served brief as it was. *)
Lemma failed_runs_change_nothing (ticks : list (M value))
    (state : BackendApp.app_state) :
  Forall (fun tick => exists e, result tick = Raise e) ticks ->
  BackendApp.run_schedule ticks state = state.
Proof.
  unfold BackendApp.run_schedule.
  induction 1 as [|tick ticks [e He] _ IH]; [reflexivity|].
  cbn [fold_left]. unfold BackendApp.scheduled_market_brief at 2.
  rewrite He. exact IH.
Qed.

Lemma run_schedule_app (earlier later : list (M value))
    (state : BackendApp.app_state) :
  BackendApp.run_schedule (earlier ++ later) state =
  BackendApp.run_schedule later (BackendApp.run_schedule earlier state).
Proof. unfold BackendApp.run_schedule. apply fold_left_app. Qed.

(** Without the key every fetch fails before any request. *)
Lemma fetch_without_key (env : ApiAgent.Environment)
    (function symbol : str) (kwargs : list (str * str)) :
  ApiAgent.ALPHA_VANTAGE_API_KEY env = None \/
  ApiAgent.ALPHA_VANTAGE_API_KEY env = Some [] ->
  ApiAgent.fetch_alpha_vantage_data env function symbol kwargs =
  Raise (HTTPException 500
           (VStr (py "Alpha Vantage API key not set in environment."))).
Proof.
  unfold ApiAgent.fetch_alpha_vantage_data. now intros [-> | ->].
Qed.

End WithRuntime.

(** X23: [GET /get_market_brief] serves the brief of the last run of the
    scheduler that succeeded: the runs that fail after it change nothing,
    and as long as no run has succeeded the placeholder sentence is
    served. *)
Theorem served_brief_is_the_last_success (later : list (M value)) :
  Forall (fun tick => exists e, result tick = Raise e) later ->
  BackendApp.get_current_market_brief (BackendApp.run_schedule later None) =
    VDict [(py "market_brief",
            VStr (py "No market brief available yet. It runs on a schedule."))] /\
  forall (earlier : list (M value)) (tick : M value) (brief : value)
         (state : BackendApp.app_state),
    result tick = Ok brief ->
    BackendApp.get_current_market_brief
      (BackendApp.run_schedule (earlier ++ tick :: later) state) =
    VDict [(py "market_brief", brief)].
Proof.
  intros H. split.
  - now rewrite (failed_runs_change_nothing later None H).
  - intros earlier tick brief state Hb.
    rewrite run_schedule_app.
    change (tick :: later) with ([tick] ++ later). rewrite run_schedule_app.
    rewrite (failed_runs_change_nothing later _ H).
    unfold BackendApp.run_schedule at 1. cbn [fold_left].
    unfold BackendApp.scheduled_market_brief. now rewrite Hb.
Qed.

(** X24: [POST /ask_voice] never answers with status 400: every failure,
    of the transcription, of the dispatcher or of the synthesis, reaches the
    client with status 500 and a detail that starts with
    [Voice processing failed: ]; for an empty transcription the cause named
    is the 400 raised inside the [try] block, and the dispatcher is not
    called. *)
Theorem voice_failures_are_500 {RT : PyRuntime} {audio : Type}
    (transcribed : res str) (orchestrate : str -> M value)
    (text_to_speech : value -> res audio) (e : exn) :
  result (BackendApp.ask_finance_bot_voice transcribed orchestrate
            text_to_speech) = Raise e ->
  exists cause,
    e = HTTPException 500
          (VStr (py "Voice processing failed: " ++ exn_str cause)) /\
    (transcribed = Ok [] ->
     cause = HTTPException 400 (VStr (py "Could not transcribe audio.")) /\
     trace (BackendApp.ask_finance_bot_voice transcribed orchestrate
              text_to_speech) = []).
Proof.
  unfold BackendApp.ask_finance_bot_voice, BackendApp.voice_failure.
  destruct transcribed as [[|c text]|e0].
  - intros H. inversion H. eexists. split; [reflexivity|].
    intros _. split; reflexivity.
  - destruct (orchestrate (c :: text)) as [calls [response|e1]].
    + destruct (text_to_speech response) as [bytes|e2]; intros H; inversion H.
      eexists. split; [reflexivity | discriminate].
    + intros H. inversion H. eexists. split; [reflexivity | discriminate].
  - intros H. inversion H. eexists. split; [reflexivity | discriminate].
Qed.

(** X25: without the API key in the environment every query that the
    pattern of rule 1 matches fails: the one call to the API agent raises,
    [orchestrate_query] raises with it, and [POST /ask] answers with status
    500. *)
Theorem stock_queries_need_the_key {RT : PyRuntime}
    (env : ApiAgent.Environment) (llm_ainvoke : str -> res str)
    (store : Type) (faiss : RetrieverAgent.Faiss store)
    (faiss_vectorstore : option store) (analyze : list str -> res value)
    (query : str) (m : match_object) :
  ApiAgent.ALPHA_VANTAGE_API_KEY env = None \/
  ApiAgent.ALPHA_VANTAGE_API_KEY env = Some [] ->
  Re.search stock_regex query = Some m ->
  exists ticker asked,
    ticker_of m = Ok ticker /\
    (asked = CallQuote ticker \/ asked = CallHistorical ticker) /\
    Backend.orchestrate_query env llm_ainvoke faiss faiss_vectorstore analyze
      query =
      ([asked],
       Raise (HTTPException 500
                (VStr (py "Alpha Vantage API key not set in environment.")))) /\
    BackendApp.ask_finance_bot
      (Backend.orchestrate_query env llm_ainvoke faiss faiss_vectorstore
         analyze query) =
      ([asked],
       Raise (HTTPException 500
                (VStr (exn_str
                         (HTTPException 500
                            (VStr (py "Alpha Vantage API key not set in environment."))))))).
Proof.
  intros Hk Hm. unfold Backend.orchestrate_query.
  destruct (StockSearch.stock_search_sound query m Hm)
    as (pre & trig & mid & tok & post & O & _ & Em).
  assert (Ht : ticker_of m = Ok tok).
  { rewrite Em. now apply TickerFacts.ticker_of_occurrence with post. }
  rewrite (orchestrate_query_matched _ query m tok Hm Ht).
  destruct (_ || _).
  - exists tok, (CallHistorical tok). split; [exact Ht|].
    split; [now right|].
    unfold historical_handler. cbn [get_historical_data Backend.agents].
    unfold ApiAgent.get_historical_data.
    rewrite (fetch_without_key env _ _ _ Hk), bind_await_raise.
    split; reflexivity.
  - exists tok, (CallQuote tok). split; [exact Ht|].
    split; [now left|].
    unfold quote_handler. cbn [get_stock_quote Backend.agents].
    unfold ApiAgent.get_stock_quote.
    rewrite (fetch_without_key env _ _ _ Hk), bind_await_raise.
    split; reflexivity.
Qed.

(** X26: without the API key in the environment no market brief is ever
    served: each run of [get_market_brief] fails at the quote of SPY,
    before the news and the model are asked, and however many times the
    scheduler runs, [GET /get_market_brief] answers with the placeholder
    sentence. *)
Theorem no_key_no_brief {RT : PyRuntime}
    (env : ApiAgent.Environment) (llm_ainvoke : str -> res str)
    (store : Type) (faiss : RetrieverAgent.Faiss store)
    (faiss_vectorstore : option store) (analyze : list str -> res value)
    (runs : nat) :
  ApiAgent.ALPHA_VANTAGE_API_KEY env = None \/
  ApiAgent.ALPHA_VANTAGE_API_KEY env = Some [] ->
  Backend.get_market_brief env llm_ainvoke faiss faiss_vectorstore analyze =
    ([CallQuote (py "SPY")],
     Raise (HTTPException 500
              (VStr (py "Alpha Vantage API key not set in environment.")))) /\
  BackendApp.get_current_market_brief
    (BackendApp.run_schedule
       (repeat (Backend.get_market_brief env llm_ainvoke faiss
                  faiss_vectorstore analyze) runs) None) =
    VDict [(py "market_brief",
            VStr (py "No market brief available yet. It runs on a schedule."))].
Proof.
  intros Hk.
  assert (B : Backend.get_market_brief env llm_ainvoke faiss faiss_vectorstore
                analyze =
              ([CallQuote (py "SPY")],
               Raise (HTTPException 500
                        (VStr (py "Alpha Vantage API key not set in environment."))))).
  { unfold Backend.get_market_brief, get_market_brief, index_tickers.
    cbn [brief_loop get_stock_quote Backend.agents].
    unfold ApiAgent.get_stock_quote.
    rewrite (fetch_without_key env _ _ _ Hk), bind_await_raise. reflexivity. }
  split; [exact B|].
  rewrite failed_runs_change_nothing; [reflexivity|].
  apply Forall_forall. intros tick Hin. apply repeat_spec in Hin. subst tick.
  rewrite B. eexists. reflexivity.
Qed.

End BackendFacts.

Module BackendScenarios.
Import Re Orchestrator.

Lemma served_brief_is_the_last_success_witness :
  Forall (fun tick => exists e, result tick = Raise e) [Fixtures.failed_run] /\
  BackendApp.get_current_market_brief
    (BackendApp.run_schedule [Fixtures.failed_run] None) =
    VDict [(py "market_brief",
            VStr (py "No market brief available yet. It runs on a schedule."))] /\
  BackendApp.get_current_market_brief
    (BackendApp.run_schedule
       ([Fixtures.failed_run] ++ Fixtures.good_run :: [Fixtures.failed_run])
       None) =
    VDict [(py "market_brief", VStr (py "Markets were mixed."))].
Proof.
  assert (F : Forall (fun tick => exists e, result tick = Raise e)
                [Fixtures.failed_run]).
  { constructor; [eexists; reflexivity | constructor]. }
  split; [exact F|].
  destruct (BackendFacts.served_brief_is_the_last_success [Fixtures.failed_run] F)
    as [P S].
  split; [exact P|].
  apply (S [Fixtures.failed_run] Fixtures.good_run
           (VStr (py "Markets were mixed.")) None).
  vm_compute. reflexivity.
Defined.

Lemma voice_failures_are_500_witness :
  result (BackendApp.ask_finance_bot_voice (RT := Reference.runtime)
            (Ok []) (orchestrate_query (RT := Reference.runtime) Reference.quiet)
            Fixtures.text_to_speech) =
    Raise (HTTPException 500
             (VStr (py "Voice processing failed: 400: Could not transcribe audio."))) /\
  exists cause,
    HTTPException 500
      (VStr (py "Voice processing failed: 400: Could not transcribe audio.")) =
    HTTPException 500
      (VStr (py "Voice processing failed: " ++
             exn_str (PyRuntime := Reference.runtime) cause)) /\
    (@Ok str [] = Ok [] ->
     cause = HTTPException 400 (VStr (py "Could not transcribe audio.")) /\
     trace (BackendApp.ask_finance_bot_voice (RT := Reference.runtime)
              (Ok []) (orchestrate_query (RT := Reference.runtime) Reference.quiet)
              Fixtures.text_to_speech) = []).
Proof.
  assert (V : result (BackendApp.ask_finance_bot_voice (RT := Reference.runtime)
                        (Ok [])
                        (orchestrate_query (RT := Reference.runtime) Reference.quiet)
                        Fixtures.text_to_speech) =
              Raise (HTTPException 500
                       (VStr (py "Voice processing failed: 400: Could not transcribe audio.")))).
  { vm_compute. reflexivity. }
  split; [exact V|].
  exact (BackendFacts.voice_failures_are_500 (RT := Reference.runtime)
           (Ok []) (orchestrate_query (RT := Reference.runtime) Reference.quiet)
           Fixtures.text_to_speech _ V).
Defined.

Lemma stock_queries_need_the_key_witness :
  ApiAgent.ALPHA_VANTAGE_API_KEY Fixtures.no_key = None /\
  exists ticker asked,
    ticker_of (RT := Reference.runtime)
      (Ticker.stock_match_of Reference.price_of_TSLA
         (py "What's the ") (py "price") (py " of ") (py "TSLA")) = Ok ticker /\
    (asked = CallQuote ticker \/ asked = CallHistorical ticker) /\
    Backend.orchestrate_query (RT := Reference.runtime) Fixtures.no_key
      Reference.llm_ainvoke (Reference.faiss Reference.unrelated) None
      Reference.analyze Reference.price_of_TSLA =
      ([asked],
       Raise (HTTPException 500
                (VStr (py "Alpha Vantage API key not set in environment.")))) /\
    BackendApp.ask_finance_bot (RT := Reference.runtime)
      (Backend.orchestrate_query (RT := Reference.runtime) Fixtures.no_key
         Reference.llm_ainvoke (Reference.faiss Reference.unrelated) None
         Reference.analyze Reference.price_of_TSLA) =
      ([asked],
       Raise (HTTPException 500
                (VStr (exn_str (PyRuntime := Reference.runtime)
                         (HTTPException 500
                            (VStr (py "Alpha Vantage API key not set in environment."))))))).
Proof.
  split; [reflexivity|].
  apply (BackendFacts.stock_queries_need_the_key (RT := Reference.runtime)
           Fixtures.no_key Reference.llm_ainvoke (list str)
           (Reference.faiss Reference.unrelated) None Reference.analyze
           Reference.price_of_TSLA
           (Ticker.stock_match_of Reference.price_of_TSLA
              (py "What's the ") (py "price") (py " of ") (py "TSLA"))).
  - left. reflexivity.
  - vm_compute. reflexivity.
Defined.

Lemma no_key_no_brief_witness :
  ApiAgent.ALPHA_VANTAGE_API_KEY Fixtures.no_key = None /\
  Backend.get_market_brief (RT := Reference.runtime) Fixtures.no_key
    Reference.llm_ainvoke (Reference.faiss Reference.unrelated) None
    Reference.analyze =
    ([CallQuote (py "SPY")],
     Raise (HTTPException 500
              (VStr (py "Alpha Vantage API key not set in environment.")))) /\
  BackendApp.get_current_market_brief
    (BackendApp.run_schedule
       (repeat (Backend.get_market_brief (RT := Reference.runtime) Fixtures.no_key
                  Reference.llm_ainvoke (Reference.faiss Reference.unrelated)
                  None Reference.analyze) 3) None) =
    VDict [(py "market_brief",
            VStr (py "No market brief available yet. It runs on a schedule."))].
Proof.
  split; [reflexivity|].
  apply (BackendFacts.no_key_no_brief (RT := Reference.runtime)
           Fixtures.no_key Reference.llm_ainvoke (list str)
           (Reference.faiss Reference.unrelated) None Reference.analyze 3).
  left. reflexivity.
Defined.

End BackendScenarios.

Module AnalysisFacts.
Local Open Scope Q_scope.

Lemma ltb_lt (x y : Q) : Float.ltb x y = true <-> x < y.
Proof.
  unfold Float.ltb. rewrite Qlt_alt.
  destruct (x ?= y); split; congruence.
Qed.

Lemma ltb_ge (x y : Q) : Float.ltb x y = false -> y <= x.
Proof.
  intros H. apply Qnot_lt_le. intros L. apply ltb_lt in L. congruence.
Qed.

(** X27: the risk class follows the volatility: of two volatilities, the
    higher one is never in a lower class. If the lower one is already High
    Risk so is the higher, and if the higher one is still Low Risk so is
    the lower. *)
Theorem risk_class_is_monotone (low high : Q) :
  low <= high ->
  (AnalysisAgent.assess_risk low = py "High Risk" ->
   AnalysisAgent.assess_risk high = py "High Risk") /\
  (AnalysisAgent.assess_risk high = py "Low Risk" ->
   AnalysisAgent.assess_risk low = py "Low Risk").
Proof.
  intros L. unfold AnalysisAgent.assess_risk.
  destruct (Float.ltb 30 low) eqn:A, (Float.ltb 15 low) eqn:B,
           (Float.ltb 30 high) eqn:C, (Float.ltb 15 high) eqn:D;
    split; intros H; try reflexivity;
    try (vm_compute in H; discriminate H); exfalso;
    repeat match goal with
           | E : Float.ltb _ _ = true |- _ => apply ltb_lt in E
           | E : Float.ltb _ _ = false |- _ => apply ltb_ge in E
           end; lra.
Qed.

Lemma risk_class_is_monotone_witness :
  Fixtures.nervous <= Fixtures.frantic /\
  AnalysisAgent.assess_risk Fixtures.nervous = py "High Risk" /\
  AnalysisAgent.assess_risk Fixtures.frantic = py "High Risk".
Proof.
  assert (L : Fixtures.nervous <= Fixtures.frantic) by (vm_compute; discriminate).
  assert (H : AnalysisAgent.assess_risk Fixtures.nervous = py "High Risk")
    by (vm_compute; reflexivity).
  split; [exact L|]. split; [exact H|].
  exact (proj1 (risk_class_is_monotone Fixtures.nervous Fixtures.frantic L) H).
Defined.

End AnalysisFacts.
